(** * LlamaJavaLiveCoding: the JNI bridge to the llama inference engine

    A shallow embedding of the three native bindings under [demo/]:
    - [llama_jni.c]        (module [LlamaJni]),
    - [llama_jni_new.c]    (module [LlamaJniNew]),
    - [llama_jni_simple.c] (module [LlamaJniSimple], the mock binding).

    The bindings are glue code: every interesting step is a call into the
    JVM, into libc or into the inference engine.  Those callees are not part
    of the repository, so they are kept abstract: a [Host] answers every call
    from a state of its own, and every call is logged with its arguments and
    its answer.  The properties below are stated on what a binding returns
    and on the log of calls it made, for every host. *)

From Stdlib Require Import ZArith List String Bool Lia.
From Stdlib Require Import Strings.Byte.
From stdpp Require Import base option list gmap.
Import ListNotations.

Local Open Scope Z_scope.

(** ** Constants of the bindings *)

Definition MAX_PROMPT_LENGTH : Z := 4096.
Definition MAX_RESPONSE_LENGTH : Z := 8192.
Definition DEFAULT_MAX_TOKENS : Z := 512.

(** ** Values that cross the boundary *)

(** Native pointers and JNI handles are addresses; [NULL] is address zero. *)
Abbreviation ptr := Z (only parsing).
Definition NULL : ptr := 0.
Abbreviation jlong := Z (only parsing).
Abbreviation jint := Z (only parsing).

(** [typedef int32_t llama_token;] *)
Abbreviation llama_token := Z (only parsing).

(** A Java string reference: [None] is the null reference, [Some bs] a string
    whose modified UTF-8 encoding is [bs]. *)
Abbreviation jstring := (option (list byte)) (only parsing).

(** [struct llama_model_params] of [llama.h]. *)
Record llama_model_params := {
  n_gpu_layers : Z;
  use_mmap : bool;
  use_mlock : bool;
  kv_overrides : ptr
}.

(** [struct llama_context_params] of [llama.h]. *)
Record llama_context_params := {
  seed : Z;
  n_ctx : Z;
  n_batch : Z;
  n_ubatch : Z;
  n_seq_max : Z;
  n_threads : Z;
  n_threads_batch : Z;
  embeddings : bool;
  offload_kqv : bool;
  flash_attn : bool;
  no_perf : bool
}.

(** [struct llama_sampler_chain_params] of [llama.h]. *)
Record llama_sampler_chain_params := { chain_no_perf : bool }.

Definition set_n_gpu_layers (v : Z) (p : llama_model_params) :=
  {| n_gpu_layers := v; use_mmap := use_mmap p; use_mlock := use_mlock p;
     kv_overrides := kv_overrides p |}.

Definition set_n_ctx (v : Z) (p : llama_context_params) :=
  {| seed := seed p; n_ctx := v; n_batch := n_batch p; n_ubatch := n_ubatch p;
     n_seq_max := n_seq_max p; n_threads := n_threads p;
     n_threads_batch := n_threads_batch p; embeddings := embeddings p;
     offload_kqv := offload_kqv p; flash_attn := flash_attn p;
     no_perf := no_perf p |}.

Definition set_n_threads (v : Z) (p : llama_context_params) :=
  {| seed := seed p; n_ctx := n_ctx p; n_batch := n_batch p;
     n_ubatch := n_ubatch p; n_seq_max := n_seq_max p; n_threads := v;
     n_threads_batch := n_threads_batch p; embeddings := embeddings p;
     offload_kqv := offload_kqv p; flash_attn := flash_attn p;
     no_perf := no_perf p |}.

Definition set_seed (v : Z) (p : llama_context_params) :=
  {| seed := v; n_ctx := n_ctx p; n_batch := n_batch p; n_ubatch := n_ubatch p;
     n_seq_max := n_seq_max p; n_threads := n_threads p;
     n_threads_batch := n_threads_batch p; embeddings := embeddings p;
     offload_kqv := offload_kqv p; flash_attn := flash_attn p;
     no_perf := no_perf p |}.

(** The [float] arguments of the sampler constructors are kept as the decimal
    literals of the source, in tenths ([0.9f] is [9], [0.8f] is [8]). *)
Abbreviation tenths := Z (only parsing).

(** The session structure shared by [llama_jni.c] and [llama_jni_new.c]:
    [typedef struct { model; ctx; sampler; } llama_model_context;] *)
Record llama_model_context := {
  model : ptr;
  ctx : ptr;
  sampler : ptr
}.

(** The exception classes thrown through [ThrowNew]. *)
Inductive jthrowable :=
  | IllegalArgumentException
  | OutOfMemoryError
  | RuntimeException
  | IllegalStateException.

(** ** The log of calls

    One constructor per callee; the last arguments of a constructor are what
    the callee answered. *)
Inductive event :=
  (* JNI *)
  | call_GetStringUTFChars (s : list byte) (ok : bool)
  | call_ReleaseStringUTFChars (s : list byte)
  | call_ThrowNew (cls : jthrowable) (msg : string)
  | call_NewStringUTF (s : list byte)
  (* libc *)
  | call_malloc (size : Z) (p : ptr)
  | call_free (p : ptr)
  | call_fopen (filename : list byte) (ok : bool)
  | call_fclose
  | call_printf (msg : string)
  (* llama *)
  | call_llama_backend_init
  | call_llama_backend_free
  | call_llama_model_default_params
  | call_llama_context_default_params
  | call_llama_sampler_chain_default_params
  | call_llama_model_load_from_file (path : list byte) (params : llama_model_params) (m : ptr)
  | call_llama_init_from_model (m : ptr) (params : llama_context_params) (c : ptr)
  | call_llama_model_free (m : ptr)
  | call_llama_free (c : ptr)
  | call_llama_sampler_chain_init (params : llama_sampler_chain_params) (chain : ptr)
  | call_llama_sampler_init_top_k (k : Z) (smpl : ptr)
  | call_llama_sampler_init_top_p (p : tenths) (min_keep : Z) (smpl : ptr)
  | call_llama_sampler_init_temp (t : tenths) (smpl : ptr)
  | call_llama_sampler_init_dist (sd : Z) (smpl : ptr)
  | call_llama_sampler_chain_add (chain smpl : ptr)
  | call_llama_sampler_free (smpl : ptr)
  | call_llama_get_memory (c : ptr) (mem : ptr)
  | call_llama_memory_clear (mem : ptr) (data : option bool)
  | call_llama_n_ctx (c : ptr) (n : Z)
  | call_llama_model_get_vocab (m : ptr) (vocab : ptr)
  | call_llama_tokenize (h : ptr) (text : list byte) (text_len : Z)
      (n_tokens_max : Z) (add_special parse_special : bool)
      (n : Z) (tokens : list llama_token)
  | call_llama_decode (c : ptr) (batch : list llama_token) (r : Z)
  | call_llama_sampler_sample (smpl c : ptr) (idx : Z) (tok : llama_token)
  | call_llama_token_eos (m : ptr) (tok : llama_token)
  | call_llama_sampler_accept (smpl : ptr) (tok : llama_token)
  | call_llama_token_to_piece (h : ptr) (tok : llama_token) (len : Z)
      (lstrip : Z) (special : bool) (n : Z) (piece : list byte).

(** ** The host: JVM, libc and inference engine

    A callee that returns a value answers from the host state and may change
    it.  A callee that returns nothing is [observe]d by the host, which may
    change its state too, so that later answers can depend on every earlier
    call. *)
Class Host (W : Type) := {
  observe : event -> W -> W;
  h_GetStringUTFChars : list byte -> W -> bool * W;
  h_malloc : Z -> W -> ptr * W;
  h_fopen : list byte -> W -> bool * W;
  h_llama_model_default_params : W -> llama_model_params * W;
  h_llama_context_default_params : W -> llama_context_params * W;
  h_llama_sampler_chain_default_params : W -> llama_sampler_chain_params * W;
  h_llama_model_load_from_file : list byte -> llama_model_params -> W -> ptr * W;
  h_llama_init_from_model : ptr -> llama_context_params -> W -> ptr * W;
  h_llama_sampler_chain_init : llama_sampler_chain_params -> W -> ptr * W;
  h_llama_sampler_init_top_k : Z -> W -> ptr * W;
  h_llama_sampler_init_top_p : tenths -> Z -> W -> ptr * W;
  h_llama_sampler_init_temp : tenths -> W -> ptr * W;
  h_llama_sampler_init_dist : Z -> W -> ptr * W;
  h_llama_get_memory : ptr -> W -> ptr * W;
  h_llama_n_ctx : ptr -> W -> Z * W;
  h_llama_model_get_vocab : ptr -> W -> ptr * W;
  h_llama_tokenize :
    ptr -> list byte -> Z -> Z -> bool -> bool -> W -> (Z * list llama_token) * W;
  h_llama_decode : ptr -> list llama_token -> W -> Z * W;
  h_llama_sampler_sample : ptr -> ptr -> Z -> W -> llama_token * W;
  h_llama_token_eos : ptr -> W -> llama_token * W;
  h_llama_token_to_piece :
    ptr -> llama_token -> Z -> Z -> bool -> W -> (Z * list byte) * W
}.

(** ** Outcomes and the monad of native code *)

(** What the model cannot give a meaning to. *)
Inductive fault :=
  | OutOfBounds        (* access outside an array *)
  | InvalidPointer     (* access through a pointer that is not live *)
  | UninitializedRead  (* a string read that meets an unwritten cell *)
  | OutOfFuel.         (* the loop of the model ran out of steps *)

(** A native method returns a value, returns with a Java exception pending,
    or has no defined behaviour. *)
Inductive outcome (A : Type) :=
  | Ret (a : A)
  | Throw (cls : jthrowable) (msg : string)
  | Fault (f : fault).
Arguments Ret {A} a.
Arguments Throw {A} cls msg.
Arguments Fault {A} f.

(** A computation over a process state [P]: outcome, calls made, new state. *)
Definition M (P A : Type) : Type := P -> outcome A * list event * P.

Definition ret {P A} (a : A) : M P A := fun p => (Ret a, [], p).

Definition bind {P A B} (m : M P A) (k : A -> M P B) : M P B :=
  fun p =>
    match m p with
    | (Ret a, t1, p1) =>
        match k a p1 with
        | (o, t2, p2) => (o, t1 ++ t2, p2)
        end
    | (Throw cls msg, t1, p1) => (Throw cls msg, t1, p1)
    | (Fault f, t1, p1) => (Fault f, t1, p1)
    end.

Declare Scope native_scope.
Delimit Scope native_scope with native.
Notation "x <- m ;; k" := (bind m (fun x => k))
  (at level 100, m at next level, k at level 200, right associativity) : native_scope.
Notation "m ;; k" := (bind m (fun _ => k))
  (at level 100, k at level 200, right associativity) : native_scope.

Definition undefined {P A} (f : fault) : M P A := fun p => (Fault f, [], p).

(** How a process state holds the host state. *)
Class Process (W P : Type) := {
  env : P -> W;
  with_env : W -> P -> P
}.

Section Calls.
Context {W P : Type} `{Host W} `{Process W P}.

(** A call that returns a value. *)
Definition call {A} (f : W -> A * W) (ev : A -> event) : M P A :=
  fun p => let '(a, e) := f (env p) in (Ret a, [ev a], with_env e p).

(** A call that returns nothing. *)
Definition call_void (ev : event) : M P unit :=
  fun p => (Ret tt, [ev], with_env (observe ev (env p)) p).

(** [ThrowNew(env, FindClass(env, cls), msg); return 0;]: the exception is
    left pending and the native method returns at once. *)
Definition throw {A} (cls : jthrowable) (msg : string) : M P A :=
  fun p => (Throw cls msg, [call_ThrowNew cls msg],
            with_env (observe (call_ThrowNew cls msg) (env p)) p).

End Calls.

(** The calls the bindings make, by their C names. *)
Abbreviation GetStringUTFChars s :=
  (bind (call (h_GetStringUTFChars s%list) (call_GetStringUTFChars s%list))
        (fun ok : bool => ret (if ok then Some s%list else None))).
Abbreviation ReleaseStringUTFChars s :=
  (call_void (call_ReleaseStringUTFChars s)).
Abbreviation malloc size :=
  (call (h_malloc size) (call_malloc size)).
Abbreviation free p :=
  (call_void (call_free p)).
Abbreviation llama_backend_init :=
  (call_void call_llama_backend_init).
Abbreviation llama_backend_free :=
  (call_void call_llama_backend_free).
Abbreviation llama_model_default_params :=
  (call h_llama_model_default_params (fun _ => call_llama_model_default_params)).
Abbreviation llama_context_default_params :=
  (call h_llama_context_default_params (fun _ => call_llama_context_default_params)).
Abbreviation llama_sampler_chain_default_params :=
  (call h_llama_sampler_chain_default_params
       (fun _ => call_llama_sampler_chain_default_params)).
Abbreviation llama_model_load_from_file path params :=
  (call (h_llama_model_load_from_file path params)
       (call_llama_model_load_from_file path params)).
Abbreviation llama_init_from_model m params :=
  (call (h_llama_init_from_model m params) (call_llama_init_from_model m params)).
Abbreviation llama_model_free m :=
  (call_void (call_llama_model_free m)).
Abbreviation llama_free c :=
  (call_void (call_llama_free c)).
Abbreviation llama_sampler_chain_init params :=
  (call (h_llama_sampler_chain_init params) (call_llama_sampler_chain_init params)).
Abbreviation llama_sampler_init_top_k k :=
  (call (h_llama_sampler_init_top_k k) (call_llama_sampler_init_top_k k)).
Abbreviation llama_sampler_init_top_p p min_keep :=
  (call (h_llama_sampler_init_top_p p min_keep) (call_llama_sampler_init_top_p p min_keep)).
Abbreviation llama_sampler_init_temp t :=
  (call (h_llama_sampler_init_temp t) (call_llama_sampler_init_temp t)).
Abbreviation llama_sampler_init_dist sd :=
  (call (h_llama_sampler_init_dist sd) (call_llama_sampler_init_dist sd)).
Abbreviation llama_sampler_chain_add chain smpl :=
  (call_void (call_llama_sampler_chain_add chain smpl)).
Abbreviation llama_sampler_free smpl :=
  (call_void (call_llama_sampler_free smpl)).
Abbreviation llama_get_memory c :=
  (call (h_llama_get_memory c) (call_llama_get_memory c)).
Abbreviation llama_memory_clear mem data :=
  (call_void (call_llama_memory_clear mem data)).
Abbreviation llama_n_ctx c :=
  (call (h_llama_n_ctx c) (call_llama_n_ctx c)).
Abbreviation llama_model_get_vocab m :=
  (call (h_llama_model_get_vocab m) (call_llama_model_get_vocab m)).
Abbreviation llama_tokenize h text text_len n_max add_special parse_special :=
  (call (h_llama_tokenize h text text_len n_max add_special parse_special)
       (fun r => call_llama_tokenize h text text_len n_max add_special parse_special
                   (fst r) (snd r))).
Abbreviation llama_decode c batch :=
  (call (h_llama_decode c batch) (call_llama_decode c batch)).
Abbreviation llama_sampler_sample smpl c idx :=
  (call (h_llama_sampler_sample smpl c idx) (call_llama_sampler_sample smpl c idx)).
Abbreviation llama_token_eos m :=
  (call (h_llama_token_eos m) (call_llama_token_eos m)).
Abbreviation llama_sampler_accept smpl tok :=
  (call_void (call_llama_sampler_accept smpl tok)).
Abbreviation llama_token_to_piece h tok len lstrip special :=
  (call (h_llama_token_to_piece h tok len lstrip special)
       (fun r => call_llama_token_to_piece h tok len lstrip special (fst r) (snd r))).

(** ** Native memory of one call *)

(** A [char] array: a cell is [None] until it is written. *)
Abbreviation buffer := (list (option byte)) (only parsing).

(** The block [malloc(size)] hands out: nothing in it is initialised. *)
Definition fresh_buffer (size : Z) : buffer := replicate (Z.to_nat size) None.

(** [memcpy(dst + pos, src, n)], defined when the [n] bytes lie inside both
    arrays. *)
Definition memcpy (dst : buffer) (pos : Z) (src : list byte) (n : Z) : option buffer :=
  if (0 <=? pos) && (0 <=? n) && (n <=? Z.of_nat (length src))
     && (pos + n <=? Z.of_nat (length dst))
  then Some (take (Z.to_nat pos) dst ++ (Some <$> take (Z.to_nat n) src)
             ++ drop (Z.to_nat (pos + n)) dst)
  else None.

(** [dst[pos] = b], defined inside the array. *)
Definition store_byte (dst : buffer) (pos : Z) (b : byte) : option buffer :=
  if (0 <=? pos) && (pos <? Z.of_nat (length dst))
  then Some (<[Z.to_nat pos := Some b]> dst)
  else None.

(** The C string that starts an array: the bytes before the first NUL.  No
    string is read when an unwritten cell or the end of the array comes
    first. *)
Fixpoint c_string (buf : buffer) : option (list byte) :=
  match buf with
  | [] => None
  | None :: _ => None
  | Some b :: rest =>
      if Byte.eqb b x00 then Some [] else cons b <$> c_string rest
  end.

(** The bytes of a C string before its terminator. *)
Fixpoint c_prefix (s : list byte) : list byte :=
  match s with
  | [] => []
  | b :: rest => if Byte.eqb b x00 then [] else b :: c_prefix rest
  end.

(** [strlen] of a string given by its bytes (the terminator is implicit at
    the end of the list). *)
Fixpoint strlen (s : list byte) : Z :=
  match s with
  | [] => 0
  | b :: rest => if Byte.eqb b x00 then 0 else 1 + strlen rest
  end.

(** [llama_batch_get_one(tokens, n_tokens)]: the batch of the first
    [n_tokens] tokens of the array. *)
Definition llama_batch_get_one (tokens : list llama_token) (n_tokens : Z)
  : list llama_token := take (Z.to_nat n_tokens) tokens.

Definition sizeof_llama_token : Z := 4.
Definition sizeof_llama_model_context : Z := 24.

(** ** The process of the engine-backed bindings *)

(** Host state and the session structures that are live on the C heap. *)
Record process (W : Type) := {
  p_env : W;
  heap : gmap Z llama_model_context
}.
Arguments p_env {W} p.
Arguments heap {W} p.

#[export] Instance process_Process (W : Type) : Process W (process W) := {|
  env := p_env;
  with_env e p := {| p_env := e; heap := heap p |}
|}.

Section Sessions.
Context {W : Type} `{Host W}.

(** Reading through a session pointer: defined for a live structure. *)
Definition deref (h : ptr) : M (process W) llama_model_context :=
  fun p =>
    match heap p !! h with
    | Some c => (Ret c, [], p)
    | None => (Fault InvalidPointer, [], p)
    end.

End Sessions.

(** The three field assignments that fill a structure just allocated. *)
Abbreviation store_struct h c :=
  (fun p : process _ =>
     (Ret tt, @nil event, {| p_env := p_env p; heap := <[h := c]> (heap p) |})).

(** [free(model_ctx)]: the structure is no longer live. *)
Abbreviation free_struct h :=
  (bind (free h%Z)
        (fun _ (p : process _) =>
           (Ret tt, @nil event,
            {| p_env := p_env p; heap := delete h%Z (heap p) |}))).

(** ** The generation loop

    [llama_jni.c] (lines 199-229) and [llama_jni_new.c] (lines 188-218) have
    the same loop text; they differ in the handle given to
    [llama_token_to_piece] (the vocabulary in the former, the model in the
    latter), which is the parameter [piece_handle] here. *)

(** The locals of the loop. *)
Record gen_state := {
  i : Z;
  response_pos : Z;
  response : buffer;
  generated_tokens : Z
}.

Inductive control := Break | Continue.

Section Generation.
Context {W : Type} `{Host W}.

(** [if (token_len > 0 && response_pos + token_len < MAX_RESPONSE_LENGTH - 1)
       { memcpy(response + response_pos, token_str, token_len);
         response_pos += token_len; }]
    [None] when the [memcpy] is not defined.  The sum is the sum of the
    integers: the write position stays inside the array
    ([run_response_in_bounds]) and a piece that respects [piece_contract]
    has at most 256 bytes, far from the range of [int]. *)
Definition append_piece (st : gen_state) (token_len : Z) (token_str : list byte)
  : option gen_state :=
  if (token_len >? 0) && (response_pos st + token_len <? MAX_RESPONSE_LENGTH - 1) then
    match memcpy (response st) (response_pos st) token_str token_len with
    | Some r =>
        Some {| i := i st; response_pos := response_pos st + token_len;
                response := r; generated_tokens := generated_tokens st |}
    | None => None
    end
  else Some st.

(** A memory access of the model inside the monad. *)
Definition access {A} (o : option A) (f : fault) : M (process W) A :=
  match o with
  | Some a => ret a
  | None => undefined f
  end.

(** One pass through the body of the [for]; [Break] stands for [break]. *)
Definition loop_body (model_ctx : llama_model_context) (piece_handle : ptr)
    (st : gen_state) : M (process W) (control * gen_state) :=
  (next_token <- llama_sampler_sample (sampler model_ctx) (ctx model_ctx) (-1) ;;
   eos <- llama_token_eos (model model_ctx) ;;
   if next_token =? eos then ret (Break, st) else
   llama_sampler_accept (sampler model_ctx) next_token ;;
   piece <- llama_token_to_piece piece_handle next_token 256 0 false ;;
   let '(token_len, token_str) := piece in
   st <- access (append_piece st token_len token_str) OutOfBounds ;;
   let next_batch := llama_batch_get_one [next_token] 1 in
   rc <- llama_decode (ctx model_ctx) next_batch ;;
   if negb (rc =? 0) then ret (Break, st) else
   ret (Continue,
        {| i := i st; response_pos := response_pos st; response := response st;
           generated_tokens := generated_tokens st + 1 |}))%native.

(** [for (...; i < max_gen_tokens && response_pos < MAX_RESPONSE_LENGTH - 256; i++)]
    from the locals [st].  [fuel] bounds the passes of the model; the
    bindings start it with [max_gen_tokens] passes, which is enough
    ([generation_loop_from_init]): the counter [i] grows by one in every
    pass and stays below [max_gen_tokens]. *)
Fixpoint generation_loop (fuel : nat) (max_gen_tokens : Z)
    (model_ctx : llama_model_context) (piece_handle : ptr) (st : gen_state)
  : M (process W) gen_state :=
  if (i st <? max_gen_tokens) && (response_pos st <? MAX_RESPONSE_LENGTH - 256) then
    match fuel with
    | O => undefined OutOfFuel
    | S fuel' =>
        (r <- loop_body model_ctx piece_handle st ;;
         match r with
         | (Break, st') => ret st'
         | (Continue, st') =>
             generation_loop fuel' max_gen_tokens model_ctx piece_handle
               {| i := i st' + 1; response_pos := response_pos st';
                  response := response st';
                  generated_tokens := generated_tokens st' |}
         end)%native
    end
  else ret st.

(** What follows the loop in both bindings:
    [response[response_pos] = 0; result = NewStringUTF(env, response);
     free(response);].  [NewStringUTF] reads the array as a C string; the
    JVM is taken to have room for the result. *)
Definition finish_response (response_ptr : ptr) (st : gen_state)
  : M (process W) (list byte) :=
  (buf <- access (store_byte (response st) (response_pos st) x00) OutOfBounds ;;
   text <- access (c_string buf) UninitializedRead ;;
   call_void (call_NewStringUTF text) ;;
   free response_ptr ;;
   ret text)%native.

(** The locals at loop entry, with the block [malloc(MAX_RESPONSE_LENGTH)]. *)
Definition gen_init : gen_state :=
  {| i := 0; response_pos := 0; response := fresh_buffer MAX_RESPONSE_LENGTH;
     generated_tokens := 0 |}.
End Generation.

(** ** [llama_jni.c] *)

Module LlamaJni.
Section Binding.
Context {W : Type} `{Host W}.

(** [Java_com_livecoding_demo_LlamaJNI_loadModel(env, obj, path)] *)
Definition Java_com_livecoding_demo_LlamaJNI_loadModel (path : jstring)
  : M (process W) jlong :=
  match path with
  | None => throw IllegalArgumentException "Model path cannot be null"
  | Some path =>
  (model_path <- GetStringUTFChars path ;;
   match model_path with
   | None => throw OutOfMemoryError "Failed to get string from JNI"
   | Some model_path =>
   llama_backend_init ;;
   model_params <- llama_model_default_params ;;
   let model_params := set_n_gpu_layers 0 model_params in
   model <- llama_model_load_from_file model_path model_params ;;
   ReleaseStringUTFChars model_path ;;
   if model =? NULL then
     llama_backend_free ;;
     throw RuntimeException "Failed to load model"
   else
   ctx_params <- llama_context_default_params ;;
   let ctx_params := set_n_threads 4 (set_n_ctx 2048 ctx_params) in
   ctx <- llama_init_from_model model ctx_params ;;
   if ctx =? NULL then
     llama_model_free model ;;
     llama_backend_free ;;
     throw RuntimeException "Failed to create context"
   else
   sparams <- llama_sampler_chain_default_params ;;
   sampler <- llama_sampler_chain_init sparams ;;
   if sampler =? NULL then
     llama_free ctx ;;
     llama_model_free model ;;
     llama_backend_free ;;
     throw RuntimeException "Failed to create sampler"
   else
   top_k <- llama_sampler_init_top_k 40 ;;
   llama_sampler_chain_add sampler top_k ;;
   top_p <- llama_sampler_init_top_p 9 1 ;;
   llama_sampler_chain_add sampler top_p ;;
   temp <- llama_sampler_init_temp 8 ;;
   llama_sampler_chain_add sampler temp ;;
   dist <- llama_sampler_init_dist 42 ;;
   llama_sampler_chain_add sampler dist ;;
   model_ctx <- malloc sizeof_llama_model_context ;;
   if model_ctx =? NULL then
     llama_sampler_free sampler ;;
     llama_free ctx ;;
     llama_model_free model ;;
     llama_backend_free ;;
     throw OutOfMemoryError "Failed to allocate memory for model context"
   else
   store_struct model_ctx {| model := model; ctx := ctx; sampler := sampler |} ;;
   ret model_ctx
   end)%native
  end.

(** [Java_com_livecoding_demo_LlamaJNI_generateText(env, obj, modelHandle, prompt)] *)
Definition Java_com_livecoding_demo_LlamaJNI_generateText
    (modelHandle : jlong) (prompt : jstring) : M (process W) (list byte) :=
  if modelHandle =? 0 then throw IllegalArgumentException "Model not loaded" else
  match prompt with
  | None => throw IllegalArgumentException "Prompt cannot be null"
  | Some prompt =>
  (model_ctx <- deref modelHandle ;;
   if (model model_ctx =? NULL) || (ctx model_ctx =? NULL)
      || (sampler model_ctx =? NULL)
   then throw IllegalStateException "Invalid model state" else
   prompt_text <- GetStringUTFChars prompt ;;
   match prompt_text with
   | None => throw OutOfMemoryError "Failed to get prompt string"
   | Some prompt_text =>
   let prompt_len := strlen prompt_text in
   if (prompt_len =? 0) || (prompt_len >? MAX_PROMPT_LENGTH) then
     ReleaseStringUTFChars prompt_text ;;
     throw IllegalArgumentException "Invalid prompt length"
   else
   let max_gen_tokens := DEFAULT_MAX_TOKENS in
   mem <- llama_get_memory (ctx model_ctx) ;;
   llama_memory_clear mem (Some true) ;;
   n_ctx <- llama_n_ctx (ctx model_ctx) ;;
   tokens <- malloc (n_ctx * sizeof_llama_token) ;;
   if tokens =? NULL then
     ReleaseStringUTFChars prompt_text ;;
     throw OutOfMemoryError "Failed to allocate token buffer"
   else
   vocab <- llama_model_get_vocab (model model_ctx) ;;
   tokenized <- llama_tokenize vocab prompt_text prompt_len n_ctx true true ;;
   let '(n_tokens, tokens_data) := tokenized in
   ReleaseStringUTFChars prompt_text ;;
   if n_tokens <? 0 then
     free tokens ;;
     throw RuntimeException "Failed to tokenize prompt"
   else
   if n_tokens >=? n_ctx then
     free tokens ;;
     throw IllegalArgumentException "Prompt too long for context"
   else
   let batch := llama_batch_get_one tokens_data n_tokens in
   rc <- llama_decode (ctx model_ctx) batch ;;
   if negb (rc =? 0) then
     free tokens ;;
     throw RuntimeException "Failed to evaluate prompt"
   else
   response <- malloc MAX_RESPONSE_LENGTH ;;
   if response =? NULL then
     free tokens ;;
     throw OutOfMemoryError "Failed to allocate response buffer"
   else
   st <- generation_loop (Z.to_nat max_gen_tokens) max_gen_tokens model_ctx vocab
           gen_init ;;
   result <- finish_response response st ;;
   free tokens ;;
   ret result
   end)%native
  end.

(** [Java_com_livecoding_demo_LlamaJNI_unloadModel(env, obj, modelHandle)] *)
Definition Java_com_livecoding_demo_LlamaJNI_unloadModel (modelHandle : jlong)
  : M (process W) unit :=
  if modelHandle =? 0 then ret tt else
  (model_ctx <- deref modelHandle ;;
   (if negb (sampler model_ctx =? NULL)
    then llama_sampler_free (sampler model_ctx) else ret tt) ;;
   (if negb (ctx model_ctx =? NULL)
    then llama_free (ctx model_ctx) else ret tt) ;;
   (if negb (model model_ctx =? NULL)
    then llama_model_free (model model_ctx) else ret tt) ;;
   free_struct modelHandle ;;
   llama_backend_free)%native.

End Binding.
End LlamaJni.

(** ** [llama_jni_new.c]

    This binding is written against another revision of the engine API: it
    calls [llama_new_context_with_model] and [llama_free_model], which are
    the entry points [llama_init_from_model] and [llama_model_free] of the
    host under their other names. *)

Module LlamaJniNew.

Abbreviation llama_new_context_with_model m params :=
  (llama_init_from_model m params).
Abbreviation llama_free_model m := (llama_model_free m).

Section Binding.
Context {W : Type} `{Host W}.

(** [int max_gen_tokens = (maxTokens > 0 && maxTokens <= DEFAULT_MAX_TOKENS)
                          ? maxTokens : DEFAULT_MAX_TOKENS;] *)
Definition sanitize_max_tokens (maxTokens : jint) : Z :=
  if (maxTokens >? 0) && (maxTokens <=? DEFAULT_MAX_TOKENS)
  then maxTokens else DEFAULT_MAX_TOKENS.

(** [Java_com_livecoding_demo_LlamaJNI_loadModel(env, obj, path)] *)
Definition Java_com_livecoding_demo_LlamaJNI_loadModel (path : jstring)
  : M (process W) jlong :=
  match path with
  | None => throw IllegalArgumentException "Model path cannot be null"
  | Some path =>
  (model_path <- GetStringUTFChars path ;;
   match model_path with
   | None => throw OutOfMemoryError "Failed to get string from JNI"
   | Some model_path =>
   llama_backend_init ;;
   model_params <- llama_model_default_params ;;
   let model_params := set_n_gpu_layers 0 model_params in
   model <- llama_model_load_from_file model_path model_params ;;
   ReleaseStringUTFChars model_path ;;
   if model =? NULL then
     llama_backend_free ;;
     throw RuntimeException "Failed to load model"
   else
   ctx_params <- llama_context_default_params ;;
   let ctx_params := set_seed 42 (set_n_threads 4 (set_n_ctx 2048 ctx_params)) in
   ctx <- llama_new_context_with_model model ctx_params ;;
   if ctx =? NULL then
     llama_free_model model ;;
     llama_backend_free ;;
     throw RuntimeException "Failed to create context"
   else
   sparams <- llama_sampler_chain_default_params ;;
   sampler <- llama_sampler_chain_init sparams ;;
   if sampler =? NULL then
     llama_free ctx ;;
     llama_free_model model ;;
     llama_backend_free ;;
     throw RuntimeException "Failed to create sampler"
   else
   top_k <- llama_sampler_init_top_k 40 ;;
   llama_sampler_chain_add sampler top_k ;;
   top_p <- llama_sampler_init_top_p 9 1 ;;
   llama_sampler_chain_add sampler top_p ;;
   temp <- llama_sampler_init_temp 8 ;;
   llama_sampler_chain_add sampler temp ;;
   dist <- llama_sampler_init_dist 42 ;;
   llama_sampler_chain_add sampler dist ;;
   model_ctx <- malloc sizeof_llama_model_context ;;
   if model_ctx =? NULL then
     llama_sampler_free sampler ;;
     llama_free ctx ;;
     llama_free_model model ;;
     llama_backend_free ;;
     throw OutOfMemoryError "Failed to allocate memory for model context"
   else
   store_struct model_ctx {| model := model; ctx := ctx; sampler := sampler |} ;;
   ret model_ctx
   end)%native
  end.

(** [Java_com_livecoding_demo_LlamaJNI_generateText(env, obj, modelHandle,
    prompt, maxTokens)].  The token array is a variable-length array of the
    frame, so nothing is allocated for it. *)
Definition Java_com_livecoding_demo_LlamaJNI_generateText
    (modelHandle : jlong) (prompt : jstring) (maxTokens : jint)
  : M (process W) (list byte) :=
  if modelHandle =? 0 then throw IllegalArgumentException "Model not loaded" else
  match prompt with
  | None => throw IllegalArgumentException "Prompt cannot be null"
  | Some prompt =>
  (model_ctx <- deref modelHandle ;;
   if (model model_ctx =? NULL) || (ctx model_ctx =? NULL)
      || (sampler model_ctx =? NULL)
   then throw IllegalStateException "Invalid model state" else
   prompt_text <- GetStringUTFChars prompt ;;
   match prompt_text with
   | None => throw OutOfMemoryError "Failed to get prompt string"
   | Some prompt_text =>
   let prompt_len := strlen prompt_text in
   if (prompt_len =? 0) || (prompt_len >? MAX_PROMPT_LENGTH) then
     ReleaseStringUTFChars prompt_text ;;
     throw IllegalArgumentException "Invalid prompt length"
   else
   let max_gen_tokens := sanitize_max_tokens maxTokens in
   mem <- llama_get_memory (ctx model_ctx) ;;
   llama_memory_clear mem None ;;
   n_ctx <- llama_n_ctx (ctx model_ctx) ;;
   tokenized <- llama_tokenize (model model_ctx) prompt_text (strlen prompt_text)
                  n_ctx true false ;;
   let '(n_tokens, tokens) := tokenized in
   ReleaseStringUTFChars prompt_text ;;
   if n_tokens <? 0 then
     throw RuntimeException "Failed to tokenize prompt"
   else
   if n_tokens >=? n_ctx then
     throw IllegalArgumentException "Prompt too long for context"
   else
   let batch := llama_batch_get_one tokens n_tokens in
   rc <- llama_decode (ctx model_ctx) batch ;;
   if negb (rc =? 0) then
     throw RuntimeException "Failed to evaluate prompt"
   else
   response <- malloc MAX_RESPONSE_LENGTH ;;
   if response =? NULL then
     throw OutOfMemoryError "Failed to allocate response buffer"
   else
   st <- generation_loop (Z.to_nat max_gen_tokens) max_gen_tokens model_ctx
           (model model_ctx) gen_init ;;
   finish_response response st
   end)%native
  end.

(** [Java_com_livecoding_demo_LlamaJNI_unloadModel(env, obj, modelHandle)] *)
Definition Java_com_livecoding_demo_LlamaJNI_unloadModel (modelHandle : jlong)
  : M (process W) unit :=
  if modelHandle =? 0 then ret tt else
  (model_ctx <- deref modelHandle ;;
   (if negb (sampler model_ctx =? NULL)
    then llama_sampler_free (sampler model_ctx) else ret tt) ;;
   (if negb (ctx model_ctx =? NULL)
    then llama_free (ctx model_ctx) else ret tt) ;;
   (if negb (model model_ctx =? NULL)
    then llama_free_model (model model_ctx) else ret tt) ;;
   free_struct modelHandle ;;
   llama_backend_free)%native.

End Binding.
End LlamaJniNew.

(** ** The C library of the mock binding

    [llama_jni_simple.c] searches C strings with [strstr] and [strrchr],
    formats with [snprintf] and draws from the generator of libc.  A C
    string is given by its bytes, the terminator being implicit at the end
    of the list. *)

(** [s] begins with [needle]. *)
Fixpoint starts_with (needle s : list byte) : bool :=
  match needle, s with
  | [], _ => true
  | _ :: _, [] => false
  | n :: needle', b :: s' => Byte.eqb b n && starts_with needle' s'
  end.

(** [strstr(haystack, needle)]: the string from the first occurrence of
    [needle] on; [None] is the null pointer. *)
Fixpoint strstr (haystack needle : list byte) : option (list byte) :=
  if starts_with needle haystack then Some haystack else
  match haystack with
  | [] => None
  | _ :: rest => strstr rest needle
  end.

(** [strrchr(s, c)]: the string from the last [c] of [s] on. *)
Fixpoint strrchr (s : list byte) (c : byte) : option (list byte) :=
  match s with
  | [] => None
  | b :: rest =>
      match strrchr rest c with
      | Some r => Some r
      | None => if Byte.eqb b c then Some s else None
      end
  end.

(** The characters of a path that separate its directories: the backslash
    and the slash. *)
Definition backslash : byte := x5c.
Definition slash : byte := x2f.

(** A pointer tested as a condition. *)
Definition found {A} (p : option A) : bool :=
  match p with Some _ => true | None => false end.

(** [snprintf(buf, size, format, ...)] leaves in [buf] the first [size - 1]
    bytes of the formatted text [s], and the terminator. *)
Definition snprintf (size : Z) (s : list byte) : list byte :=
  take (Z.to_nat (size - 1)) s.

(** The conversion to [unsigned int]. *)
Definition to_unsigned_int (x : Z) : Z := x mod 2 ^ 32.

(** The element [k] of a C array, defined inside the array. *)
Definition array_at {A} (a : list A) (k : Z) : option A :=
  if k <? 0 then None else a !! Z.to_nat k.

(** The clock and the pseudo-random generator of libc.  Their calls are
    answered from the host state like every other call; they are not
    written to the log, which is the log of the JNI, memory, file and engine
    calls. *)
Class Randomness (W : Type) := {
  h_time : W -> Z * W;
  h_srand : Z -> W -> W;
  h_rand : W -> Z * W
}.

(** ** [llama_jni_simple.c], the mock binding

    The file is compiled with [USE_REAL_LLAMA] defined as [0]: the blocks
    under [#if USE_REAL_LLAMA] are not part of the program, the [#else]
    blocks are. *)

Module LlamaJniSimple.

(** [typedef struct { int model_id; char model_path[1024]; int is_loaded; }
    llama_model_context;] *)
Record llama_model_context := {
  model_id : Z;
  model_path : list byte;
  is_loaded : Z
}.

Definition sizeof_llama_model_context : Z := 1032.

Set Implicit Arguments.
(** Host state, live structures and [static llama_model_context* global_model]. *)
Record process (W : Type) := {
  p_env : W;
  heap : gmap Z llama_model_context;
  global_model : ptr
}.
Unset Implicit Arguments.

#[export] Instance process_Process (W : Type) : Process W (process W) := {|
  env p := p_env p;
  with_env e p := {| p_env := e; heap := heap p; global_model := global_model p |}
|}.

Section Binding.
Context {W : Type} `{Host W}.

(** [int file_exists(const char* filename)] *)
Definition file_exists (filename : list byte) : M (process W) Z :=
  (file <- call (h_fopen filename) (call_fopen filename) ;;
   if file : bool then
     call_void call_fclose ;;
     ret 1
   else ret 0)%native.

(** [printf(format, ...)] *)
Definition printf (format : string) : M (process W) unit :=
  call_void (call_printf format).

(** The field assignments that fill a structure just allocated. *)
Definition store_struct (h : ptr) (c : llama_model_context) : M (process W) unit :=
  fun p => (Ret tt, [],
            {| p_env := p_env p; heap := <[h := c]> (heap p);
               global_model := global_model p |}).

(** Reading and writing [global_model]. *)
Definition get_global_model : M (process W) ptr :=
  fun p => (Ret (global_model p), [], p).

Definition set_global_model (g : ptr) : M (process W) unit :=
  fun p => (Ret tt, [], {| p_env := p_env p; heap := heap p; global_model := g |}).

(** [free(model_ctx)]: defined for a live structure. *)
Definition free_struct (h : ptr) : M (process W) unit :=
  fun p =>
    match heap p !! h with
    | None => (Fault InvalidPointer, [], p)
    | Some _ =>
        (Ret tt, [call_free h],
         {| p_env := observe (call_free h) (p_env p); heap := delete h (heap p);
            global_model := global_model p |})
    end.

(** [Java_com_livecoding_demo_LlamaJNI_loadModel(env, obj, path)] *)
Definition Java_com_livecoding_demo_LlamaJNI_loadModel (path : jstring)
  : M (process W) jlong :=
  match path with
  | None => throw IllegalArgumentException "Model path cannot be null"
  | Some path =>
  (model_path <- GetStringUTFChars path ;;
   match model_path with
   | None => throw OutOfMemoryError "Failed to get string from JNI"
   | Some model_path =>
   found <- file_exists model_path ;;
   (if found =? 0
    then printf "Model file not found: %s (Enhanced Mock Mode - Simulating Load)\n"
    else ret tt) ;;
   model_ctx <- malloc sizeof_llama_model_context ;;
   if model_ctx =? NULL then
     ReleaseStringUTFChars model_path ;;
     throw OutOfMemoryError "Failed to allocate memory for model context"
   else
   store_struct model_ctx
     {| model_id := 12345; model_path := take 1023 (c_prefix model_path);
        is_loaded := 1 |} ;;
   printf "Mock model loaded from: %s\n" ;;
   ReleaseStringUTFChars model_path ;;
   set_global_model model_ctx ;;
   ret model_ctx
   end)%native
  end.

(** [Java_com_livecoding_demo_LlamaJNI_unloadModel(env, obj, modelHandle)] *)
Definition Java_com_livecoding_demo_LlamaJNI_unloadModel (modelHandle : jlong)
  : M (process W) unit :=
  if modelHandle =? 0 then ret tt else
  let model_ctx := modelHandle in
  if negb (model_ctx =? NULL) then
    (g <- get_global_model ;;
     (if g =? model_ctx then set_global_model NULL else ret tt) ;;
     free_struct model_ctx)%native
  else ret tt.

End Binding.

(** *** The canned answers of [generateText] *)

(** [math_responses], lines 394-400: the answers to '2+2'. *)
Definition math_responses : list (list byte) :=
  list_byte_of_string <$>
  ["The answer to 2 + 2 is 4. This is a basic arithmetic operation where we add two numbers together.";
   "2 + 2 equals 4. This is one of the fundamental addition problems in mathematics.";
   "When you add 2 and 2, you get 4. Addition is the process of combining quantities.";
   "The sum of 2 plus 2 is 4. This demonstrates the commutative property of addition.";
   "2 + 2 = 4. This simple addition shows how numbers combine to create larger values."]%string.

(** [math_responses], lines 406-412: the answers to other arithmetic. *)
Definition general_math_responses : list (list byte) :=
  list_byte_of_string <$>
  ["I can help with mathematical calculations. Could you please specify the exact problem you'd like me to solve?";
   "Mathematics is fascinating! What specific calculation or concept would you like me to help you with?";
   "I'm ready to assist with math problems. Please provide the specific equation or question you need help with.";
   "Mathematical problem-solving is one of my strengths. What calculation would you like me to perform?";
   "I can work through various mathematical problems. What specific math question do you have?"]%string.

(** [greetings], lines 418-424. *)
Definition greetings : list (list byte) :=
  list_byte_of_string <$>
  ["Hello! I'm doing well, thank you for asking. How can I assist you today?";
   "Hi there! I'm functioning optimally and ready to help. What would you like to know?";
   "Hello! It's great to meet you. I'm here and ready to help with whatever you need.";
   "Hi! I'm operating smoothly and excited to assist you. What's on your mind?";
   "Hello there! I'm in good form today. How may I be of service to you?"]%string.

(** [intro_responses], lines 429-435. *)
Definition intro_responses : list (list byte) :=
  list_byte_of_string <$>
  ["It's nice to meet you! I'm an AI assistant here to help you with various tasks and questions.";
   "Hello! Thanks for introducing yourself. I'm here to assist you with information and problem-solving.";
   "Great to meet you! I'm an AI language model ready to help you with whatever you need.";
   "Nice to make your acquaintance! I'm designed to be helpful, informative, and engaging.";
   "Pleased to meet you! I'm an AI assistant created to help answer questions and provide assistance."]%string.

(** [questions], lines 441-447. *)
Definition questions : list (list byte) :=
  list_byte_of_string <$>
  ["That's an interesting question! Based on my knowledge, this topic has several important aspects to consider.";
   "I understand you're asking about that topic. Let me provide you with a thoughtful response based on available information.";
   "That's a thoughtful inquiry. From what I understand, this is a complex subject with multiple perspectives worth exploring.";
   "Great question! This is something that involves several interconnected concepts that I'd be happy to explain.";
   "You've raised an important point. This topic encompasses various factors that contribute to a comprehensive understanding."]%string.

(** [defaults], lines 452-458. *)
Definition defaults : list (list byte) :=
  list_byte_of_string <$>
  ["I understand your request. Let me provide you with a helpful response based on the context you've provided.";
   "Thank you for your input. I'll do my best to address what you're asking about in a comprehensive way.";
   "I see what you're asking about. Let me share some insights that might be useful for your inquiry.";
   "I appreciate your message. Based on what you've shared, I can offer some relevant information and perspectives.";
   "That's an interesting point you've raised. I'd be happy to explore this topic with you in more detail."]%string.

(** The sentence appended by the second format of [generateText], line 464. *)
Definition follow_up : list byte :=
  [x0a; x0a]
  ++ list_byte_of_string
       "Is there anything specific about this topic you'd like me to elaborate on?".

Section Queries.
Context {W : Type} `{Host W}.

(** Reading through a structure pointer: defined for a live structure. *)
Definition deref (h : ptr) : M (process W) llama_model_context :=
  fun p =>
    match heap p !! h with
    | Some c => (Ret c, [], p)
    | None => (Fault InvalidPointer, [], p)
    end.

(** [time(NULL)], [srand(seed)] and [rand()]. *)
Definition time `{Randomness W} : M (process W) Z :=
  fun p => let '(t, e) := h_time (p_env p) in
           (Ret t, [], {| p_env := e; heap := heap p; global_model := global_model p |}).

Definition srand `{Randomness W} (seed : Z) : M (process W) unit :=
  fun p => (Ret tt, [],
            {| p_env := h_srand seed (p_env p); heap := heap p;
               global_model := global_model p |}).

Definition rand `{Randomness W} : M (process W) Z :=
  fun p => let '(r, e) := h_rand (p_env p) in
           (Ret r, [], {| p_env := e; heap := heap p; global_model := global_model p |}).

(** [return NewStringUTF(env, s);] *)
Definition NewStringUTF (s : list byte) : M (process W) (list byte) :=
  (call_void (call_NewStringUTF s) ;; ret s)%native.

(** The [if]/[else if] chain of [generateText], lines 393-460: the table is
    chosen by the substrings of the prompt and the answer by [variation]. *)
Definition select_response (prompt_text : list byte) (variation : Z)
  : option (list byte) :=
  let has needle := found (strstr prompt_text (list_byte_of_string needle)) in
  (if has "2+2" || has "2 + 2" then
    array_at math_responses variation
  else if has "+" || has "-" || has "*" || has "/" || has "math" || has "calculate" then
    array_at general_math_responses variation
  else if has "Hello" || has "hello" || has "Hi" || has "hi" || has "how are you" then
    array_at greetings variation
  else if has "I am" || has "My name is" || has "I'm" then
    array_at intro_responses variation
  else if has "what" || has "What" || has "how" || has "How" || has "why"
          || has "Why" || has "?" then
    array_at questions variation
  else
    array_at defaults variation)%string.

(** [Java_com_livecoding_demo_LlamaJNI_generateText(env, obj, modelHandle,
    prompt)], with the [#else] block of lines 385-467. *)
Definition Java_com_livecoding_demo_LlamaJNI_generateText `{Randomness W}
    (modelHandle : jlong) (prompt : jstring) : M (process W) (list byte) :=
  if modelHandle =? 0 then throw IllegalArgumentException "Model not loaded" else
  match prompt with
  | None => throw IllegalArgumentException "Prompt cannot be null"
  | Some prompt =>
  let model_ctx := modelHandle in
  (invalid <- (if model_ctx =? NULL then ret true else
               c <- deref model_ctx ;;
               ret (negb (model_id c =? 12345) || (is_loaded c =? 0))) ;;
   if invalid : bool then throw IllegalStateException "Invalid model state" else
   prompt_text <- GetStringUTFChars prompt ;;
   match prompt_text with
   | None => throw OutOfMemoryError "Failed to get prompt string"
   | Some prompt_text =>
   let prompt_len := strlen prompt_text in
   if (prompt_len =? 0) || (prompt_len >? MAX_PROMPT_LENGTH) then
     ReleaseStringUTFChars prompt_text ;;
     throw IllegalArgumentException "Invalid prompt length"
   else
   now <- time ;;
   srand (to_unsigned_int (prompt_len + now + strlen prompt_text)) ;;
   r <- rand ;;
   let variation := Z.rem r 5 in
   selected_response <-
     match select_response (c_prefix prompt_text) variation with
     | Some a => ret a
     | None => undefined OutOfBounds
     end ;;
   r <- rand ;;
   let response :=
     if Z.rem r 3 =? 0
     then snprintf MAX_RESPONSE_LENGTH (selected_response ++ follow_up)
     else snprintf MAX_RESPONSE_LENGTH selected_response in
   ReleaseStringUTFChars prompt_text ;;
   NewStringUTF response
   end)%native
  end.

(** [Java_com_livecoding_demo_LlamaJNI_getModelInfo(env, obj, modelHandle)],
    with the [#else] block of lines 540-547. *)
Definition Java_com_livecoding_demo_LlamaJNI_getModelInfo (modelHandle : jlong)
  : M (process W) (list byte) :=
  if modelHandle =? 0 then NewStringUTF (list_byte_of_string "No model loaded") else
  let model_ctx := modelHandle in
  (invalid <- (if model_ctx =? NULL then ret true else
               c <- deref model_ctx ;;
               ret (negb (model_id c =? 12345))) ;;
   if invalid : bool
   then NewStringUTF (list_byte_of_string "Invalid model state") else
   c <- deref model_ctx ;;
   let path := c_prefix (model_path c) in
   let filename := strrchr path backslash in
   let filename := if found filename then filename else strrchr path slash in
   let filename :=
     match filename with
     | None => path
     | Some f => drop 1 f
     end in
   let info :=
     snprintf 1024 (list_byte_of_string "Model loaded from: " ++ filename) in
   NewStringUTF info)%native.

(** [Java_com_livecoding_demo_LlamaJNI_isModelLoaded(env, obj, modelHandle)] *)
Definition Java_com_livecoding_demo_LlamaJNI_isModelLoaded (modelHandle : jlong)
  : M (process W) bool :=
  if modelHandle =? 0 then ret false else
  let model_ctx := modelHandle in
  if model_ctx =? NULL then ret false else
  (c <- deref model_ctx ;;
   ret ((model_id c =? 12345) && negb (is_loaded c =? 0)))%native.

End Queries.
End LlamaJniSimple.

(** ** Reading the log of calls *)

(** The answers of the calls of one callee, in call order. *)
Definition decode_result (e : event) : option Z :=
  match e with call_llama_decode _ _ r => Some r | _ => None end.
Definition sample_result (e : event) : option llama_token :=
  match e with call_llama_sampler_sample _ _ _ tok => Some tok | _ => None end.
Definition eos_result (e : event) : option llama_token :=
  match e with call_llama_token_eos _ tok => Some tok | _ => None end.
Definition accept_arg (e : event) : option llama_token :=
  match e with call_llama_sampler_accept _ tok => Some tok | _ => None end.
Definition piece_result (e : event) : option (Z * list byte) :=
  match e with call_llama_token_to_piece _ _ _ _ _ n bs => Some (n, bs) | _ => None end.
Definition tokenize_result (e : event) : option Z :=
  match e with call_llama_tokenize _ _ _ _ _ _ n _ => Some n | _ => None end.
Definition n_ctx_result (e : event) : option Z :=
  match e with call_llama_n_ctx _ n => Some n | _ => None end.

Definition decodes (t : list event) : list Z := omap decode_result t.
Definition samples (t : list event) : list llama_token := omap sample_result t.
Definition eos_checks (t : list event) : list llama_token := omap eos_result t.
Definition accepts (t : list event) : list llama_token := omap accept_arg t.
Definition pieces (t : list event) : list (Z * list byte) := omap piece_result t.
Definition tokenizes (t : list event) : list Z := omap tokenize_result t.
Definition n_ctxs (t : list event) : list Z := omap n_ctx_result t.

(** The calls of [llama_token_to_piece] of a log: the length [len] of the
    array that the binding offered in the call, and the piece the engine
    answered with. *)
Definition piece_call (e : event) : option (Z * (Z * list byte)) :=
  match e with
  | call_llama_token_to_piece _ _ len _ _ n bs => Some (len, (n, bs))
  | _ => None
  end.
Definition piece_calls (t : list event) : list (Z * (Z * list byte)) :=
  omap piece_call t.

(** Calls into the inference engine, as opposed to the JVM and libc. *)
Definition is_engine_call (e : event) : bool :=
  match e with
  | call_GetStringUTFChars _ _ | call_ReleaseStringUTFChars _
  | call_ThrowNew _ _ | call_NewStringUTF _
  | call_malloc _ _ | call_free _ | call_fopen _ _ | call_fclose
  | call_printf _ => false
  | _ => true
  end.

(** The text that a sequence of pieces leaves in the response array: a piece
    is appended when its length is positive and it ends before the last two
    cells, and is dropped otherwise. *)
Definition piece_fits (pos token_len : Z) : bool :=
  (token_len >? 0) && (pos + token_len <? MAX_RESPONSE_LENGTH - 1).

Fixpoint accumulate (text : list byte) (ps : list (Z * list byte)) : list byte :=
  match ps with
  | [] => text
  | (token_len, token_str) :: rest =>
      if piece_fits (Z.of_nat (length text)) token_len
      then accumulate (text ++ take (Z.to_nat token_len) token_str) rest
      else accumulate text rest
  end.

(** The write positions at which the pieces of a run were offered to the
    response array, from the text [text] on. *)
Fixpoint write_positions (text : list byte) (ps : list (Z * list byte)) : list Z :=
  match ps with
  | [] => []
  | p :: rest => Z.of_nat (length text) :: write_positions (accumulate text [p]) rest
  end.

(** What the engine promises about [llama_token_to_piece(h, tok, buf, len,
    ...)]: it writes at most [len] bytes and reports no more bytes than it
    wrote. *)
Definition piece_contract (p : Z * list byte) (len : Z) : Prop :=
  fst p <= Z.of_nat (length (snd p)) /\ Z.of_nat (length (snd p)) <= len.

(** ** The ledger of engine resources

    The resources a binding holds after a log of calls: the backend once per
    [llama_backend_init] not yet matched by [llama_backend_free], and every
    model, context and sampler chain created and not yet freed.  The sampler
    layers added to a chain belong to the chain. *)
Inductive resource :=
  | Backend
  | Model (m : ptr)
  | Context (c : ptr)
  | Sampler (s : ptr).

#[export] Instance resource_eq_dec : EqDecision resource.
Proof. solve_decision. Defined.

Fixpoint release (r : resource) (held : list resource) : list resource :=
  match held with
  | [] => []
  | r' :: rest => if decide (r = r') then rest else r' :: release r rest
  end.

Definition acquire (r : resource) (p : ptr) (held : list resource) : list resource :=
  if p =? NULL then held else r :: held.

Definition ledger_step (held : list resource) (e : event) : list resource :=
  match e with
  | call_llama_backend_init => Backend :: held
  | call_llama_backend_free => release Backend held
  | call_llama_model_load_from_file _ _ m => acquire (Model m) m held
  | call_llama_init_from_model _ _ c => acquire (Context c) c held
  | call_llama_sampler_chain_init _ s => acquire (Sampler s) s held
  | call_llama_model_free m => release (Model m) held
  | call_llama_free c => release (Context c) held
  | call_llama_sampler_free s => release (Sampler s) held
  | _ => held
  end.

Definition ledger (held : list resource) (t : list event) : list resource :=
  fold_left ledger_step t held.

(** ** A scripted host

    A host that answers from a script, used to run the bindings on concrete
    inputs.  A list is consumed one answer per call; when it is exhausted the
    call gets the default written next to it. *)
Module Scripted.

Record script := {
  sc_getchars : list bool;                (* then [true] *)
  sc_malloc : list ptr;                   (* then [NULL] *)
  sc_fopen : bool;
  sc_model : ptr;
  sc_ctx : ptr;
  sc_chain : ptr;
  sc_n_ctx : Z;
  sc_tokenize : Z * list llama_token;
  sc_decode : list Z;                     (* then [0] *)
  sc_sample : list llama_token;           (* then [sc_eos] *)
  sc_eos : llama_token;
  sc_piece : llama_token -> Z * list byte
}.

Definition pop_getchars (s : script) : bool * script :=
  (hd true (sc_getchars s),
   {| sc_getchars := tl (sc_getchars s); sc_malloc := sc_malloc s;
      sc_fopen := sc_fopen s; sc_model := sc_model s; sc_ctx := sc_ctx s;
      sc_chain := sc_chain s; sc_n_ctx := sc_n_ctx s;
      sc_tokenize := sc_tokenize s; sc_decode := sc_decode s;
      sc_sample := sc_sample s; sc_eos := sc_eos s; sc_piece := sc_piece s |}).

Definition pop_malloc (s : script) : ptr * script :=
  (hd NULL (sc_malloc s),
   {| sc_getchars := sc_getchars s; sc_malloc := tl (sc_malloc s);
      sc_fopen := sc_fopen s; sc_model := sc_model s; sc_ctx := sc_ctx s;
      sc_chain := sc_chain s; sc_n_ctx := sc_n_ctx s;
      sc_tokenize := sc_tokenize s; sc_decode := sc_decode s;
      sc_sample := sc_sample s; sc_eos := sc_eos s; sc_piece := sc_piece s |}).

Definition pop_decode (s : script) : Z * script :=
  (hd 0 (sc_decode s),
   {| sc_getchars := sc_getchars s; sc_malloc := sc_malloc s;
      sc_fopen := sc_fopen s; sc_model := sc_model s; sc_ctx := sc_ctx s;
      sc_chain := sc_chain s; sc_n_ctx := sc_n_ctx s;
      sc_tokenize := sc_tokenize s; sc_decode := tl (sc_decode s);
      sc_sample := sc_sample s; sc_eos := sc_eos s; sc_piece := sc_piece s |}).

Definition pop_sample (s : script) : llama_token * script :=
  (hd (sc_eos s) (sc_sample s),
   {| sc_getchars := sc_getchars s; sc_malloc := sc_malloc s;
      sc_fopen := sc_fopen s; sc_model := sc_model s; sc_ctx := sc_ctx s;
      sc_chain := sc_chain s; sc_n_ctx := sc_n_ctx s;
      sc_tokenize := sc_tokenize s; sc_decode := sc_decode s;
      sc_sample := tl (sc_sample s); sc_eos := sc_eos s; sc_piece := sc_piece s |}).

Definition default_model_params : llama_model_params :=
  {| n_gpu_layers := 99; use_mmap := true; use_mlock := false; kv_overrides := NULL |}.

Definition default_context_params : llama_context_params :=
  {| seed := 0; n_ctx := 512; n_batch := 2048; n_ubatch := 512; n_seq_max := 1;
     n_threads := 1; n_threads_batch := 1; embeddings := false;
     offload_kqv := true; flash_attn := false; no_perf := true |}.

#[export] Instance scripted_Host : Host script := {|
  observe _ s := s;
  h_GetStringUTFChars _ s := pop_getchars s;
  h_malloc _ s := pop_malloc s;
  h_fopen _ s := (sc_fopen s, s);
  h_llama_model_default_params s := (default_model_params, s);
  h_llama_context_default_params s := (default_context_params, s);
  h_llama_sampler_chain_default_params s := ({| chain_no_perf := true |}, s);
  h_llama_model_load_from_file _ _ s := (sc_model s, s);
  h_llama_init_from_model _ _ s := (sc_ctx s, s);
  h_llama_sampler_chain_init _ s := (sc_chain s, s);
  h_llama_sampler_init_top_k _ s := (901, s);
  h_llama_sampler_init_top_p _ _ s := (902, s);
  h_llama_sampler_init_temp _ s := (903, s);
  h_llama_sampler_init_dist _ s := (904, s);
  h_llama_get_memory c s := (c + 1, s);
  h_llama_n_ctx _ s := (sc_n_ctx s, s);
  h_llama_model_get_vocab m s := (m + 1, s);
  h_llama_tokenize _ _ _ _ _ _ s := (sc_tokenize s, s);
  h_llama_decode _ _ s := pop_decode s;
  h_llama_sampler_sample _ _ _ s := pop_sample s;
  h_llama_token_eos _ s := (sc_eos s, s);
  h_llama_token_to_piece _ tok _ _ _ s := (sc_piece s tok, s)
|}.

(** The piece of a token in the example vocabulary: token [t] reads as the
    letter number [t] of the alphabet, one byte. *)
Definition letter_piece (tok : llama_token) : Z * list byte :=
  match Byte.of_N (Z.to_N (64 + tok)) with
  | Some b => (1, [b])
  | None => (0, [])
  end.

(** A well-behaved engine: model at [100], context at [200], sampler chain at
    [300], a context window of [2048] tokens, a prompt of three tokens,
    end-of-generation token [2]; the allocator gives the block at [1000]. *)
Definition healthy : script :=
  {| sc_getchars := []; sc_malloc := [1000]; sc_fopen := true;
     sc_model := 100; sc_ctx := 200; sc_chain := 300; sc_n_ctx := 2048;
     sc_tokenize := (3, [11; 12; 13]); sc_decode := []; sc_sample := [];
     sc_eos := 2; sc_piece := letter_piece |}.

Definition with_samples (l : list llama_token) (s : script) : script :=
  {| sc_getchars := sc_getchars s; sc_malloc := sc_malloc s;
     sc_fopen := sc_fopen s; sc_model := sc_model s; sc_ctx := sc_ctx s;
     sc_chain := sc_chain s; sc_n_ctx := sc_n_ctx s;
     sc_tokenize := sc_tokenize s; sc_decode := sc_decode s;
     sc_sample := l; sc_eos := sc_eos s; sc_piece := sc_piece s |}.

Definition with_decodes (l : list Z) (s : script) : script :=
  {| sc_getchars := sc_getchars s; sc_malloc := sc_malloc s;
     sc_fopen := sc_fopen s; sc_model := sc_model s; sc_ctx := sc_ctx s;
     sc_chain := sc_chain s; sc_n_ctx := sc_n_ctx s;
     sc_tokenize := sc_tokenize s; sc_decode := l;
     sc_sample := sc_sample s; sc_eos := sc_eos s; sc_piece := sc_piece s |}.

Definition with_tokenize (r : Z * list llama_token) (s : script) : script :=
  {| sc_getchars := sc_getchars s; sc_malloc := sc_malloc s;
     sc_fopen := sc_fopen s; sc_model := sc_model s; sc_ctx := sc_ctx s;
     sc_chain := sc_chain s; sc_n_ctx := sc_n_ctx s;
     sc_tokenize := r; sc_decode := sc_decode s;
     sc_sample := sc_sample s; sc_eos := sc_eos s; sc_piece := sc_piece s |}.

Definition with_model (m : ptr) (s : script) : script :=
  {| sc_getchars := sc_getchars s; sc_malloc := sc_malloc s;
     sc_fopen := sc_fopen s; sc_model := m; sc_ctx := sc_ctx s;
     sc_chain := sc_chain s; sc_n_ctx := sc_n_ctx s;
     sc_tokenize := sc_tokenize s; sc_decode := sc_decode s;
     sc_sample := sc_sample s; sc_eos := sc_eos s; sc_piece := sc_piece s |}.

Definition with_fopen (b : bool) (s : script) : script :=
  {| sc_getchars := sc_getchars s; sc_malloc := sc_malloc s;
     sc_fopen := b; sc_model := sc_model s; sc_ctx := sc_ctx s;
     sc_chain := sc_chain s; sc_n_ctx := sc_n_ctx s;
     sc_tokenize := sc_tokenize s; sc_decode := sc_decode s;
     sc_sample := sc_sample s; sc_eos := sc_eos s; sc_piece := sc_piece s |}.

(** A process that has just started: nothing is live. *)
Definition boot (s : script) : process script := {| p_env := s; heap := ∅ |}.

(** A process with one session, at address [1000], built on the resources
    of [healthy]. *)
Definition session : llama_model_context :=
  {| model := 100; ctx := 200; sampler := 300 |}.
Definition loaded (s : script) : process script :=
  {| p_env := s; heap := {[ 1000 := session ]} |}.

(** The engine of [healthy] once the session is loaded: the allocator has
    two more blocks to give. *)
Definition serving : script :=
  {| sc_getchars := []; sc_malloc := [2000; 3000]; sc_fopen := true;
     sc_model := 100; sc_ctx := 200; sc_chain := 300; sc_n_ctx := 2048;
     sc_tokenize := (3, [11; 12; 13]); sc_decode := []; sc_sample := [];
     sc_eos := 2; sc_piece := letter_piece |}.

Definition boot_simple (s : script) : LlamaJniSimple.process script :=
  {| LlamaJniSimple.p_env := s; LlamaJniSimple.heap := ∅;
     LlamaJniSimple.global_model := NULL |}.

Definition hello : list byte := list_byte_of_string "Hello".
Definition model_file : list byte := list_byte_of_string "model.gguf".

(** The mock process with one structure, at address [1000]. *)
Definition simple_session : LlamaJniSimple.llama_model_context :=
  {| LlamaJniSimple.model_id := 12345; LlamaJniSimple.model_path := model_file;
     LlamaJniSimple.is_loaded := 1 |}.
Definition loaded_simple (s : script) : LlamaJniSimple.process script :=
  {| LlamaJniSimple.p_env := s; LlamaJniSimple.heap := {[ 1000 := simple_session ]};
     LlamaJniSimple.global_model := 1000 |}.

(** The engine samples tokens 1 and 3 (pieces "A" and "C"); its priming
    decode and the decode of pass 0 succeed, the decode of pass 1 fails
    with code 7. *)
Definition decode_fails_in_pass_1 : process script :=
  loaded (with_decodes [0; 0; 7] (with_samples [1; 3] serving)).

(** The engine samples tokens 1 and 3 and then the end token. *)
Definition two_tokens_then_end : process script :=
  loaded (with_samples [1; 3] serving).

(** The engine samples the end token at once. *)
Definition end_at_once : process script := loaded serving.

(** The engine samples tokens 1, 3, 4, 5 and then the end token. *)
Definition four_tokens_then_end : process script :=
  loaded (with_samples [1; 3; 4; 5] serving).

(** The tokenizer fails. *)
Definition tokenizer_fails : process script :=
  loaded (with_tokenize (-1, []) serving).

(** The tokenizer fills the whole context window of 2048 tokens. *)
Definition prompt_fills_window : process script :=
  loaded (with_tokenize (2048, []) serving).

(** The engine cannot load the model file. *)
Definition model_not_loadable : process script := boot (with_model NULL healthy).

(** The model file cannot be opened. *)
Definition model_file_missing : LlamaJniSimple.process script :=
  boot_simple (with_fopen false healthy).

End Scripted.

(** ** Runs of the generation loop, as a relation

    [loop_run max mc h st out t]: started with the locals [st], the loop ends
    with [out] after the calls [t].  Each rule is one way through the body. *)

Definition loop_guard (max_gen_tokens : Z) (st : gen_state) : bool :=
  (i st <? max_gen_tokens) && (response_pos st <? MAX_RESPONSE_LENGTH - 256).

(** The locals after a full pass: [generated_tokens++] and then [i++]. *)
Definition advance (st : gen_state) : gen_state :=
  {| i := i st + 1; response_pos := response_pos st; response := response st;
     generated_tokens := generated_tokens st + 1 |}.

Inductive loop_run (max_gen_tokens : Z) (mc : llama_model_context) (h : ptr)
  : gen_state -> outcome gen_state -> list event -> Prop :=
  | loop_exit st :
      loop_guard max_gen_tokens st = false ->
      loop_run max_gen_tokens mc h st (Ret st) []
  | loop_eos st tok :
      loop_guard max_gen_tokens st = true ->
      loop_run max_gen_tokens mc h st (Ret st)
        [call_llama_sampler_sample (sampler mc) (ctx mc) (-1) tok;
         call_llama_token_eos (model mc) tok]
  | loop_bad_copy st tok eos n bs :
      loop_guard max_gen_tokens st = true ->
      tok <> eos ->
      append_piece st n bs = None ->
      loop_run max_gen_tokens mc h st (Fault OutOfBounds)
        [call_llama_sampler_sample (sampler mc) (ctx mc) (-1) tok;
         call_llama_token_eos (model mc) eos;
         call_llama_sampler_accept (sampler mc) tok;
         call_llama_token_to_piece h tok 256 0 false n bs]
  | loop_decode_failed st tok eos n bs st1 rc :
      loop_guard max_gen_tokens st = true ->
      tok <> eos ->
      append_piece st n bs = Some st1 ->
      rc <> 0 ->
      loop_run max_gen_tokens mc h st (Ret st1)
        [call_llama_sampler_sample (sampler mc) (ctx mc) (-1) tok;
         call_llama_token_eos (model mc) eos;
         call_llama_sampler_accept (sampler mc) tok;
         call_llama_token_to_piece h tok 256 0 false n bs;
         call_llama_decode (ctx mc) [tok] rc]
  | loop_next st tok eos n bs st1 out t :
      loop_guard max_gen_tokens st = true ->
      tok <> eos ->
      append_piece st n bs = Some st1 ->
      loop_run max_gen_tokens mc h (advance st1) out t ->
      loop_run max_gen_tokens mc h st out
        ([call_llama_sampler_sample (sampler mc) (ctx mc) (-1) tok;
          call_llama_token_eos (model mc) eos;
          call_llama_sampler_accept (sampler mc) tok;
          call_llama_token_to_piece h tok 256 0 false n bs;
          call_llama_decode (ctx mc) [tok] 0] ++ t).

(** The response array holds [text]: the written cells are the bytes of
    [text], the write position is its length, and two cells at least are
    left after it. *)
Definition holds (st : gen_state) (text : list byte) : Prop :=
  response st
    = (Some <$> text)
      ++ replicate (Z.to_nat MAX_RESPONSE_LENGTH - length text)%nat None
  /\ response_pos st = Z.of_nat (length text)
  /\ Z.of_nat (length text) <= MAX_RESPONSE_LENGTH - 2.

(** The parts of the result of a computation. *)
Definition outcome_of {P A} (r : outcome A * list event * P) : outcome A := r.1.1.
Definition log_of {P A} (r : outcome A * list event * P) : list event := r.1.2.
Definition state_of {P A} (r : outcome A * list event * P) : P := r.2.

(** [h] is a session of the process [p]: a live structure, not at [NULL],
    with its three resources present. *)
Definition session_at {W} (p : process W) (h : jlong) (mc : llama_model_context)
  : Prop :=
  h <> 0 /\ heap p !! h = Some mc
  /\ model mc <> NULL /\ ctx mc <> NULL /\ sampler mc <> NULL.

(** What a run shows when the binding refuses the token count [n] that the
    tokenizer reported: a negative count is a tokenization failure, a count
    that does not leave room in the context window of [c] tokens is a prompt
    that is too long, and in both cases nothing was decoded. *)
Definition refuses_token_count {P A} (r : outcome A * list event * P) : Prop :=
  (forall n,
      tokenizes (log_of r) = [n] -> n < 0 ->
      outcome_of r = Throw RuntimeException "Failed to tokenize prompt"
      /\ decodes (log_of r) = [])
  /\ (forall n c,
        tokenizes (log_of r) = [n] -> n_ctxs (log_of r) = [c] ->
        0 <= n -> c <= n ->
        outcome_of r = Throw IllegalArgumentException "Prompt too long for context"
        /\ decodes (log_of r) = []).

(** ** Runs of [generateText], as a relation

    What the two engine-backed [generateText] have in common, with the bound
    [max_gen_tokens] of the loop as a parameter.  A call either leaves before
    the loop, with at most the priming decode in its log, or goes through the
    loop: its log is then the calls before the loop, ending with the priming
    decode that succeeded, the calls of a run of the loop, and calls into the
    JVM and libc only. *)
Inductive generate_run {P : Type} (max_gen_tokens : Z)
    (r : outcome (list byte) * list event * P) : Prop :=
  | generate_early :
      (length (decodes (log_of r)) <= 1)%nat ->
      samples (log_of r) = [] ->
      eos_checks (log_of r) = [] ->
      accepts (log_of r) = [] ->
      pieces (log_of r) = [] ->
      (exists cls msg, outcome_of r = Throw cls msg)
        \/ outcome_of r = Fault InvalidPointer ->
      generate_run max_gen_tokens r
  | generate_looped pre t post mc hnd out_loop :
      log_of r = pre ++ t ++ post ->
      decodes pre = [0] ->
      samples pre = [] ->
      eos_checks pre = [] ->
      accepts pre = [] ->
      pieces pre = [] ->
      Forall (fun e => is_engine_call e = false) post ->
      loop_run max_gen_tokens mc hnd gen_init out_loop t ->
      match out_loop with
      | Ret st => forall text, holds st text -> outcome_of r = Ret (c_prefix text)
      | Throw _ _ => False
      | Fault f => outcome_of r = Fault f
      end ->
      generate_run max_gen_tokens r.

(** ** The properties of a call of [generateText]

    Each property is stated on the result [r] of a call: its outcome and its
    log.  [engine_kept_promise r] says that every piece in the log respects
    [piece_contract] for the 256 bytes of [token_str]. *)

Definition engine_kept_promise {P A} (r : outcome A * list event * P) : Prop :=
  Forall (fun p => piece_contract p 256) (pieces (log_of r)).

(** The priming decode and the decodes of passes [0..k-1] succeeded and the
    decode of pass [k] failed with [rc]. *)
Definition decode_failed_in_pass {P A} (r : outcome A * list event * P)
    (k : nat) (rc : Z) : Prop :=
  decodes (log_of r) = 0 :: replicate k 0 ++ [rc] /\ rc <> 0.

(** The text returned after a failed decode, as the specification has it:
    the pieces of the passes before pass [k] only. *)
Definition returns_text_before_failed_pass {P}
    (r : outcome (list byte) * list event * P) : Prop :=
  forall k rc,
    decode_failed_in_pass r k rc ->
    engine_kept_promise r ->
    outcome_of r = Ret (c_prefix (accumulate [] (take k (pieces (log_of r))))).

(** The text returned after a failed decode, as the bindings have it: pass
    [k] has offered its piece before its decode, so the text is made of the
    pieces of the passes [0..k]; the failed decode is the last call into the
    engine. *)
Definition returns_text_through_failed_pass {P}
    (r : outcome (list byte) * list event * P) : Prop :=
  forall k rc,
    decode_failed_in_pass r k rc ->
    engine_kept_promise r ->
    outcome_of r = Ret (c_prefix (accumulate [] (pieces (log_of r))))
    /\ length (pieces (log_of r)) = S k
    /\ exists t0 c tok post,
         log_of r = t0 ++ call_llama_decode c [tok] rc :: post
         /\ Forall (fun e => is_engine_call e = false) post.

(** The token sampled in pass [k] is the end token. *)
Definition end_token_in_pass {P A} (r : outcome A * list event * P)
    (k : nat) (tok : llama_token) : Prop :=
  samples (log_of r) !! k = Some tok /\ eos_checks (log_of r) !! k = Some tok.

(** The loop stops at the end token: no later sample, no piece and no decode
    for it (the decodes are the priming one and those of the [k] passes
    before), and the text of the passes before is returned. *)
Definition stops_at_end_token {P} (r : outcome (list byte) * list event * P)
  : Prop :=
  forall k tok,
    end_token_in_pass r k tok ->
    length (samples (log_of r)) = S k
    /\ length (pieces (log_of r)) = k
    /\ decodes (log_of r) = replicate (S k) 0
    /\ (engine_kept_promise r ->
        outcome_of r = Ret (c_prefix (accumulate [] (pieces (log_of r))))).

(** The case of the first sample: the empty string is returned and the
    priming decode is the only decode. *)
Definition empty_when_first_is_end_token {P}
    (r : outcome (list byte) * list event * P) : Prop :=
  forall tok,
    end_token_in_pass r 0 tok ->
    outcome_of r = Ret [] /\ decodes (log_of r) = [0].


(** The host state along a log.  The host answers every call from its state
    and moves to a new one; the log records the callee and its arguments,
    so the states that the host went through can be read off the log. *)
Section HostStates.
Context {W : Type} `{Host W}.






End HostStates.

(** The promise of the engine on every call of [llama_token_to_piece] of the
    log, for the length that the call was given: [piece_contract] with the
    [len] recorded in the call. *)
Definition engine_kept_piece_promise {P A} (r : outcome A * list event * P)
  : Prop :=
  Forall (fun c => piece_contract (snd c) (fst c)) (piece_calls (log_of r)).

(** The response array is never overrun.  Whatever the engine does: every
    call of [llama_token_to_piece] is given the 256 bytes of [token_str];
    every pass was entered with the write position below
    [MAX_RESPONSE_LENGTH - 256]; and the text made of the pieces that fit
    leaves room for the terminator inside the array.  With an engine that
    keeps its promise for the length it is given: no access of the call is
    outside an array or meets an unwritten cell (the one fault left is a
    session handle that is not live); no piece is longer than 256; and the
    string returned is that text read as a C string, shorter than the
    array. *)
Definition response_in_bounds {P} (r : outcome (list byte) * list event * P)
  : Prop :=
  Forall (fun c => fst c = 256) (piece_calls (log_of r))
  /\ Forall (fun pos => 0 <= pos < MAX_RESPONSE_LENGTH - 256)
       (write_positions [] (pieces (log_of r)))
  /\ Z.of_nat (length (accumulate [] (pieces (log_of r)))) < MAX_RESPONSE_LENGTH - 1
  /\ (engine_kept_piece_promise r ->
      (forall f, outcome_of r = Fault f -> f = InvalidPointer)
      /\ Forall (fun p => fst p <= 256) (pieces (log_of r))
      /\ forall text, outcome_of r = Ret text ->
           text = c_prefix (accumulate [] (pieces (log_of r)))
           /\ Z.of_nat (length text) < MAX_RESPONSE_LENGTH - 1).

(** Nothing but the bound ends the loop of a call: it returned, no decode
    failed, no sampled token was the end token, and the text stayed below
    the margin of the loop. *)
Definition only_bound_stops {P} (r : outcome (list byte) * list event * P)
  : Prop :=
  (exists text, outcome_of r = Ret text)
  /\ Forall (fun rc => rc = 0) (decodes (log_of r))
  /\ Forall2 (fun tok eos => tok <> eos) (samples (log_of r)) (eos_checks (log_of r))
  /\ engine_kept_promise r
  /\ Z.of_nat (length (accumulate [] (pieces (log_of r)))) < MAX_RESPONSE_LENGTH - 256.

(** [bound] is the bound on the passes of the loop: never more samples, and
    exactly as many when nothing else ends the loop. *)
Definition loop_bounded_by {P} (bound : Z)
    (r : outcome (list byte) * list event * P) : Prop :=
  Z.of_nat (length (samples (log_of r))) <= bound
  /\ (only_bound_stops r -> Z.of_nat (length (samples (log_of r))) = bound).

(** ** The properties of [loadModel] and [unloadModel] *)

(** A failed [loadModel] has unwound: whatever the binding held before the
    call it holds after it, nothing more (every model, context and sampler
    chain created by the call was freed, and [llama_backend_init] was matched
    by [llama_backend_free]); no session structure was left on the heap; and
    the exception is raised by the last call of the log, after the
    releases. *)
Definition unwinds_on_failure {W} (p : process W)
    (r : outcome jlong * list event * process W) : Prop :=
  forall cls msg,
    outcome_of r = Throw cls msg ->
    (forall held, ledger held (log_of r) = held)
    /\ heap (state_of r) = heap p
    /\ exists t0, log_of r = t0 ++ [call_ThrowNew cls msg].

(** Each step of the construction that the host refuses is reported with
    its own exception. *)
Definition reports_failed_step {P} (r : outcome jlong * list event * P) : Prop :=
  (forall path params,
      In (call_llama_model_load_from_file path params NULL) (log_of r) ->
      outcome_of r = Throw RuntimeException "Failed to load model")
  /\ (forall m params,
        In (call_llama_init_from_model m params NULL) (log_of r) ->
        outcome_of r = Throw RuntimeException "Failed to create context")
  /\ (forall params,
        In (call_llama_sampler_chain_init params NULL) (log_of r) ->
        outcome_of r = Throw RuntimeException "Failed to create sampler")
  /\ (forall size,
        In (call_malloc size NULL) (log_of r) ->
        outcome_of r
        = Throw OutOfMemoryError "Failed to allocate memory for model context").

(** The log shows that the model file could not be read: the engine did not
    load it, or ([llama_jni_simple.c]) it could not be opened. *)
Definition model_file_unreadable (t : list event) : Prop :=
  (exists path params, In (call_llama_model_load_from_file path params NULL) t)
  \/ (exists path, In (call_fopen path false) t).

(** [loadModel] with a model file that cannot be read fails with a
    [RuntimeException]. *)
Definition refuses_unreadable_model {P} (r : outcome jlong * list event * P)
  : Prop :=
  model_file_unreadable (log_of r) ->
  exists msg, outcome_of r = Throw RuntimeException msg.

(** The mock [loadModel] has one kind of failure, the lack of memory; it
    then leaves its heap and [global_model] as they were. *)
Definition fails_only_for_memory {W} (p : LlamaJniSimple.process W)
    (r : outcome jlong * list event * LlamaJniSimple.process W) : Prop :=
  forall cls msg,
    outcome_of r = Throw cls msg ->
    cls = OutOfMemoryError
    /\ LlamaJniSimple.heap (state_of r) = LlamaJniSimple.heap p
    /\ LlamaJniSimple.global_model (state_of r) = LlamaJniSimple.global_model p.

(** The calls that free the resources of a session, in the order of
    [unloadModel]: each resource that is present, then the structure, then
    the backend. *)
Definition release_calls (h : jlong) (mc : llama_model_context) : list event :=
  (if sampler mc =? NULL then [] else [call_llama_sampler_free (sampler mc)])
  ++ (if ctx mc =? NULL then [] else [call_llama_free (ctx mc)])
  ++ (if model mc =? NULL then [] else [call_llama_model_free (model mc)])
  ++ [call_free h; call_llama_backend_free].

(** Releasing the same handle twice in a row is safe: the second call
    returns too. *)
Definition release_twice_is_safe {P} (unload : jlong -> M P unit) (p : P)
    (h : jlong) : Prop :=
  outcome_of (unload h (state_of (unload h p))) = Ret tt.

(** ** What a log shows of strings, memory and files *)

Definition getchars_result (e : event) : option (list byte) :=
  match e with call_GetStringUTFChars s true => Some s | _ => None end.
Definition release_arg (e : event) : option (list byte) :=
  match e with call_ReleaseStringUTFChars s => Some s | _ => None end.
Definition malloc_result (e : event) : option ptr :=
  match e with
  | call_malloc _ p => if p =? NULL then None else Some p
  | _ => None
  end.
Definition free_arg (e : event) : option ptr :=
  match e with call_free p => Some p | _ => None end.
Definition fopen_result (e : event) : option (list byte) :=
  match e with call_fopen f true => Some f | _ => None end.
Definition fclose_call (e : event) : option unit :=
  match e with call_fclose => Some tt | _ => None end.
Definition new_string (e : event) : option (list byte) :=
  match e with call_NewStringUTF s => Some s | _ => None end.

(** The strings that [GetStringUTFChars] handed out, and those given back. *)
Definition strings_obtained (t : list event) : list (list byte) :=
  omap getchars_result t.
Definition strings_released (t : list event) : list (list byte) :=
  omap release_arg t.

(** The blocks that [malloc] handed out, and those given to [free]. *)
Definition blocks_allocated (t : list event) : list ptr := omap malloc_result t.
Definition blocks_freed (t : list event) : list ptr := omap free_arg t.

(** The files that [fopen] opened, and the calls of [fclose]. *)
Definition files_opened (t : list event) : list (list byte) := omap fopen_result t.
Definition files_closed (t : list event) : list unit := omap fclose_call t.

(** The Java strings made by [NewStringUTF]. *)
Definition strings_made (t : list event) : list (list byte) := omap new_string t.

(** ** What a log shows of the engine *)

Definition decode_batch (e : event) : option (list llama_token) :=
  match e with call_llama_decode _ b _ => Some b | _ => None end.
Definition piece_token (e : event) : option llama_token :=
  match e with call_llama_token_to_piece _ tok _ _ _ _ _ => Some tok | _ => None end.
Definition model_load_params (e : event) : option llama_model_params :=
  match e with call_llama_model_load_from_file _ params _ => Some params | _ => None end.
Definition context_made (e : event) : option llama_context_params :=
  match e with call_llama_init_from_model _ params _ => Some params | _ => None end.

(** The batches given to [llama_decode] and the tokens given to
    [llama_token_to_piece], in call order. *)
Definition decode_batches (t : list event) : list (list llama_token) :=
  omap decode_batch t.
Definition piece_tokens (t : list event) : list llama_token := omap piece_token t.

(** The parameters of the models loaded and of the contexts made. *)
Definition models_loaded (t : list event) : list llama_model_params :=
  omap model_load_params t.
Definition contexts_made (t : list event) : list llama_context_params :=
  omap context_made t.

(** The layers of a sampler chain. *)
Inductive sampler_layer :=
  | top_k (k : Z)
  | top_p (p : tenths) (min_keep : Z)
  | temp (t : tenths)
  | dist (sd : Z).

Definition layer_made (e : event) : option (sampler_layer * ptr) :=
  match e with
  | call_llama_sampler_init_top_k k s => Some (top_k k, s)
  | call_llama_sampler_init_top_p p min_keep s => Some (top_p p min_keep, s)
  | call_llama_sampler_init_temp t s => Some (temp t, s)
  | call_llama_sampler_init_dist sd s => Some (dist sd, s)
  | _ => None
  end.
Definition layer_added (e : event) : option (ptr * ptr) :=
  match e with call_llama_sampler_chain_add chain s => Some (chain, s) | _ => None end.

(** The layers constructed, each with the pointer the engine returned for
    it, and the calls of [llama_sampler_chain_add] as (chain, layer). *)
Definition layers_made (t : list event) : list (sampler_layer * ptr) :=
  omap layer_made t.
Definition layers_added (t : list event) : list (ptr * ptr) := omap layer_added t.

(** ** Substrings *)

(** [needle] occurs in [s]. *)
Definition contains (needle s : list byte) : Prop :=
  exists a b, s = a ++ needle ++ b.

(** One of the words [needles] occurs in [s]. *)
Definition mentions (needles : list string) (s : list byte) : Prop :=
  Exists (fun n => contains (list_byte_of_string n) s) needles.

(** The canned answers of the mock [generateText], all tables together. *)
Definition canned_answers : list (list byte) :=
  LlamaJniSimple.math_responses ++ LlamaJniSimple.general_math_responses
  ++ LlamaJniSimple.greetings ++ LlamaJniSimple.intro_responses
  ++ LlamaJniSimple.questions ++ LlamaJniSimple.defaults.

(** ** The scripted host with a sampler that counts

    The host of [Scripted] together with the bookkeeping of its sampler: the
    tokens that [llama_sampler_accept] was given, in order. *)
Module Counting.
Import Scripted.

Record counting := {
  inner : script;
  accepted : list llama_token
}.

Definition lift {A} (f : script -> A * script) (w : counting) : A * counting :=
  ((f (inner w)).1, {| inner := (f (inner w)).2; accepted := accepted w |}).

(** [llama_sampler_accept(smpl, tok)] counts [tok]; the other calls that
    return nothing leave the host as it is. *)
Definition count (e : event) (w : counting) : counting :=
  match e with
  | call_llama_sampler_accept _ tok =>
      {| inner := inner w; accepted := accepted w ++ [tok] |}
  | _ => w
  end.

#[global] Instance counting_Host : Host counting := {|
  observe := count;
  h_GetStringUTFChars s := lift (h_GetStringUTFChars s);
  h_malloc size := lift (h_malloc size);
  h_fopen f := lift (h_fopen f);
  h_llama_model_default_params := lift h_llama_model_default_params;
  h_llama_context_default_params := lift h_llama_context_default_params;
  h_llama_sampler_chain_default_params := lift h_llama_sampler_chain_default_params;
  h_llama_model_load_from_file path params :=
    lift (h_llama_model_load_from_file path params);
  h_llama_init_from_model m params := lift (h_llama_init_from_model m params);
  h_llama_sampler_chain_init params := lift (h_llama_sampler_chain_init params);
  h_llama_sampler_init_top_k k := lift (h_llama_sampler_init_top_k k);
  h_llama_sampler_init_top_p p min_keep := lift (h_llama_sampler_init_top_p p min_keep);
  h_llama_sampler_init_temp t := lift (h_llama_sampler_init_temp t);
  h_llama_sampler_init_dist sd := lift (h_llama_sampler_init_dist sd);
  h_llama_get_memory c := lift (h_llama_get_memory c);
  h_llama_n_ctx c := lift (h_llama_n_ctx c);
  h_llama_model_get_vocab m := lift (h_llama_model_get_vocab m);
  h_llama_tokenize h text text_len n_max add_special parse_special :=
    lift (h_llama_tokenize h text text_len n_max add_special parse_special);
  h_llama_decode c batch := lift (h_llama_decode c batch);
  h_llama_sampler_sample smpl c idx := lift (h_llama_sampler_sample smpl c idx);
  h_llama_token_eos m := lift (h_llama_token_eos m);
  h_llama_token_to_piece h tok len lstrip special :=
    lift (h_llama_token_to_piece h tok len lstrip special)
|}.



End Counting.

(** ** The scripted host with a clock and a generator

    The host of [Scripted] together with the time of the clock and the draws
    of [rand] to come; when the draws are exhausted [rand] gives [0]. *)
Module Rolled.
Import Scripted.

Record world := {
  engine : script;
  now : Z;
  draws : list nat
}.

Definition lift {A} (f : script -> A * script) (w : world) : A * world :=
  let '(a, s) := f (engine w) in
  (a, {| engine := s; now := now w; draws := draws w |}).

#[export] Instance world_Host : Host world := {|
  observe _ w := w;
  h_GetStringUTFChars s := lift (h_GetStringUTFChars s);
  h_malloc size := lift (h_malloc size);
  h_fopen f := lift (h_fopen f);
  h_llama_model_default_params := lift h_llama_model_default_params;
  h_llama_context_default_params := lift h_llama_context_default_params;
  h_llama_sampler_chain_default_params := lift h_llama_sampler_chain_default_params;
  h_llama_model_load_from_file path params :=
    lift (h_llama_model_load_from_file path params);
  h_llama_init_from_model m params := lift (h_llama_init_from_model m params);
  h_llama_sampler_chain_init params := lift (h_llama_sampler_chain_init params);
  h_llama_sampler_init_top_k k := lift (h_llama_sampler_init_top_k k);
  h_llama_sampler_init_top_p p min_keep := lift (h_llama_sampler_init_top_p p min_keep);
  h_llama_sampler_init_temp t := lift (h_llama_sampler_init_temp t);
  h_llama_sampler_init_dist sd := lift (h_llama_sampler_init_dist sd);
  h_llama_get_memory c := lift (h_llama_get_memory c);
  h_llama_n_ctx c := lift (h_llama_n_ctx c);
  h_llama_model_get_vocab m := lift (h_llama_model_get_vocab m);
  h_llama_tokenize h text text_len n_max add_special parse_special :=
    lift (h_llama_tokenize h text text_len n_max add_special parse_special);
  h_llama_decode c batch := lift (h_llama_decode c batch);
  h_llama_sampler_sample smpl c idx := lift (h_llama_sampler_sample smpl c idx);
  h_llama_token_eos m := lift (h_llama_token_eos m);
  h_llama_token_to_piece h tok len lstrip special :=
    lift (h_llama_token_to_piece h tok len lstrip special)
|}.

#[export] Instance world_Randomness : Randomness world := {|
  h_time w := (now w, w);
  h_srand _ w := w;
  h_rand w :=
    (Z.of_nat (hd 0%nat (draws w)),
     {| engine := engine w; now := now w; draws := tl (draws w) |})
|}.

(** The mock process at start, on the host of [healthy], with the given
    draws to come. *)
Definition boot_simple (rolls : list nat) : LlamaJniSimple.process world :=
  {| LlamaJniSimple.p_env := {| engine := healthy; now := 1700000000; draws := rolls |};
     LlamaJniSimple.heap := ∅; LlamaJniSimple.global_model := NULL |}.

(** The mock process with the structure of [model_path] at address [1000]. *)
Definition loaded_simple (model_path : list byte) (rolls : list nat)
  : LlamaJniSimple.process world :=
  {| LlamaJniSimple.p_env := {| engine := healthy; now := 1700000000; draws := rolls |};
     LlamaJniSimple.heap :=
       {[ 1000 := {| LlamaJniSimple.model_id := 12345;
                     LlamaJniSimple.model_path := model_path;
                     LlamaJniSimple.is_loaded := 1 |} ]};
     LlamaJniSimple.global_model := 1000 |}.

Definition windows_path : list byte :=
  list_byte_of_string "C:\models/llama.gguf".
Definition unix_path : list byte := list_byte_of_string "/opt/models/llama.gguf".
Definition what_is_this : list byte := list_byte_of_string "What is this?".

End Rolled.

(** The priming decode fails with code 5. *)
Definition priming_decode_fails : process Scripted.script :=
  Scripted.loaded (Scripted.with_decodes [5] Scripted.serving).

(** * Properties *)

(** ** Stepping through native code *)

Arguments fresh_buffer : simpl never.
Arguments gen_init : simpl never.
Arguments generation_loop : simpl never.
Arguments finish_response : simpl never.
Arguments MAX_PROMPT_LENGTH : simpl never.
Arguments MAX_RESPONSE_LENGTH : simpl never.
Arguments DEFAULT_MAX_TOKENS : simpl never.

Create HintDb native.
#[export] Hint Unfold bind ret undefined access call call_void throw deref
  outcome_of log_of : native.

(** Comparisons met along a run, as propositions. *)
Ltac reflect_tests :=
  repeat match goal with
    | E : (_ =? _) = true |- _ => apply Z.eqb_eq in E
    | E : (_ =? _) = false |- _ => apply Z.eqb_neq in E
    | E : (_ <? _) = true |- _ => apply Z.ltb_lt in E
    | E : (_ <? _) = false |- _ => apply Z.ltb_ge in E
    | E : (_ >? _) = true |- _ => apply Z.gtb_gt in E
    | E : (_ >? _) = false |- _ => rewrite Z.gtb_ltb in E; apply Z.ltb_ge in E
    | E : (_ >=? _) = true |- _ => rewrite Z.geb_leb in E; apply Z.leb_le in E
    | E : (_ >=? _) = false |- _ => rewrite Z.geb_leb in E; apply Z.leb_gt in E
    | E : negb _ = true |- _ => apply negb_true_iff in E
    | E : negb _ = false |- _ => apply negb_false_iff in E
    | E : _ || _ = true |- _ => apply orb_true_iff in E as [E | E]
    | E : _ || _ = false |- _ => apply orb_false_iff in E as [? ?]
    | E : _ && _ = true |- _ => apply andb_true_iff in E as [? ?]
    | E : _ && _ = false |- _ => apply andb_false_iff in E as [E | E]
    end.

Ltac step_in H :=
  match type of H with
  | context [match ?x with _ => _ end] =>
      lazymatch x with
      | context [match _ with _ => _ end] => fail
      | _ => let E := fresh "E" in destruct x eqn:E; simpl in H
      end
  end.

Ltac finish_run H := injection H as <- <- <-.

(** Run a native method symbolically: one case per answer of the host. *)
Ltac run_in H :=
  autounfold with native in H; simpl in H; repeat step_in H;
  try finish_run H.

Section LoopFacts.
Context {W : Type} `{Host W}.

Lemma generation_loop_unfold fuel max_gen_tokens mc h st :
  generation_loop fuel max_gen_tokens mc h st
  = if loop_guard max_gen_tokens st then
      match fuel with
      | O => undefined OutOfFuel
      | S fuel' =>
          bind (loop_body mc h st) (fun r =>
            match r with
            | (Break, st') => ret st'
            | (Continue, st') =>
                generation_loop fuel' max_gen_tokens mc h
                  {| i := i st' + 1; response_pos := response_pos st';
                     response := response st';
                     generated_tokens := generated_tokens st' |}
            end)
      end
    else ret st.
Proof. destruct fuel; reflexivity. Qed.

Lemma append_piece_i st n bs st1 : append_piece st n bs = Some st1 -> i st1 = i st.
Proof.
  unfold append_piece. intros Ha.
  destruct (_ && _); [destruct memcpy|]; simplify_eq; reflexivity.
Qed.

Lemma append_piece_generated st n bs st1 :
  append_piece st n bs = Some st1 -> generated_tokens st1 = generated_tokens st.
Proof.
  unfold append_piece. intros Ha.
  destruct (_ && _); [destruct memcpy|]; simplify_eq; reflexivity.
Qed.

(** The loop of the source is the relation: every run of the function with
    the fuel the bindings give it is a run of [loop_run]. *)
Lemma generation_loop_run fuel max_gen_tokens mc h st p out t p' :
  (Z.to_nat (max_gen_tokens - i st) <= fuel)%nat ->
  generation_loop fuel max_gen_tokens mc h st p = (out, t, p') ->
  loop_run max_gen_tokens mc h st out t.
Proof.
  revert st p out t p'.
  induction fuel as [|fuel IH]; intros st p out t p' Hfuel Hrun;
    rewrite generation_loop_unfold in Hrun;
    destruct (loop_guard max_gen_tokens st) eqn:Hg.
  - unfold loop_guard in Hg. lia.
  - finish_run Hrun. by constructor.
  - unfold bind, loop_body, bind, llama_sampler_sample, llama_token_eos,
      llama_sampler_accept, llama_token_to_piece, llama_decode, call, call_void,
      access, ret, undefined in Hrun.
    simpl in Hrun.
    repeat step_in Hrun.
    all: try (finish_run Hrun).
    all: reflect_tests; subst.
    + by apply loop_eos.
    + by eapply loop_decode_failed.
    + match goal with E : generation_loop _ _ _ _ _ _ = _ |- _ => apply IH in E end.
      * by eapply loop_next.
      * match goal with E : append_piece _ _ _ = Some _ |- _ =>
          apply append_piece_i in E end.
        unfold loop_guard in Hg. simpl. lia.
    + by eapply loop_bad_copy.
  - finish_run Hrun. by constructor.
Qed.

(** *** The response array *)

Lemma accumulate_app text ps qs :
  accumulate text (ps ++ qs) = accumulate (accumulate text ps) qs.
Proof.
  revert text. induction ps as [|[n bs] ps IH]; intros text; simpl; [done|].
  destruct (piece_fits _ _); apply IH.
Qed.

Lemma holds_gen_init : holds gen_init [].
Proof.
  repeat split; vm_compute; congruence.
Qed.

Lemma holds_length st text :
  holds st text -> length (response st) = Z.to_nat MAX_RESPONSE_LENGTH.
Proof.
  intros (-> & _ & Hlen).
  rewrite length_app, length_fmap, length_replicate.
  unfold MAX_RESPONSE_LENGTH in *. lia.
Qed.

(** An append that is defined keeps the array a text followed by unwritten
    cells, and the text is the one [accumulate] computes. *)
Lemma append_piece_holds st text n bs st1 :
  holds st text ->
  append_piece st n bs = Some st1 ->
  holds st1 (accumulate text [(n, bs)]).
Proof.
  intros Hh Ha. pose proof (holds_length _ _ Hh) as Hlen.
  destruct Hh as (Hr & Hp & Hb).
  unfold append_piece in Ha. simpl. unfold piece_fits. rewrite <- Hp.
  destruct ((n >? 0) && (response_pos st + n <? MAX_RESPONSE_LENGTH - 1)) eqn:Hfit;
    [| simplify_eq; by repeat split].
  unfold memcpy in Ha.
  destruct (_ && _ && _ && _) eqn:Hdef; [| discriminate].
  simplify_eq. unfold holds; simpl.
  unfold MAX_RESPONSE_LENGTH in *.
  assert (Hn : length (take (Z.to_nat n) bs) = Z.to_nat n)
    by (rewrite length_take; lia).
  rewrite length_app, Hn.
  split; [| lia].
  rewrite Hr, Hp.
  rewrite take_app_length' by (rewrite length_fmap; lia).
  rewrite drop_app_ge by (rewrite length_fmap; lia).
  rewrite length_fmap, drop_replicate, fmap_app, <- app_assoc.
  do 3 f_equal. lia.
Qed.

(** On such an array the only append that is not defined is one that reads
    more bytes than the engine wrote for the piece. *)
Lemma append_piece_defined st text n bs :
  holds st text ->
  n <= Z.of_nat (length bs) ->
  is_Some (append_piece st n bs).
Proof.
  intros Hh Hn. pose proof (holds_length _ _ Hh) as Hlen.
  destruct Hh as (Hr & Hp & Hb).
  unfold append_piece.
  destruct ((n >? 0) && (response_pos st + n <? MAX_RESPONSE_LENGTH - 1)) eqn:Hfit;
    [| by eexists].
  unfold memcpy.
  destruct (_ && _ && _ && _) eqn:Hdef; [by eexists |].
  unfold MAX_RESPONSE_LENGTH in *. lia.
Qed.

Lemma c_string_text text rest :
  c_string ((Some <$> text) ++ Some x00 :: rest) = Some (c_prefix text).
Proof.
  induction text as [|b text IH]; [done|].
  rewrite fmap_cons. cbn [app c_string].
  destruct (Byte.eqb b x00) eqn:Hb; simpl; rewrite Hb; [done|].
  by rewrite IH.
Qed.

(** Writing the terminator after the text is defined, and the string read
    back is the text up to its first NUL. *)
Lemma terminate_holds st text :
  holds st text ->
  exists buf, store_byte (response st) (response_pos st) x00 = Some buf
              /\ c_string buf = Some (c_prefix text).
Proof.
  intros Hh. pose proof (holds_length _ _ Hh) as Hlen.
  destruct Hh as (Hr & Hp & Hb).
  unfold store_byte.
  destruct (_ && _) eqn:Hdef; [| unfold MAX_RESPONSE_LENGTH in *; lia].
  eexists; split; [done|].
  rewrite Hr, Hp, Nat2Z.id.
  unfold MAX_RESPONSE_LENGTH in *.
  destruct (Z.to_nat 8192 - length text)%nat as [|k] eqn:Hk; [lia|].
  simpl replicate.
  rewrite insert_app_r_alt by (rewrite length_fmap; lia).
  rewrite length_fmap, Nat.sub_diag. simpl.
  apply c_string_text.
Qed.

Lemma strlen_c_prefix s : strlen s = Z.of_nat (length (c_prefix s)).
Proof.
  induction s as [|b s IH]; simpl; [done|].
  destruct (Byte.eqb b x00); simpl; lia.
Qed.

Lemma c_prefix_length s : (length (c_prefix s) <= length s)%nat.
Proof.
  induction s as [|b s IH]; simpl; [done|].
  destruct (Byte.eqb b x00); simpl; lia.
Qed.

End LoopFacts.

(** *** Facts about runs of the loop *)

Ltac log_simpl :=
  unfold decodes, samples, eos_checks, accepts, pieces in *;
  repeat (rewrite ?omap_app in *; simpl in * ).

Section LoopRuns.
Variables (max_gen_tokens : Z) (mc : llama_model_context) (h : ptr).

Lemma holds_advance st text : holds st text -> holds (advance st) text.
Proof. by intros (? & ? & ?). Qed.

Lemma loop_run_outcome st out t :
  loop_run max_gen_tokens mc h st out t ->
  (exists st', out = Ret st') \/ out = Fault OutOfBounds.
Proof. induction 1; eauto. Qed.

(** The text in the array after the loop is the text before it extended by
    the pieces of the run, in order, each one if it fits. *)
Lemma loop_run_holds st st' t text :
  loop_run max_gen_tokens mc h st (Ret st') t ->
  holds st text ->
  holds st' (accumulate text (pieces t)).
Proof.
  intros Hrun. revert text.
  remember (Ret st') as out eqn:Hout.
  induction Hrun as [st Hg|st tok Hg|st tok eos n bs Hg Hne Ha
                    |st tok eos n bs st1 rc Hg Hne Ha Hrc
                    |st tok eos n bs st1 out t Hg Hne Ha Hrun IH];
    intros text Hh; simplify_eq; try done.
  - by eapply append_piece_holds.
  - change (pieces (_ ++ t)) with ((n, bs) :: pieces t).
    change ((n, bs) :: pieces t) with ([(n, bs)] ++ pieces t).
    rewrite accumulate_app.
    apply IH; [done|]. apply holds_advance. by eapply append_piece_holds.
Qed.

(** With an engine that keeps its promise on pieces, every access the loop
    makes to the response array is defined: the loop ends with [Ret]. *)
Lemma loop_run_defined st out t text :
  loop_run max_gen_tokens mc h st out t ->
  holds st text ->
  Forall (fun p => piece_contract p 256) (pieces t) ->
  exists st', out = Ret st'.
Proof.
  intros Hrun. revert text.
  induction Hrun as [st Hg|st tok Hg|st tok eos n bs Hg Hne Ha
                    |st tok eos n bs st1 rc Hg Hne Ha Hrc
                    |st tok eos n bs st1 out t Hg Hne Ha Hrun IH];
    intros text Hh Hc; eauto.
  - apply Forall_cons_1 in Hc as [[Hn _] _]. simpl in Hn.
    destruct (append_piece_defined st text n bs Hh Hn) as [st1 Hst1]. congruence.
  - change (pieces (_ ++ t)) with ((n, bs) :: pieces t) in Hc.
    apply Forall_cons_1 in Hc as [_ Hc].
    eapply IH; [| exact Hc]. apply holds_advance. by eapply append_piece_holds.
Qed.

(** A pass is entered only with the write position below
    [MAX_RESPONSE_LENGTH - 256]. *)
Lemma loop_run_positions st out t text :
  loop_run max_gen_tokens mc h st out t ->
  holds st text ->
  Forall (fun pos => pos < MAX_RESPONSE_LENGTH - 256) (write_positions text (pieces t)).
Proof.
  intros Hrun. revert text.
  induction Hrun as [st Hg|st tok Hg|st tok eos n bs Hg Hne Ha
                    |st tok eos n bs st1 rc Hg Hne Ha Hrc
                    |st tok eos n bs st1 out t Hg Hne Ha Hrun IH];
    intros text Hh; try (by constructor).
  all: pose proof Hh as (_ & Hp & _); unfold loop_guard in Hg.
  - repeat constructor. lia.
  - repeat constructor. lia.
  - change (pieces (_ ++ t)) with ((n, bs) :: pieces t).
    cbn [write_positions]. constructor; [lia|].
    apply IH. apply holds_advance. by eapply append_piece_holds.
Qed.

(** Every call of [llama_token_to_piece] of the loop is given 256, the size
    of [token_str]. *)
Lemma loop_run_piece_calls st out t :
  loop_run max_gen_tokens mc h st out t ->
  Forall (fun c => fst c = 256) (piece_calls t).
Proof.
  induction 1 as [st Hg|st tok Hg|st tok eos n bs Hg Hne Ha
                 |st tok eos n bs st1 rc Hg Hne Ha Hrc
                 |st tok eos n bs st1 out t Hg Hne Ha Hrun IH];
    [constructor | constructor | by repeat constructor | by repeat constructor |].
  change (piece_calls (_ ++ t)) with ((256, (n, bs)) :: piece_calls t).
  by constructor.
Qed.

(** The loop samples at most [max_gen_tokens - i] tokens. *)
Lemma loop_run_bound st out t :
  loop_run max_gen_tokens mc h st out t ->
  Z.of_nat (length (samples t)) <= Z.max 0 (max_gen_tokens - i st).
Proof.
  induction 1 as [st Hg|st tok Hg|st tok eos n bs Hg Hne Ha
                 |st tok eos n bs st1 rc Hg Hne Ha Hrc
                 |st tok eos n bs st1 out t Hg Hne Ha Hrun IH];
    try (unfold loop_guard in Hg; simpl; lia).
  change (samples (_ ++ t)) with (tok :: samples t).
  apply append_piece_i in Ha. unfold loop_guard in Hg.
  simpl in *. lia.
Qed.

(** It samples exactly that many when nothing else stops it: no decode
    fails, no sampled token is the end token, and the write position stays
    below the margin. *)
Lemma loop_run_exact st st' t :
  loop_run max_gen_tokens mc h st (Ret st') t ->
  Forall (fun rc => rc = 0) (decodes t) ->
  Forall2 (fun tok eos => tok <> eos) (samples t) (eos_checks t) ->
  response_pos st' < MAX_RESPONSE_LENGTH - 256 ->
  Z.of_nat (length (samples t)) = Z.max 0 (max_gen_tokens - i st).
Proof.
  remember (Ret st') as out eqn:Hout.
  induction 1 as [st Hg|st tok Hg|st tok eos n bs Hg Hne Ha
                 |st tok eos n bs st1 rc Hg Hne Ha Hrc
                 |st tok eos n bs st1 out t Hg Hne Ha Hrun IH];
    intros Hd Hs Hp; simplify_eq.
  - unfold loop_guard in Hg. simpl. lia.
  - apply Forall2_cons_1 in Hs as [? _]. done.
  - apply Forall_cons_1 in Hd as [? _]. done.
  - change (samples (_ ++ t)) with (tok :: samples t) in *.
    change (eos_checks (_ ++ t)) with (eos :: eos_checks t) in Hs.
    change (decodes (_ ++ t)) with (0 :: decodes t) in Hd.
    apply Forall2_cons_1 in Hs as [_ Hs]. apply Forall_cons_1 in Hd as [_ Hd].
    specialize (IH eq_refl Hd Hs Hp).
    apply append_piece_i in Ha. unfold loop_guard in Hg.
    simpl in *. lia.
Qed.

(** When the token sampled in pass [k] is the end token, the two calls that
    found it are the last calls of the loop: the passes before it were full
    passes, and nothing was accepted, converted or decoded after it. *)
Lemma loop_run_eos st out t k tok :
  loop_run max_gen_tokens mc h st out t ->
  samples t !! k = Some tok ->
  eos_checks t !! k = Some tok ->
  exists t0,
    t = t0 ++ [call_llama_sampler_sample (sampler mc) (ctx mc) (-1) tok;
               call_llama_token_eos (model mc) tok]
    /\ length (samples t0) = k
    /\ length (pieces t0) = k
    /\ decodes t0 = replicate k 0
    /\ accepts t0 = samples t0
    /\ exists st', out = Ret st'.
Proof.
  intros Hrun. revert k.
  induction Hrun as [st Hg|st tok' Hg|st tok' eos n bs Hg Hne Ha
                    |st tok' eos n bs st1 rc Hg Hne Ha Hrc
                    |st tok' eos n bs st1 out t Hg Hne Ha Hrun IH];
    intros k Hs He.
  - done.
  - destruct k as [|k]; [| done]. simpl in Hs. simplify_eq.
    exists []. repeat split; eauto.
  - destruct k as [|k]; [| done]. simpl in Hs, He. congruence.
  - destruct k as [|k]; [| done]. simpl in Hs, He. congruence.
  - change (samples (_ ++ t)) with (tok' :: samples t) in Hs.
    change (eos_checks (_ ++ t)) with (eos :: eos_checks t) in He.
    destruct k as [|k]; [simpl in Hs, He; congruence|].
    destruct (IH k Hs He) as (t0 & -> & Hs0 & Hp0 & Hd0 & Ha0 & Hout).
    eexists (_ ++ t0). split; [rewrite <- app_assoc; reflexivity|].
    log_simpl. repeat split; auto with f_equal.
Qed.

(** When the decode of pass [k] fails, it is the last call of the loop, the
    loop returns (it is [break], not an error), and pass [k] has offered its
    piece to the array just like the passes before it. *)
Lemma loop_run_decode_failed st out t k rc :
  loop_run max_gen_tokens mc h st out t ->
  decodes t = replicate k 0 ++ [rc] ->
  rc <> 0 ->
  length (pieces t) = S k
  /\ length (samples t) = S k
  /\ (exists t0 tok, t = t0 ++ [call_llama_decode (ctx mc) [tok] rc])
  /\ exists st', out = Ret st'.
Proof.
  intros Hrun. revert k.
  induction Hrun as [st Hg|st tok' Hg|st tok' eos n bs Hg Hne Ha
                    |st tok' eos n bs st1 rc' Hg Hne Ha Hrc
                    |st tok' eos n bs st1 out t Hg Hne Ha Hrun IH];
    intros k Hd Hrc0.
  - destruct k; done.
  - destruct k; done.
  - destruct k; done.
  - destruct k as [|k]; [| destruct k; done].
    simpl in Hd. simplify_eq. repeat split; eauto.
    by eexists [_; _; _; _], _.
  - change (decodes (_ ++ t)) with (0 :: decodes t) in Hd.
    destruct k as [|k]; simpl in Hd; simplify_eq.
    destruct (IH k) as (Hp & Hs & (t0 & tok & ->) & Hout); [done..|].
    split; [log_simpl; by f_equal|]. split; [log_simpl; by f_equal|].
    split; [| done].
    eexists (_ ++ t0), tok. rewrite <- app_assoc. reflexivity.
Qed.


End LoopRuns.

(** ** Properties of the bindings *)

Arguments strlen : simpl never.
Arguments Z.to_nat : simpl never.
Arguments Z.mul : simpl never.

(** Name the result of a call of a binding and run it: one goal per way
    through the method. *)
Ltac head_of t := lazymatch t with ?f _ => head_of f | _ => t end.

Ltac run_call r :=
  let Hrun := fresh "Hrun" in
  let f := head_of r in
  destruct r as [[?out ?t] ?p'] eqn:Hrun; unfold f in Hrun; run_in Hrun.

Ltac run_generateText :=
  match goal with
  | |- context [LlamaJni.Java_com_livecoding_demo_LlamaJNI_generateText ?a ?b ?p] =>
      run_call (LlamaJni.Java_com_livecoding_demo_LlamaJNI_generateText a b p)
  end.

Ltac run_generateText_new :=
  match goal with
  | |- context [LlamaJniNew.Java_com_livecoding_demo_LlamaJNI_generateText ?a ?b ?c ?p] =>
      run_call (LlamaJniNew.Java_com_livecoding_demo_LlamaJNI_generateText a b c p)
  end.

(** Use what the hypotheses say about an answer of the host in a case. *)
Ltac use_answers :=
  repeat match goal with
    | E : ?x = _, Hx : context [?x] |- _ =>
        lazymatch type of E with
        | (_ =? _) = _ => fail
        | _ => rewrite E in Hx; simpl in Hx
        end
    end.

(** The calls of a log that come before and after the calls [t] of the
    loop. *)
Ltac prefix_before t l :=
  lazymatch l with
  | t ++ _ => constr:(@nil event)
  | t => constr:(@nil event)
  | ?e :: ?l' => let r := prefix_before t l' in constr:(e :: r)
  end.

Ltac suffix_after t l :=
  lazymatch l with
  | t ++ ?s => constr:(s)
  | t => constr:(@nil event)
  | _ :: ?l' => suffix_after t l'
  end.

Section Shape.
Context {W : Type} `{Host W}.

Lemma generation_loop_from_init max_gen_tokens mc hnd (p : process W) out t p' :
  generation_loop (Z.to_nat max_gen_tokens) max_gen_tokens mc hnd gen_init p
    = (out, t, p') ->
  loop_run max_gen_tokens mc hnd gen_init out t.
Proof.
  apply generation_loop_run. unfold gen_init. simpl. lia.
Qed.

(** After the loop: the terminator is written inside the array and the
    string is read back, with calls into the JVM and libc only. *)
Lemma finish_response_cases response_ptr st (p : process W) out t p' :
  finish_response response_ptr st p = (out, t, p') ->
  Forall (fun e => is_engine_call e = false) t
  /\ (forall text, holds st text -> out = Ret (c_prefix text))
  /\ (forall cls msg, out <> Throw cls msg).
Proof.
  intros Hrun. unfold finish_response in Hrun.
  split; [| split].
  - run_in Hrun; repeat constructor.
  - intros text Hh.
    destruct (terminate_holds st text Hh) as (buf & Hs & Hc).
    rewrite Hs in Hrun. autounfold with native in Hrun. simpl in Hrun.
    rewrite Hc in Hrun. simpl in Hrun. by finish_run Hrun.
  - run_in Hrun; done.
Qed.

Ltac enter_loop :=
  match goal with
  | Hl : generation_loop _ _ ?mc ?hnd gen_init _ = (?o, ?t0, _)
    |- generate_run _ (_, ?log, _) =>
      let pre := prefix_before t0 log in
      let post := suffix_after t0 log in
      apply generation_loop_from_init in Hl;
      apply (generate_looped _ _ pre t0 post mc hnd o);
      [simpl; rewrite ?app_nil_r; reflexivity | ..]
  end.

Ltac leave_loop :=
  try match goal with
    | Hf : finish_response _ _ _ = _ |- _ =>
        apply finish_response_cases in Hf as (? & ? & ?)
    end;
  lazymatch goal with
  | |- _ = _ => reflexivity
  | |- Forall _ _ =>
      rewrite ?Forall_app; repeat split; first [assumption | repeat constructor]
  | |- loop_run _ _ _ _ _ _ => eassumption
  | |- False =>
      match goal with
      | Hl : loop_run _ _ _ _ _ _ |- _ =>
          destruct (loop_run_outcome _ _ _ _ _ _ Hl) as [[? ?] | ?]; discriminate
      end
  | |- forall _, _ =>
      let Hh := fresh "Hh" in
      simpl; intros ? Hh;
      match goal with
      | Hret : forall text, holds _ text -> _ = Ret (c_prefix text) |- _ =>
          apply Hret in Hh; first [exact Hh | discriminate]
      end
  end.

(** Every call of [generateText] of [llama_jni.c] is such a run, with the
    bound [DEFAULT_MAX_TOKENS]. *)
Lemma generateText_run (p : process W) (h : jlong) (prompt : jstring) :
  generate_run DEFAULT_MAX_TOKENS
    (LlamaJni.Java_com_livecoding_demo_LlamaJNI_generateText h prompt p).
Proof.
  run_generateText.
  all: try (apply generate_early; simpl; eauto; fail).
  all: reflect_tests; subst; enter_loop; leave_loop.
Qed.

(** Every call of [generateText] of [llama_jni_new.c] is such a run, with
    the bound computed from [maxTokens]. *)
Lemma generateText_new_run (p : process W) (h : jlong) (prompt : jstring)
    (maxTokens : jint) :
  generate_run (LlamaJniNew.sanitize_max_tokens maxTokens)
    (LlamaJniNew.Java_com_livecoding_demo_LlamaJNI_generateText h prompt maxTokens p).
Proof.
  run_generateText_new.
  all: try (apply generate_early; simpl; eauto; fail).
  all: reflect_tests; subst; enter_loop; leave_loop.
Qed.

End Shape.

(** *** What every run of [generateText] satisfies *)

Section Runs.
Context {P : Type}.
Implicit Types r : outcome (list byte) * list event * P.

Lemma quiet_log (l : list event) :
  Forall (fun e => is_engine_call e = false) l ->
  decodes l = [] /\ samples l = [] /\ eos_checks l = [] /\ accepts l = []
  /\ pieces l = [].
Proof.
  induction 1 as [|e l He _ IH]; [done|].
  destruct e; try discriminate; apply IH.
Qed.

(** The parts of the log of a call that went through the loop. *)
Lemma looped_log pre t post :
  decodes pre = [0] -> samples pre = [] -> eos_checks pre = [] ->
  accepts pre = [] -> pieces pre = [] ->
  Forall (fun e => is_engine_call e = false) post ->
  decodes (pre ++ t ++ post) = 0 :: decodes t
  /\ samples (pre ++ t ++ post) = samples t
  /\ eos_checks (pre ++ t ++ post) = eos_checks t
  /\ accepts (pre ++ t ++ post) = accepts t
  /\ pieces (pre ++ t ++ post) = pieces t.
Proof.
  intros Hd Hs He Ha Hp (Hd' & Hs' & He' & Ha' & Hp')%quiet_log.
  unfold decodes, samples, eos_checks, accepts, pieces in *.
  rewrite !omap_app, Hd, Hs, He, Ha, Hp, Hd', Hs', He', Ha', Hp', !app_nil_r.
  done.
Qed.

Lemma accumulate_bound text ps :
  Z.of_nat (length text) < MAX_RESPONSE_LENGTH - 1 ->
  Z.of_nat (length (accumulate text ps)) < MAX_RESPONSE_LENGTH - 1.
Proof.
  revert text. induction ps as [|[n bs] ps IH]; intros text Hlen; simpl; [done|].
  destruct (piece_fits _ n) eqn:Hfit; [| by apply IH].
  apply IH. unfold piece_fits in Hfit. rewrite length_app, length_take.
  reflect_tests. lia.
Qed.

Lemma write_positions_nonneg text ps :
  Forall (fun pos => 0 <= pos) (write_positions text ps).
Proof.
  revert text. induction ps as [|p ps IH]; intros text; simpl; constructor;
    [lia | apply IH].
Qed.

Lemma c_prefix_bound text :
  Z.of_nat (length text) < MAX_RESPONSE_LENGTH - 1 ->
  Z.of_nat (length (c_prefix text)) < MAX_RESPONSE_LENGTH - 1.
Proof. pose proof (c_prefix_length text). lia. Qed.

Lemma run_through_failed_pass max_gen_tokens r :
  generate_run max_gen_tokens r -> returns_text_through_failed_pass r.
Proof.
  intros [Hd _ _ _ _ _ | pre t post mc hnd out_loop Hlog Hd Hs He Ha Hp Hq Hloop Hout]
    k rc [Hdec Hrc] Hpromise.
  { rewrite Hdec in Hd. simpl in Hd. rewrite length_app in Hd. simpl in Hd. lia. }
  unfold engine_kept_promise in Hpromise. rewrite Hlog in *.
  destruct (looped_log pre t post Hd Hs He Ha Hp Hq) as (Ed & _ & _ & _ & Ep).
  rewrite Ep in *. rewrite Ed in Hdec. injection Hdec as Hdec.
  destruct (loop_run_decode_failed _ _ _ _ _ _ _ _ Hloop Hdec Hrc)
    as (Hlen & _ & (t0 & tok & ->) & st' & ->).
  pose proof (loop_run_holds _ _ _ _ _ _ _ Hloop holds_gen_init) as Hh.
  repeat split; [by apply Hout | done |].
  exists (pre ++ t0), (ctx mc), tok, post. split; [| done].
  by rewrite <- !app_assoc.
Qed.

Lemma run_stops_at_end_token max_gen_tokens r :
  generate_run max_gen_tokens r -> stops_at_end_token r.
Proof.
  intros [_ Hs _ _ _ _ | pre t post mc hnd out_loop Hlog Hd Hs He Ha Hp Hq Hloop Hout]
    k tok [Hsk Hek].
  { by rewrite Hs in Hsk. }
  unfold engine_kept_promise. rewrite Hlog in *.
  destruct (looped_log pre t post Hd Hs He Ha Hp Hq) as (Ed & Es & Ee & _ & Ep).
  rewrite Ep, Es, Ed in *. rewrite Ee in Hek.
  destruct (loop_run_eos _ _ _ _ _ _ _ _ Hloop Hsk Hek)
    as (t0 & -> & Hs0 & Hp0 & Hd0 & _ & st' & ->).
  pose proof (loop_run_holds _ _ _ _ _ _ _ Hloop holds_gen_init) as Hh.
  repeat split; [| | | intros _; by apply Hout].
  - log_simpl. rewrite length_app. simpl. lia.
  - log_simpl. rewrite app_nil_r. done.
  - log_simpl. rewrite app_nil_r. by f_equal.
Qed.

Lemma stops_at_end_token_first r :
  stops_at_end_token r -> empty_when_first_is_end_token r.
Proof.
  intros Hstop tok Hend.
  destruct (Hstop 0%nat tok Hend) as (_ & Hp & Hd & Hout).
  apply nil_length_inv in Hp.
  split; [| done].
  unfold engine_kept_promise in Hout. rewrite Hp in Hout. by apply Hout.
Qed.


(** The pieces of a log are the answers of its calls of
    [llama_token_to_piece]. *)
Lemma pieces_of_calls (l : list event) : pieces l = snd <$> piece_calls l.
Proof.
  induction l as [|e l IH]; [done|].
  destruct e; simpl; try exact IH.
  unfold pieces, piece_calls in *. simpl. by f_equal.
Qed.

Lemma no_pieces_no_calls (l : list event) : pieces l = [] -> piece_calls l = [].
Proof.
  rewrite pieces_of_calls. by intros ?%fmap_nil_inv.
Qed.

(** A promise kept for the length 256 given in every call is a promise kept
    for [token_str]. *)
Lemma promise_for_token_str (l : list event) :
  Forall (fun c => fst c = 256) (piece_calls l) ->
  Forall (fun c => piece_contract (snd c) (fst c)) (piece_calls l) ->
  Forall (fun p => piece_contract p 256) (pieces l).
Proof.
  rewrite pieces_of_calls. rewrite Forall_fmap.
  induction (piece_calls l) as [|[len p] cs IH]; [constructor|].
  intros [Hlen Hl]%Forall_cons_1 [Hc Hcs]%Forall_cons_1.
  simpl in *. subst len. constructor; auto.
Qed.

(** In every run [llama_token_to_piece] is given 256 bytes. *)
Lemma run_piece_calls max_gen_tokens r :
  generate_run max_gen_tokens r ->
  Forall (fun c => fst c = 256) (piece_calls (log_of r)).
Proof.
  intros [_ _ _ _ Hp _
         | pre t post mc hnd out_loop Hlog _ _ _ _ Hp Hq Hloop _].
  { apply no_pieces_no_calls in Hp. rewrite Hp. constructor. }
  rewrite Hlog. unfold piece_calls. rewrite !omap_app.
  apply no_pieces_no_calls in Hp.
  apply quiet_log in Hq as (_ & _ & _ & _ & Hq%no_pieces_no_calls).
  unfold piece_calls in Hp, Hq. rewrite Hp, Hq, app_nil_r. simpl.
  by eapply loop_run_piece_calls.
Qed.

(** With an engine that keeps its promise on pieces every access of a run is
    defined, and the string returned is the text of the pieces that fit. *)
Lemma run_returns_text max_gen_tokens r :
  generate_run max_gen_tokens r ->
  Forall (fun p => piece_contract p 256) (pieces (log_of r)) ->
  (forall f, outcome_of r = Fault f -> f = InvalidPointer)
  /\ forall text, outcome_of r = Ret text ->
       text = c_prefix (accumulate [] (pieces (log_of r))).
Proof.
  intros [_ _ _ _ Hp Hout
         | pre t post mc hnd out_loop Hlog Hd Hs He Ha Hp Hq Hloop Hout] Hpromise.
  { split.
    - intros f Hf. destruct Hout as [(cls & msg & Hout) | Hout]; congruence.
    - intros text Ht. destruct Hout as [(cls & msg & Hout) | Hout]; congruence. }
  rewrite Hlog in *.
  destruct (looped_log pre t post Hd Hs He Ha Hp Hq) as (_ & _ & _ & _ & Ep).
  rewrite Ep in *.
  destruct (loop_run_defined _ _ _ _ _ _ _ Hloop holds_gen_init Hpromise)
    as [st' ->].
  pose proof (loop_run_holds _ _ _ _ _ _ _ Hloop holds_gen_init) as Hh.
  apply Hout in Hh.
  split.
  - intros f Hf. congruence.
  - intros text Ht. rewrite Hh in Ht. by simplify_eq.
Qed.

Lemma run_write_positions max_gen_tokens r :
  generate_run max_gen_tokens r ->
  Forall (fun pos => 0 <= pos < MAX_RESPONSE_LENGTH - 256)
    (write_positions [] (pieces (log_of r))).
Proof.
  intros [_ _ _ _ Hp _
         | pre t post mc hnd out_loop Hlog Hd Hs He Ha Hp Hq Hloop _].
  { rewrite Hp. constructor. }
  rewrite Hlog.
  destruct (looped_log pre t post Hd Hs He Ha Hp Hq) as (_ & _ & _ & _ & ->).
  apply Forall_and. split; [apply write_positions_nonneg |].
  by eapply loop_run_positions, holds_gen_init.
Qed.

Lemma run_response_in_bounds max_gen_tokens r :
  generate_run max_gen_tokens r -> response_in_bounds r.
Proof.
  intros Hrun.
  assert (Hacc : Z.of_nat (length (accumulate [] (pieces (log_of r))))
                 < MAX_RESPONSE_LENGTH - 1)
    by (apply accumulate_bound; unfold MAX_RESPONSE_LENGTH; simpl; lia).
  pose proof (run_piece_calls _ _ Hrun) as Hlen.
  split; [exact Hlen | split; [by eapply run_write_positions | split; [exact Hacc |]]].
  intros Hpromise.
  pose proof (promise_for_token_str _ Hlen Hpromise) as Hp.
  destruct (run_returns_text _ _ Hrun Hp) as [Hfault Hret].
  split; [exact Hfault | split].
  - eapply Forall_impl; [exact Hp | intros ? [? ?]; lia].
  - intros text Ht. rewrite (Hret text Ht).
    split; [done | by apply c_prefix_bound].
Qed.

Lemma run_loop_bounded_by max_gen_tokens r :
  0 <= max_gen_tokens ->
  generate_run max_gen_tokens r -> loop_bounded_by max_gen_tokens r.
Proof.
  intros Hmax
    [_ Hs _ _ _ Hout | pre t post mc hnd out_loop Hlog Hd Hs He Ha Hp Hq Hloop Hout].
  { split; [rewrite Hs; simpl; lia |].
    intros ((text & Ht) & _). destruct Hout as [(cls & msg & Hout) | Hout]; congruence. }
  unfold loop_bounded_by, only_bound_stops, engine_kept_promise. rewrite Hlog.
  destruct (looped_log pre t post Hd Hs He Ha Hp Hq) as (-> & -> & -> & _ & ->).
  pose proof (loop_run_bound _ _ _ _ _ _ Hloop) as Hb.
  unfold gen_init in Hb; simpl in Hb.
  split; [lia |].
  intros (_ & Hdec & Hne & Hpromise & Hroom).
  destruct (loop_run_defined _ _ _ _ _ _ _ Hloop holds_gen_init Hpromise)
    as [st' ->].
  pose proof (loop_run_holds _ _ _ _ _ _ _ Hloop holds_gen_init) as (_ & Hpos & _).
  apply Forall_cons_1 in Hdec as [_ Hdec].
  rewrite (loop_run_exact _ _ _ _ _ _ Hloop Hdec Hne) by lia.
  unfold gen_init; simpl. lia.
Qed.

End Runs.

(** *** The host state along a run *)

Section HostStateFacts.
Context {W : Type} `{Host W}.















End HostStateFacts.

Section Bindings.
Context {W : Type} `{Host W}.

(** *** Prompt validation *)

(** C6. A prompt whose length is 0 or above [MAX_PROMPT_LENGTH] is refused
    with [IllegalArgumentException] ("Invalid prompt length") by both
    engine-backed bindings, on every session and for every host that hands
    out the characters of the prompt, and the log of the call holds no call
    into the engine: only [GetStringUTFChars], [ReleaseStringUTFChars] and
    [ThrowNew]. *)
Theorem generateText_invalid_prompt_length
    (p : process W) (h : jlong) (mc : llama_model_context)
    (prompt : list byte) (maxTokens : jint) :
  session_at p h mc ->
  fst (h_GetStringUTFChars prompt (p_env p)) = true ->
  strlen prompt = 0 \/ strlen prompt > MAX_PROMPT_LENGTH ->
  let r := LlamaJni.Java_com_livecoding_demo_LlamaJNI_generateText h (Some prompt) p in
  let r' := LlamaJniNew.Java_com_livecoding_demo_LlamaJNI_generateText
              h (Some prompt) maxTokens p in
  (outcome_of r = Throw IllegalArgumentException "Invalid prompt length"
   /\ Forall (fun e => is_engine_call e = false) (log_of r))
  /\ (outcome_of r' = Throw IllegalArgumentException "Invalid prompt length"
      /\ Forall (fun e => is_engine_call e = false) (log_of r')).
Proof.
  intros (Hh & Hlive & Hm & Hc & Hs) Hchars Hlen r r'. subst r r'.
  apply Z.eqb_neq in Hh.
  split.
  - run_generateText.
    all: rewrite ?Hh, ?Hlive in *; simplify_eq.
    all: use_answers; reflect_tests; unfold MAX_PROMPT_LENGTH in *.
    all: try (exfalso; intuition (try lia; try congruence); fail).
    all: split; [reflexivity | repeat constructor].
  - run_generateText_new.
    all: rewrite ?Hh, ?Hlive in *; simplify_eq.
    all: use_answers; reflect_tests; unfold MAX_PROMPT_LENGTH in *.
    all: try (exfalso; intuition (try lia; try congruence); fail).
    all: split; [reflexivity | repeat constructor].
Qed.

(** *** Tokenization *)

(** C7. In both engine-backed bindings, when the tokenizer reports a
    negative count the call fails with [RuntimeException] ("Failed to
    tokenize prompt"), and when it reports a count that is not below the
    context window reported by [llama_n_ctx] (2048 for a context made by
    [loadModel]) the call fails with [IllegalArgumentException] ("Prompt too
    long for context"); in both cases the log holds no [llama_decode]. *)
Theorem generateText_refuses_token_count
    (p : process W) (h : jlong) (prompt : jstring) (maxTokens : jint) :
  refuses_token_count
    (LlamaJni.Java_com_livecoding_demo_LlamaJNI_generateText h prompt p)
  /\ refuses_token_count
       (LlamaJniNew.Java_com_livecoding_demo_LlamaJNI_generateText
          h prompt maxTokens p).
Proof.
  unfold refuses_token_count. split.
  - run_generateText.
    all: simpl; split; [intros n Hn Hneg | intros n c Hn Hc Hpos Hge].
    all: log_simpl; reflect_tests; simplify_eq; try lia.
    all: split; reflexivity.
  - run_generateText_new.
    all: simpl; split; [intros n Hn Hneg | intros n c Hn Hc Hpos Hge].
    all: log_simpl; reflect_tests; simplify_eq; try lia.
    all: split; reflexivity.
Qed.

(** *** The generation loop *)

(** C1, as the bindings have it.  When the decode of pass [k] fails (the
    priming decode and the decodes of the passes before it having succeeded),
    both bindings return normally, and the text returned is made of the
    pieces of the passes [0..k]: pass [k] has offered its piece to the
    response before its decode is attempted.  The failed decode is the last
    call into the engine. *)
Theorem generateText_returns_text_through_failed_decode
    (p : process W) (h : jlong) (prompt : jstring) (maxTokens : jint) :
  returns_text_through_failed_pass
    (LlamaJni.Java_com_livecoding_demo_LlamaJNI_generateText h prompt p)
  /\ returns_text_through_failed_pass
       (LlamaJniNew.Java_com_livecoding_demo_LlamaJNI_generateText
          h prompt maxTokens p).
Proof.
  split; eapply run_through_failed_pass;
    [apply generateText_run | apply generateText_new_run].
Qed.

(** C2. In both bindings the response array is never overrun.  Every call
    of [llama_token_to_piece] is given 256, the size of [token_str], every
    pass of the loop starts with the write position below
    [MAX_RESPONSE_LENGTH - 256], and the text of the pieces that fit leaves
    room for the terminator.  With an engine that writes no more than the
    length it is given and reports no more than it wrote, every access is
    defined, no piece is longer than 256, a piece is copied only when it
    ends before the last two cells, and the terminator is written inside the
    array. *)
Theorem generateText_response_in_bounds
    (p : process W) (h : jlong) (prompt : jstring) (maxTokens : jint) :
  response_in_bounds
    (LlamaJni.Java_com_livecoding_demo_LlamaJNI_generateText h prompt p)
  /\ response_in_bounds
       (LlamaJniNew.Java_com_livecoding_demo_LlamaJNI_generateText
          h prompt maxTokens p).
Proof.
  split; eapply run_response_in_bounds;
    [apply generateText_run | apply generateText_new_run].
Qed.

Lemma sanitize_max_tokens_range maxTokens :
  1 <= LlamaJniNew.sanitize_max_tokens maxTokens <= DEFAULT_MAX_TOKENS.
Proof.
  unfold LlamaJniNew.sanitize_max_tokens, DEFAULT_MAX_TOKENS.
  destruct (_ && _) eqn:E; reflect_tests; lia.
Qed.

(** C3. [generateText] of [llama_jni_new.c] replaces a [maxTokens] that is
    zero, negative or above [DEFAULT_MAX_TOKENS] by [DEFAULT_MAX_TOKENS]
    without raising anything: the call is the call with 512.  A [maxTokens]
    in [1..512] is kept, and the value kept is the bound on the passes of the
    loop: never more samples, and exactly as many when nothing else ends the
    loop.  [generateText] of [llama_jni.c] takes no [maxTokens] and its bound
    is [DEFAULT_MAX_TOKENS]. *)
Theorem generateText_max_tokens
    (p : process W) (h : jlong) (prompt : jstring) (maxTokens : jint) :
  (maxTokens <= 0 \/ maxTokens > 512 ->
     LlamaJniNew.sanitize_max_tokens maxTokens = 512
     /\ LlamaJniNew.Java_com_livecoding_demo_LlamaJNI_generateText
          h prompt maxTokens p
        = LlamaJniNew.Java_com_livecoding_demo_LlamaJNI_generateText
            h prompt 512 p)
  /\ (1 <= maxTokens <= 512 ->
        LlamaJniNew.sanitize_max_tokens maxTokens = maxTokens
        /\ loop_bounded_by maxTokens
             (LlamaJniNew.Java_com_livecoding_demo_LlamaJNI_generateText
                h prompt maxTokens p))
  /\ loop_bounded_by (LlamaJniNew.sanitize_max_tokens maxTokens)
       (LlamaJniNew.Java_com_livecoding_demo_LlamaJNI_generateText
          h prompt maxTokens p)
  /\ loop_bounded_by DEFAULT_MAX_TOKENS
       (LlamaJni.Java_com_livecoding_demo_LlamaJNI_generateText h prompt p).
Proof.
  assert (Hb : loop_bounded_by (LlamaJniNew.sanitize_max_tokens maxTokens)
                 (LlamaJniNew.Java_com_livecoding_demo_LlamaJNI_generateText
                    h prompt maxTokens p)).
  { apply run_loop_bounded_by; [| apply generateText_new_run].
    pose proof (sanitize_max_tokens_range maxTokens). lia. }
  assert (Hout : maxTokens <= 0 \/ maxTokens > 512 ->
                 LlamaJniNew.sanitize_max_tokens maxTokens = 512).
  { unfold LlamaJniNew.sanitize_max_tokens, DEFAULT_MAX_TOKENS.
    destruct (_ && _) eqn:E; reflect_tests; lia. }
  assert (Hin : 1 <= maxTokens <= 512 ->
                LlamaJniNew.sanitize_max_tokens maxTokens = maxTokens).
  { unfold LlamaJniNew.sanitize_max_tokens, DEFAULT_MAX_TOKENS.
    destruct (_ && _) eqn:E; reflect_tests; lia. }
  split; [| split; [| split]].
  - intros Hm. split; [auto |].
    unfold LlamaJniNew.Java_com_livecoding_demo_LlamaJNI_generateText.
    rewrite (Hout Hm). reflexivity.
  - intros Hm. split; [auto |]. rewrite <- (Hin Hm) at 1. exact Hb.
  - exact Hb.
  - apply run_loop_bounded_by; [done | apply generateText_run].
Qed.

(** C5. When the token sampled in pass [k] is the end token, both bindings
    leave the loop at once: it is the last sample, the log has a piece for
    each of the [k] passes before and none for the end token, the decodes
    are the priming one and those of the [k] passes before, and the text of
    those passes is returned.  When it is the first sample the empty string
    is returned and the priming decode is the only decode. *)
Theorem generateText_stops_at_end_token
    (p : process W) (h : jlong) (prompt : jstring) (maxTokens : jint) :
  let r := LlamaJni.Java_com_livecoding_demo_LlamaJNI_generateText h prompt p in
  let r' := LlamaJniNew.Java_com_livecoding_demo_LlamaJNI_generateText
              h prompt maxTokens p in
  (stops_at_end_token r /\ empty_when_first_is_end_token r)
  /\ (stops_at_end_token r' /\ empty_when_first_is_end_token r').
Proof.
  intros r r'.
  assert (Hr : stops_at_end_token r)
    by (eapply run_stops_at_end_token, generateText_run).
  assert (Hr' : stops_at_end_token r')
    by (eapply run_stops_at_end_token, generateText_new_run).
  auto using stops_at_end_token_first.
Qed.


(** *** Sessions: [loadModel] and [unloadModel] *)

Lemma release_head r held : release r (r :: held) = held.
Proof. simpl. by rewrite decide_True. Qed.

Lemma loadModel_unwinds (p : process W) (path : jstring) :
  let r := LlamaJni.Java_com_livecoding_demo_LlamaJNI_loadModel path p in
  unwinds_on_failure p r /\ reports_failed_step r
  /\ (forall f, outcome_of r <> Fault f)
  /\ forall file ok, ~ In (call_fopen file ok) (log_of r).
Proof.
  intros r. subst r. unfold unwinds_on_failure, reports_failed_step.
  run_call (LlamaJni.Java_com_livecoding_demo_LlamaJNI_loadModel path p).
  all: unfold outcome_of, log_of, state_of; cbn [fst snd].
  all: split; [| split; [| split; [done |]]].
  all: first
    [ solve [intros file ok; cbn [In]; intuition discriminate]
    | solve [intros cls msg Hout; discriminate]
    | solve [intros cls msg Hout; simplify_eq;
             split; [intros held; unfold ledger;
                     cbn [fold_left ledger_step]; unfold acquire;
                     repeat match goal with
                       | E : (?x =? NULL) = _ |- context [?x =? NULL] => rewrite E
                       end;
                     cbv iota; rewrite ?release_head; reflexivity |];
             split; [reflexivity |];
             match goal with
             | |- exists t0, ?log = t0 ++ _ => exists (removelast log); reflexivity
             end]
    | solve [cbn [In]; reflect_tests; unfold NULL in *;
             repeat split; intros; intuition (simplify_eq; try done)] ].
Qed.

Lemma loadModel_new_unwinds (p : process W) (path : jstring) :
  let r := LlamaJniNew.Java_com_livecoding_demo_LlamaJNI_loadModel path p in
  unwinds_on_failure p r /\ reports_failed_step r
  /\ (forall f, outcome_of r <> Fault f)
  /\ forall file ok, ~ In (call_fopen file ok) (log_of r).
Proof.
  intros r. subst r. unfold unwinds_on_failure, reports_failed_step.
  run_call (LlamaJniNew.Java_com_livecoding_demo_LlamaJNI_loadModel path p).
  all: unfold outcome_of, log_of, state_of; cbn [fst snd].
  all: split; [| split; [| split; [done |]]].
  all: first
    [ solve [intros file ok; cbn [In]; intuition discriminate]
    | solve [intros cls msg Hout; discriminate]
    | solve [intros cls msg Hout; simplify_eq;
             split; [intros held; unfold ledger;
                     cbn [fold_left ledger_step]; unfold acquire;
                     repeat match goal with
                       | E : (?x =? NULL) = _ |- context [?x =? NULL] => rewrite E
                       end;
                     cbv iota; rewrite ?release_head; reflexivity |];
             split; [reflexivity |];
             match goal with
             | |- exists t0, ?log = t0 ++ _ => exists (removelast log); reflexivity
             end]
    | solve [cbn [In]; reflect_tests; unfold NULL in *;
             repeat split; intros; intuition (simplify_eq; try done)] ].
Qed.

Lemma reports_refuses_unreadable (r : outcome jlong * list event * process W) :
  reports_failed_step r ->
  (forall file ok, ~ In (call_fopen file ok) (log_of r)) ->
  refuses_unreadable_model r.
Proof.
  intros (Hload & _) Hfopen [(path & params & Hin) | (path & Hin)].
  - eexists. by eapply Hload.
  - by apply Hfopen in Hin.
Qed.

(** The mock [loadModel]: a file that cannot be opened is reported on the
    standard output and the load goes on. *)
Lemma loadModel_simple_fails_only_for_memory
    (ps : LlamaJniSimple.process W) (path : list byte) :
  let r := LlamaJniSimple.Java_com_livecoding_demo_LlamaJNI_loadModel (Some path) ps in
  fails_only_for_memory ps r /\ (forall f, outcome_of r <> Fault f).
Proof.
  intros r. subst r. unfold fails_only_for_memory.
  destruct (LlamaJniSimple.Java_com_livecoding_demo_LlamaJNI_loadModel _ _)
    as [[out t] p'] eqn:Hrun.
  unfold LlamaJniSimple.Java_com_livecoding_demo_LlamaJNI_loadModel,
    LlamaJniSimple.file_exists, LlamaJniSimple.printf, LlamaJniSimple.store_struct,
    LlamaJniSimple.set_global_model in Hrun.
  run_in Hrun.
  all: unfold outcome_of, state_of; simpl; split; [| done].
  all: intros cls msg Hout; simplify_eq; auto.
Qed.

(** C4, as the bindings have it.  In the two engine-backed bindings a
    failed [loadModel] has released everything it had acquired (model,
    context, sampler chain, backend) before it raises its exception, leaves
    no session structure behind and returns no handle; each refused step has
    its own exception, and a model file that the engine cannot load gives
    [RuntimeException] ("Failed to load model") with the backend
    initialisation undone.  The mock binding does not fail on a model file
    that cannot be opened: its only failure is the lack of memory. *)
Theorem loadModel_failure_unwinds
    (p : process W) (ps : LlamaJniSimple.process W)
    (path : jstring) (file : list byte) :
  let r := LlamaJni.Java_com_livecoding_demo_LlamaJNI_loadModel path p in
  let r' := LlamaJniNew.Java_com_livecoding_demo_LlamaJNI_loadModel path p in
  let rs := LlamaJniSimple.Java_com_livecoding_demo_LlamaJNI_loadModel
              (Some file) ps in
  (unwinds_on_failure p r /\ reports_failed_step r
   /\ refuses_unreadable_model r /\ forall f, outcome_of r <> Fault f)
  /\ (unwinds_on_failure p r' /\ reports_failed_step r'
      /\ refuses_unreadable_model r' /\ forall f, outcome_of r' <> Fault f)
  /\ (fails_only_for_memory ps rs /\ forall f, outcome_of rs <> Fault f).
Proof.
  intros r r' rs.
  destruct (loadModel_unwinds p path) as (Hu & Hr & Hf & Ho).
  destruct (loadModel_new_unwinds p path) as (Hu' & Hr' & Hf' & Ho').
  split; [| split].
  - split; [done | split; [done | split; [| done]]].
    by apply reports_refuses_unreadable.
  - split; [done | split; [done | split; [| done]]].
    by apply reports_refuses_unreadable.
  - apply loadModel_simple_fails_only_for_memory.
Qed.

Lemma unloadModel_null (p : process W) (ps : LlamaJniSimple.process W) :
  LlamaJni.Java_com_livecoding_demo_LlamaJNI_unloadModel 0 p = (Ret tt, [], p)
  /\ LlamaJniNew.Java_com_livecoding_demo_LlamaJNI_unloadModel 0 p = (Ret tt, [], p)
  /\ LlamaJniSimple.Java_com_livecoding_demo_LlamaJNI_unloadModel 0 ps
     = (Ret tt, [], ps).
Proof. done. Qed.

Lemma unloadModel_live (p : process W) (h : jlong) mc :
  h <> 0 -> heap p !! h = Some mc ->
  let r := LlamaJni.Java_com_livecoding_demo_LlamaJNI_unloadModel h p in
  outcome_of r = Ret tt /\ log_of r = release_calls h mc
  /\ heap (state_of r) = delete h (heap p).
Proof.
  intros Hh%Z.eqb_neq Hlive r. subst r.
  unfold LlamaJni.Java_com_livecoding_demo_LlamaJNI_unloadModel, release_calls.
  rewrite Hh. autounfold with native. simpl. rewrite Hlive.
  destruct (sampler mc =? NULL), (ctx mc =? NULL), (model mc =? NULL); done.
Qed.

Lemma unloadModel_dangling (p : process W) (h : jlong) :
  h <> 0 -> heap p !! h = None ->
  LlamaJni.Java_com_livecoding_demo_LlamaJNI_unloadModel h p
  = (Fault InvalidPointer, [], p).
Proof.
  intros Hh%Z.eqb_neq Hdead.
  unfold LlamaJni.Java_com_livecoding_demo_LlamaJNI_unloadModel.
  rewrite Hh. autounfold with native. simpl. by rewrite Hdead.
Qed.

Lemma unloadModel_simple_live (ps : LlamaJniSimple.process W) (h : jlong) smc :
  h <> 0 -> LlamaJniSimple.heap ps !! h = Some smc ->
  let r := LlamaJniSimple.Java_com_livecoding_demo_LlamaJNI_unloadModel h ps in
  outcome_of r = Ret tt /\ log_of r = [call_free h]
  /\ LlamaJniSimple.heap (state_of r) = delete h (LlamaJniSimple.heap ps).
Proof.
  intros Hh%Z.eqb_neq Hlive r. subst r.
  unfold LlamaJniSimple.Java_com_livecoding_demo_LlamaJNI_unloadModel,
    LlamaJniSimple.get_global_model, LlamaJniSimple.set_global_model,
    LlamaJniSimple.free_struct, NULL.
  rewrite Hh. autounfold with native. simpl.
  destruct (_ =? h); simpl; rewrite Hlive; done.
Qed.

Lemma unloadModel_simple_dangling (ps : LlamaJniSimple.process W) (h : jlong) :
  h <> 0 -> LlamaJniSimple.heap ps !! h = None ->
  outcome_of (LlamaJniSimple.Java_com_livecoding_demo_LlamaJNI_unloadModel h ps)
  = Fault InvalidPointer.
Proof.
  intros Hh%Z.eqb_neq Hdead.
  unfold LlamaJniSimple.Java_com_livecoding_demo_LlamaJNI_unloadModel,
    LlamaJniSimple.get_global_model, LlamaJniSimple.set_global_model,
    LlamaJniSimple.free_struct, NULL.
  rewrite Hh. autounfold with native. simpl.
  destruct (_ =? h); simpl; rewrite Hdead; done.
Qed.

(** C8, as the bindings have it.  [unloadModel] with a zero handle does
    nothing (all three bindings).  On a live session the engine-backed
    bindings free the sampler, the context and the model, in that order and
    each only if it is present, then the session structure, and then shut
    the backend down; the mock binding frees its structure.  After that the
    handle is not live any more: only the zero handle makes a repeated
    [unloadModel] a no-op, and a second call with the same handle reads the
    freed structure, which has no defined behaviour. *)
Theorem unloadModel_releases_session
    (p : process W) (ps : LlamaJniSimple.process W) (h : jlong)
    (mc : llama_model_context) (smc : LlamaJniSimple.llama_model_context) :
  h <> 0 ->
  (LlamaJni.Java_com_livecoding_demo_LlamaJNI_unloadModel 0 p = (Ret tt, [], p)
   /\ LlamaJniNew.Java_com_livecoding_demo_LlamaJNI_unloadModel 0 p = (Ret tt, [], p)
   /\ LlamaJniSimple.Java_com_livecoding_demo_LlamaJNI_unloadModel 0 ps
      = (Ret tt, [], ps))
  /\ (heap p !! h = Some mc ->
      let r := LlamaJni.Java_com_livecoding_demo_LlamaJNI_unloadModel h p in
      let r' := LlamaJniNew.Java_com_livecoding_demo_LlamaJNI_unloadModel h p in
      (outcome_of r = Ret tt /\ log_of r = release_calls h mc
       /\ heap (state_of r) = delete h (heap p)
       /\ outcome_of (LlamaJni.Java_com_livecoding_demo_LlamaJNI_unloadModel
                        h (state_of r)) = Fault InvalidPointer)
      /\ (outcome_of r' = Ret tt /\ log_of r' = release_calls h mc
          /\ heap (state_of r') = delete h (heap p)
          /\ outcome_of (LlamaJniNew.Java_com_livecoding_demo_LlamaJNI_unloadModel
                           h (state_of r')) = Fault InvalidPointer))
  /\ (LlamaJniSimple.heap ps !! h = Some smc ->
      let rs := LlamaJniSimple.Java_com_livecoding_demo_LlamaJNI_unloadModel h ps in
      outcome_of rs = Ret tt /\ log_of rs = [call_free h]
      /\ LlamaJniSimple.heap (state_of rs) = delete h (LlamaJniSimple.heap ps)
      /\ outcome_of (LlamaJniSimple.Java_com_livecoding_demo_LlamaJNI_unloadModel
                       h (state_of rs)) = Fault InvalidPointer).
Proof.
  intros Hh. split; [apply unloadModel_null | split].
  - intros Hlive r r'.
    destruct (unloadModel_live p h mc Hh Hlive) as (Ho & Hl & Hp). fold r in Ho, Hl, Hp.
    assert (Hagain : outcome_of
                       (LlamaJni.Java_com_livecoding_demo_LlamaJNI_unloadModel
                          h (state_of r)) = Fault InvalidPointer).
    { rewrite unloadModel_dangling; [done.. |]. rewrite Hp. apply lookup_delete_eq. }
    split; [done |]. exact (conj Ho (conj Hl (conj Hp Hagain))).
  - intros Hlive rs.
    destruct (unloadModel_simple_live ps h smc Hh Hlive) as (Ho & Hl & Hp).
    fold rs in Ho, Hl, Hp. repeat split; try done.
    apply unloadModel_simple_dangling; [done |]. rewrite Hp. apply lookup_delete_eq.
Qed.

(** A handle returned by [loadModel] is a session of the process. *)
Lemma loadModel_session (p : process W) (path : jstring) (h : jlong) :
  let r := LlamaJni.Java_com_livecoding_demo_LlamaJNI_loadModel path p in
  outcome_of r = Ret h -> exists mc, session_at (state_of r) h mc.
Proof.
  intros r. subst r. unfold session_at, outcome_of, state_of.
  run_call (LlamaJni.Java_com_livecoding_demo_LlamaJNI_loadModel path p).
  all: simpl; intros Hr; simplify_eq.
  reflect_tests. eexists. rewrite lookup_insert_eq. simpl. done.
Qed.

Lemma loadModel_new_session (p : process W) (path : jstring) (h : jlong) :
  let r := LlamaJniNew.Java_com_livecoding_demo_LlamaJNI_loadModel path p in
  outcome_of r = Ret h -> exists mc, session_at (state_of r) h mc.
Proof.
  intros r. subst r. unfold session_at, outcome_of, state_of.
  run_call (LlamaJniNew.Java_com_livecoding_demo_LlamaJNI_loadModel path p).
  all: simpl; intros Hr; simplify_eq.
  reflect_tests. eexists. rewrite lookup_insert_eq. simpl. done.
Qed.

Ltac exclude_loop_throw :=
  repeat match goal with
    | Hf : finish_response _ _ _ = _ |- _ =>
        apply finish_response_cases in Hf as (_ & _ & Hf);
        first [by apply Hf | exfalso; by eapply Hf]
    | Hl : generation_loop _ _ _ _ gen_init _ = _ |- _ =>
        apply generation_loop_from_init, loop_run_outcome in Hl;
        destruct Hl as [[? ?] | ?]; discriminate
    end.

(** On a session, [generateText] does not take its
    [IllegalStateException] branch. *)
Lemma generateText_session (p : process W) (h : jlong) mc (prompt : jstring) msg :
  session_at p h mc ->
  outcome_of (LlamaJni.Java_com_livecoding_demo_LlamaJNI_generateText h prompt p)
    <> Throw IllegalStateException msg.
Proof.
  intros (Hh & Hlive & Hm & Hc & Hs). unfold outcome_of.
  run_generateText; simpl; try discriminate.
  - rewrite Hlive in *. simplify_eq. reflect_tests; done.
  - exclude_loop_throw.
  - exclude_loop_throw.
Qed.

Lemma generateText_new_session (p : process W) (h : jlong) mc (prompt : jstring)
    (maxTokens : jint) msg :
  session_at p h mc ->
  outcome_of (LlamaJniNew.Java_com_livecoding_demo_LlamaJNI_generateText
                h prompt maxTokens p)
    <> Throw IllegalStateException msg.
Proof.
  intros (Hh & Hlive & Hm & Hc & Hs). unfold outcome_of.
  run_generateText_new; simpl; try discriminate.
  - rewrite Hlive in *. simplify_eq. reflect_tests; done.
  - exclude_loop_throw.
  - exclude_loop_throw.
Qed.

(** C9. A handle returned by [loadModel] (either binding) is not zero and
    is the address of a live structure whose model, context and sampler are
    all present; [generateText] on that handle, in the state [loadModel]
    left, never ends with [IllegalStateException]. *)
Theorem loadModel_returns_usable_session
    (p : process W) (path : jstring) (h : jlong) :
  let r := LlamaJni.Java_com_livecoding_demo_LlamaJNI_loadModel path p in
  let r' := LlamaJniNew.Java_com_livecoding_demo_LlamaJNI_loadModel path p in
  (outcome_of r = Ret h ->
     (exists mc, session_at (state_of r) h mc)
     /\ forall prompt msg,
          outcome_of (LlamaJni.Java_com_livecoding_demo_LlamaJNI_generateText
                        h prompt (state_of r))
          <> Throw IllegalStateException msg)
  /\ (outcome_of r' = Ret h ->
        (exists mc, session_at (state_of r') h mc)
        /\ forall prompt maxTokens msg,
             outcome_of (LlamaJniNew.Java_com_livecoding_demo_LlamaJNI_generateText
                           h prompt maxTokens (state_of r'))
             <> Throw IllegalStateException msg).
Proof.
  intros r r'. split; intros Hr.
  - destruct (loadModel_session p path h Hr) as [mc Hmc].
    split; [by exists mc |]. intros prompt msg. by eapply generateText_session.
  - destruct (loadModel_new_session p path h Hr) as [mc Hmc].
    split; [by exists mc |]. intros prompt maxTokens msg.
    by eapply generateText_new_session.
Qed.

End Bindings.

(** ** The bindings on the scripted host *)

Section Examples.
Import Scripted.

Ltac evaluate := vm_compute; reflexivity.

Ltac promise_kept :=
  match goal with
  | |- Forall _ ?l =>
      let l' := eval vm_compute in l in
      replace l with l' by (vm_compute; reflexivity)
  end;
  repeat constructor; simpl; lia.

Lemma loaded_session s : session_at (loaded s) 1000 session.
Proof. repeat split; try discriminate. Defined.

(** C1 on a run: the decode of pass 1 fails; the text returned is "AC", the
    pieces of passes 0 and 1. *)
Lemma generateText_returns_text_through_failed_decode_witness :
  let r := LlamaJni.Java_com_livecoding_demo_LlamaJNI_generateText
             1000 (Some hello) decode_fails_in_pass_1 in
  decode_failed_in_pass r 1 7 /\ engine_kept_promise r
  /\ outcome_of r = Ret (list_byte_of_string "AC")
  /\ length (pieces (log_of r)) = 2%nat.
Proof.
  intros r.
  assert (Hd : decode_failed_in_pass r 1 7) by (split; [evaluate | discriminate]).
  assert (Hp : engine_kept_promise r) by (unfold engine_kept_promise; promise_kept).
  destruct (proj1 (generateText_returns_text_through_failed_decode
                     decode_fails_in_pass_1 1000 (Some hello) 5) 1%nat 7 Hd Hp)
    as (Ho & Hl & _).
  split; [exact Hd | split; [exact Hp | split; [| exact Hl]]].
  subst r. rewrite Ho. evaluate.
Defined.

(** C1 as the specification states it fails on the same run: the text of
    the passes before pass 1 is "A", the text returned is "AC". *)
Lemma generateText_text_before_failed_decode_refuted :
  ~ returns_text_before_failed_pass
      (LlamaJni.Java_com_livecoding_demo_LlamaJNI_generateText
         1000 (Some hello) decode_fails_in_pass_1).
Proof.
  intros Hclaim.
  assert (Hd : decode_failed_in_pass
                 (LlamaJni.Java_com_livecoding_demo_LlamaJNI_generateText
                    1000 (Some hello) decode_fails_in_pass_1) 1 7)
    by (split; [evaluate | discriminate]).
  specialize (Hclaim 1%nat 7 Hd ltac:(unfold engine_kept_promise; promise_kept)).
  vm_compute in Hclaim. discriminate.
Qed.

(** C2 on a run that appends two pieces and stops at the end token. *)
Lemma generateText_response_in_bounds_witness :
  let r := LlamaJni.Java_com_livecoding_demo_LlamaJNI_generateText
             1000 (Some hello) two_tokens_then_end in
  engine_kept_piece_promise r
  /\ piece_calls (log_of r) = [(256, (1, [x41])); (256, (1, [x43]))]
  /\ outcome_of r = Ret (list_byte_of_string "AC")
  /\ write_positions [] (pieces (log_of r)) = [0; 1]
  /\ Forall (fun c => fst c = 256) (piece_calls (log_of r))
  /\ Forall (fun pos => 0 <= pos < MAX_RESPONSE_LENGTH - 256)
       (write_positions [] (pieces (log_of r)))
  /\ Forall (fun p => fst p <= 256) (pieces (log_of r))
  /\ forall text, outcome_of r = Ret text ->
       text = c_prefix (accumulate [] (pieces (log_of r)))
       /\ Z.of_nat (length text) < MAX_RESPONSE_LENGTH - 1.
Proof.
  intros r.
  assert (Hp : engine_kept_piece_promise r)
    by (unfold engine_kept_piece_promise; promise_kept).
  destruct (proj1 (generateText_response_in_bounds
                     two_tokens_then_end 1000 (Some hello) 5))
    as (Hlen & Hpos & _ & Hkept).
  destruct (Hkept Hp) as (_ & Hsmall & Hret).
  split; [exact Hp |]. split; [evaluate |]. split; [evaluate |].
  split; [evaluate |].
  split; [exact Hlen | split; [exact Hpos | split; [exact Hsmall | exact Hret]]].
Defined.

(** C3 on two runs: [maxTokens = 2] with an engine that would go on for
    four tokens gives exactly two passes; [maxTokens = 0] is the call with
    512. *)
Lemma generateText_max_tokens_witness :
  let r := LlamaJniNew.Java_com_livecoding_demo_LlamaJNI_generateText
             1000 (Some hello) 2 four_tokens_then_end in
  only_bound_stops r
  /\ Z.of_nat (length (samples (log_of r))) = 2
  /\ outcome_of r = Ret (list_byte_of_string "AC")
  /\ LlamaJniNew.Java_com_livecoding_demo_LlamaJNI_generateText
       1000 (Some hello) 0 four_tokens_then_end
     = LlamaJniNew.Java_com_livecoding_demo_LlamaJNI_generateText
         1000 (Some hello) 512 four_tokens_then_end.
Proof.
  intros r.
  assert (Hstop : only_bound_stops r).
  { split; [eexists; evaluate |].
    split; [replace (decodes (log_of r)) with [0; 0; 0] by evaluate;
            repeat constructor |].
    split; [replace (samples (log_of r)) with [1; 3] by evaluate;
            replace (eos_checks (log_of r)) with [2; 2] by evaluate;
            repeat constructor; discriminate |].
    split; [unfold engine_kept_promise; promise_kept |].
    replace (pieces (log_of r)) with [(1, [x41]); (1, [x43])] by evaluate.
    vm_compute. reflexivity. }
  pose proof (generateText_max_tokens four_tokens_then_end 1000 (Some hello) 2)
    as (_ & Hin & _).
  destruct (Hin ltac:(lia)) as (_ & _ & Hexact).
  pose proof (generateText_max_tokens four_tokens_then_end 1000 (Some hello) 0)
    as (Hout & _).
  destruct (Hout ltac:(lia)) as (_ & Hsame).
  split; [exact Hstop | split; [exact (Hexact Hstop) | split; [evaluate | exact Hsame]]].
Defined.

(** C4 on a run of [llama_jni.c]: the engine cannot load the model file;
    [loadModel] throws after [llama_backend_free] and holds nothing. *)
Lemma loadModel_failure_unwinds_witness :
  let r := LlamaJni.Java_com_livecoding_demo_LlamaJNI_loadModel
             (Some model_file) model_not_loadable in
  model_file_unreadable (log_of r)
  /\ outcome_of r = Throw RuntimeException "Failed to load model"
  /\ ledger [] (log_of r) = []
  /\ heap (state_of r) = heap model_not_loadable.
Proof.
  intros r.
  destruct (loadModel_failure_unwinds model_not_loadable model_file_missing
              (Some model_file) model_file)
    as ((Hunwind & (Hload & _) & _) & _).
  assert (Hin : In (call_llama_model_load_from_file model_file
                      (set_n_gpu_layers 0 default_model_params) NULL) (log_of r))
    by (vm_compute; auto 10).
  pose proof (Hload _ _ Hin) as Hout.
  destruct (Hunwind _ _ Hout) as (Hledger & Hheap & _).
  split; [left; eauto | split; [exact Hout | split; [apply Hledger | exact Hheap]]].
Defined.

(** C4 as the specification states it fails on the mock binding: the model
    file cannot be opened and [loadModel] returns a session. *)
Lemma loadModel_simple_accepts_unreadable_model :
  outcome_of (LlamaJniSimple.Java_com_livecoding_demo_LlamaJNI_loadModel
                (Some model_file) model_file_missing) = Ret 1000
  /\ ~ refuses_unreadable_model
        (LlamaJniSimple.Java_com_livecoding_demo_LlamaJNI_loadModel
           (Some model_file) model_file_missing).
Proof.
  split; [evaluate |].
  intros Hclaim. destruct Hclaim as [msg Hmsg].
  - right. exists model_file. vm_compute. auto.
  - vm_compute in Hmsg. discriminate.
Qed.

(** C5 on two runs: the end token at once, and after two tokens. *)
Lemma generateText_stops_at_end_token_witness :
  let r0 := LlamaJni.Java_com_livecoding_demo_LlamaJNI_generateText
              1000 (Some hello) end_at_once in
  let r2 := LlamaJniNew.Java_com_livecoding_demo_LlamaJNI_generateText
              1000 (Some hello) 5 two_tokens_then_end in
  (end_token_in_pass r0 0 2 /\ outcome_of r0 = Ret [] /\ decodes (log_of r0) = [0])
  /\ (end_token_in_pass r2 2 2
      /\ length (samples (log_of r2)) = 3%nat
      /\ length (pieces (log_of r2)) = 2%nat
      /\ decodes (log_of r2) = [0; 0; 0]).
Proof.
  intros r0 r2.
  assert (H0 : end_token_in_pass r0 0 2) by (split; evaluate).
  assert (H2 : end_token_in_pass r2 2 2) by (split; evaluate).
  destruct (generateText_stops_at_end_token end_at_once 1000 (Some hello) 5)
    as ((_ & Hfirst) & _).
  destruct (generateText_stops_at_end_token two_tokens_then_end 1000 (Some hello) 5)
    as (_ & (Hstop & _)).
  destruct (Hfirst 2 H0) as (Hout & Hdec).
  destruct (Hstop 2%nat 2 H2) as (Hs & Hp & Hd & _).
  split; [split; [exact H0 | split; [exact Hout | exact Hdec]] |].
  split; [exact H2 | split; [exact Hs | split; [exact Hp | exact Hd]]].
Defined.

(** C6 on an empty prompt. *)
Lemma generateText_invalid_prompt_length_witness :
  let r := LlamaJni.Java_com_livecoding_demo_LlamaJNI_generateText
             1000 (Some []) end_at_once in
  let r' := LlamaJniNew.Java_com_livecoding_demo_LlamaJNI_generateText
              1000 (Some []) 5 end_at_once in
  session_at end_at_once 1000 session
  /\ fst (h_GetStringUTFChars [] (p_env end_at_once)) = true
  /\ strlen [] = 0
  /\ (outcome_of r = Throw IllegalArgumentException "Invalid prompt length"
      /\ Forall (fun e => is_engine_call e = false) (log_of r))
  /\ (outcome_of r' = Throw IllegalArgumentException "Invalid prompt length"
      /\ Forall (fun e => is_engine_call e = false) (log_of r')).
Proof.
  intros r r'.
  assert (Hs : session_at end_at_once 1000 session) by apply loaded_session.
  assert (Hc : fst (h_GetStringUTFChars [] (p_env end_at_once)) = true)
    by reflexivity.
  assert (Hl : strlen [] = 0) by reflexivity.
  split; [exact Hs | split; [exact Hc | split; [exact Hl |]]].
  exact (generateText_invalid_prompt_length end_at_once 1000 session [] 5
           Hs Hc (or_introl Hl)).
Defined.

(** C7 on two runs: the tokenizer fails; the prompt fills the window. *)
Lemma generateText_refuses_token_count_witness :
  let r := LlamaJni.Java_com_livecoding_demo_LlamaJNI_generateText
             1000 (Some hello) tokenizer_fails in
  let r' := LlamaJniNew.Java_com_livecoding_demo_LlamaJNI_generateText
              1000 (Some hello) 5 prompt_fills_window in
  (tokenizes (log_of r) = [-1]
   /\ outcome_of r = Throw RuntimeException "Failed to tokenize prompt"
   /\ decodes (log_of r) = [])
  /\ (tokenizes (log_of r') = [2048] /\ n_ctxs (log_of r') = [2048]
      /\ outcome_of r' = Throw IllegalArgumentException "Prompt too long for context"
      /\ decodes (log_of r') = []).
Proof.
  intros r r'.
  assert (Ht : tokenizes (log_of r) = [-1]) by evaluate.
  assert (Ht' : tokenizes (log_of r') = [2048]) by evaluate.
  assert (Hc' : n_ctxs (log_of r') = [2048]) by evaluate.
  destruct (generateText_refuses_token_count tokenizer_fails 1000 (Some hello) 5)
    as ((Hneg & _) & _).
  destruct (generateText_refuses_token_count prompt_fills_window 1000 (Some hello) 5)
    as (_ & (_ & Hlong)).
  destruct (Hneg (-1) Ht ltac:(lia)) as (Ho & Hd).
  destruct (Hlong 2048 2048 Ht' Hc' ltac:(lia) ltac:(lia)) as (Ho' & Hd').
  split; [split; [exact Ht | split; [exact Ho | exact Hd]] |].
  split; [exact Ht' | split; [exact Hc' | split; [exact Ho' | exact Hd']]].
Defined.

(** C8 on the session at [1000]. *)
Lemma unloadModel_releases_session_witness :
  let r := LlamaJni.Java_com_livecoding_demo_LlamaJNI_unloadModel
             1000 (loaded healthy) in
  1000 <> 0 /\ heap (loaded healthy) !! 1000 = Some session
  /\ outcome_of r = Ret tt
  /\ log_of r = [call_llama_sampler_free 300; call_llama_free 200;
                 call_llama_model_free 100; call_free 1000;
                 call_llama_backend_free]
  /\ heap (state_of r) !! 1000 = None
  /\ LlamaJni.Java_com_livecoding_demo_LlamaJNI_unloadModel 0 (state_of r)
     = (Ret tt, [], state_of r).
Proof.
  intros r.
  assert (Hh : 1000 <> 0) by discriminate.
  assert (Hlive : heap (loaded healthy) !! 1000 = Some session) by reflexivity.
  destruct (unloadModel_releases_session (loaded healthy) (loaded_simple healthy)
              1000 session simple_session Hh) as (_ & Hreal & _).
  destruct (Hreal Hlive) as ((Ho & Hl & Hp & _) & _).
  destruct (unloadModel_releases_session (state_of r) (loaded_simple healthy)
              1000 session simple_session Hh) as ((Hnull & _) & _).
  split; [exact Hh | split; [exact Hlive | split; [exact Ho | split; [exact Hl |]]]].
  split; [| exact Hnull].
  fold r in Hp. rewrite Hp. apply lookup_delete_eq.
Defined.

(** C8 as the specification states it fails: the second [unloadModel] on
    the same handle reads the structure that the first one freed. *)
Lemma unloadModel_twice_is_not_safe :
  outcome_of
    (LlamaJni.Java_com_livecoding_demo_LlamaJNI_unloadModel 1000
       (state_of (LlamaJni.Java_com_livecoding_demo_LlamaJNI_unloadModel
                    1000 (loaded healthy))))
  = Fault InvalidPointer
  /\ ~ release_twice_is_safe
        LlamaJni.Java_com_livecoding_demo_LlamaJNI_unloadModel (loaded healthy) 1000.
Proof.
  split; [evaluate |].
  unfold release_twice_is_safe. intros Hclaim.
  vm_compute in Hclaim. discriminate.
Qed.

(** C9 on a load that succeeds. *)
Lemma loadModel_returns_usable_session_witness :
  let r := LlamaJni.Java_com_livecoding_demo_LlamaJNI_loadModel
             (Some model_file) (boot healthy) in
  outcome_of r = Ret 1000
  /\ (exists mc, session_at (state_of r) 1000 mc)
  /\ forall prompt msg,
       outcome_of (LlamaJni.Java_com_livecoding_demo_LlamaJNI_generateText
                     1000 prompt (state_of r))
       <> Throw IllegalStateException msg.
Proof.
  intros r.
  assert (Hr : outcome_of r = Ret 1000) by evaluate.
  split; [exact Hr |].
  exact (proj1 (loadModel_returns_usable_session (boot healthy) (Some model_file) 1000) Hr).
Defined.



End Examples.

(** * More properties of the bindings *)

(** ** Strings, blocks and sessions in [generateText] *)

(** Project a log that is given by its calls and by the logs of its parts. *)
Ltac read_log := repeat (rewrite ?omap_app in *; simpl in * ).

(** What the lemmas [quiet] (on the loop) and [finish] (on what follows it)
    say of the parts of a run. *)
Ltac loop_facts quiet finish :=
  repeat match goal with
    | Hl : generation_loop _ _ _ _ _ _ = _ |- _ =>
        apply quiet in Hl as (?Hquiet & ?Hheap & ?Hnothrow)
    | Hf : finish_response _ _ _ = _ |- _ =>
        apply finish in Hf as [?Hheap [(? & ? & ?) | (? & ? & ?)]]; simplify_eq
    end.

Ltac silence silent :=
  repeat match goal with
    | Hq : Forall (fun e => is_engine_call e = true) _ |- _ =>
        apply silent in Hq as (? & ? & ? & ? & ?)
    end.

(** Rewrite with the projections of a log that are known to be empty. *)
Ltac use_silence :=
  repeat match goal with
    | Hx : omap ?f ?l = [] |- context [list_omap ?A ?B ?f ?l] =>
        change (list_omap A B f l) with (omap f l); rewrite Hx
    | Hx : omap ?f ?l = [] |- context [omap ?f ?l] => rewrite Hx
    end.

Section LoopLogs.
Context {W : Type} `{Host W}.

(** The loop calls into the engine only, and leaves the sessions alone. *)
Lemma generation_loop_quiet fuel max_gen_tokens mc hnd st (p : process W) out t p' :
  generation_loop fuel max_gen_tokens mc hnd st p = (out, t, p') ->
  Forall (fun e => is_engine_call e = true) t /\ heap p' = heap p
  /\ forall cls msg, out <> Throw cls msg.
Proof.
  revert st p out t p'.
  induction fuel as [|fuel IH]; intros st p out t p' Hrun;
    rewrite generation_loop_unfold in Hrun;
    destruct (loop_guard max_gen_tokens st) eqn:Hg.
  - by finish_run Hrun.
  - by finish_run Hrun.
  - unfold bind, loop_body, bind, call, call_void, access, ret, undefined in Hrun.
    simpl in Hrun.
    repeat step_in Hrun.
    all: try (finish_run Hrun).
    all: try (split; [repeat constructor | split; [reflexivity | done]]).
    match goal with E : generation_loop _ _ _ _ _ _ = _ |- _ =>
      apply IH in E as (Ht & Hp & Hno) end.
    split; [repeat (constructor; [reflexivity |]); exact Ht | by split].
  - by finish_run Hrun.
Qed.

(** Calls into the engine hand out no string, no block and no file. *)
Lemma engine_calls_silent (t : list event) :
  Forall (fun e => is_engine_call e = true) t ->
  strings_obtained t = [] /\ strings_released t = []
  /\ blocks_allocated t = [] /\ blocks_freed t = [] /\ strings_made t = [].
Proof.
  induction 1 as [|e t He _ IH]; [done |].
  destruct e; try discriminate; apply IH.
Qed.

(** The end of a generation: either the array cannot be read back and
    nothing is called, or the string is made and the array freed. *)
Lemma finish_response_log response_ptr st (p : process W) out t p' :
  finish_response response_ptr st p = (out, t, p') ->
  heap p' = heap p
  /\ ((exists f, out = Fault f /\ t = [])
      \/ exists text, out = Ret text
           /\ t = [call_NewStringUTF text; call_free response_ptr]).
Proof.
  intros Hrun. unfold finish_response in Hrun.
  run_in Hrun; (split; [reflexivity |]); eauto.
Qed.

(** Housekeeping of [generateText] ([llama_jni.c]). *)
Lemma generateText_housekeeping (p : process W) (h : jlong) (prompt : jstring) :
  let r := LlamaJni.Java_com_livecoding_demo_LlamaJNI_generateText h prompt p in
  strings_released (log_of r) = strings_obtained (log_of r)
  /\ heap (state_of r) = heap p
  /\ ((forall f, outcome_of r <> Fault f) ->
      blocks_freed (log_of r) = reverse (blocks_allocated (log_of r)))
  /\ strings_made (log_of r)
     = match outcome_of r with Ret text => [text] | _ => [] end.
Proof.
  intros r. subst r. run_generateText.
  all: unfold log_of, outcome_of, state_of; cbn [fst snd].
  all: loop_facts generation_loop_quiet finish_response_log.
  all: try (exfalso; match goal with Hno : forall cls msg, _ <> Throw cls msg |- _ =>
                       by eapply Hno end).
  all: silence engine_calls_silent.
  all: unfold strings_released, strings_obtained, blocks_allocated, blocks_freed,
         strings_made in *; read_log; use_silence.
  all: repeat match goal with
         | E : (?x =? NULL) = _ |- context [?x =? NULL] => rewrite E
         end.
  all: repeat split; try done; try congruence.
  all: try (intros Hf; exfalso; eapply Hf; reflexivity).
Qed.
(** Housekeeping of [generateText] ([llama_jni_new.c]). *)
Lemma generateText_new_housekeeping (p : process W) (h : jlong) (prompt : jstring)
    (maxTokens : jint) :
  let r := LlamaJniNew.Java_com_livecoding_demo_LlamaJNI_generateText
             h prompt maxTokens p in
  strings_released (log_of r) = strings_obtained (log_of r)
  /\ heap (state_of r) = heap p
  /\ ((forall f, outcome_of r <> Fault f) ->
      blocks_freed (log_of r) = reverse (blocks_allocated (log_of r)))
  /\ strings_made (log_of r)
     = match outcome_of r with Ret text => [text] | _ => [] end.
Proof.
  intros r. subst r. run_generateText_new.
  all: unfold log_of, outcome_of, state_of; cbn [fst snd].
  all: loop_facts generation_loop_quiet finish_response_log.
  all: try (exfalso; match goal with Hno : forall cls msg, _ <> Throw cls msg |- _ =>
                       by eapply Hno end).
  all: silence engine_calls_silent.
  all: unfold strings_released, strings_obtained, blocks_allocated, blocks_freed,
         strings_made in *; read_log; use_silence.
  all: repeat match goal with
         | E : (?x =? NULL) = _ |- context [?x =? NULL] => rewrite E
         end.
  all: repeat split; try done; try congruence.
  all: try (intros Hf; exfalso; eapply Hf; reflexivity).
Qed.
End LoopLogs.

Section LoopTokens.
Variables (max_gen_tokens : Z) (mc : llama_model_context) (h : ptr).

(** In the loop every accepted token is converted to its piece, and decoded
    alone in a batch unless the copy of its piece was undefined. *)
Lemma loop_run_tokens st out t :
  loop_run max_gen_tokens mc h st out t ->
  piece_tokens t = accepts t
  /\ ((forall f, out <> Fault f) ->
      decode_batches t = (fun tok => [tok]) <$> accepts t).
Proof.
  induction 1 as [st Hg|st tok Hg|st tok eos n bs Hg Hne Ha
                 |st tok eos n bs st1 rc Hg Hne Ha Hrc
                 |st tok eos n bs st1 out t Hg Hne Ha Hrun [IHp IHd]];
    try (split; [reflexivity | intros Hf; first [reflexivity | by edestruct Hf]]).
  split.
  - change (piece_tokens (_ ++ t)) with (tok :: piece_tokens t).
    change (accepts (_ ++ t)) with (tok :: accepts t). by rewrite IHp.
  - intros Hf.
    change (decode_batches (_ ++ t)) with ([tok] :: decode_batches t).
    change (accepts (_ ++ t)) with (tok :: accepts t).
    rewrite fmap_cons. by rewrite IHd.
Qed.

(** The loop converts at most [max_gen_tokens - i] tokens. *)
Lemma loop_run_pieces_bound st out t :
  loop_run max_gen_tokens mc h st out t ->
  Z.of_nat (length (pieces t)) <= Z.max 0 (max_gen_tokens - i st).
Proof.
  induction 1 as [st Hg|st tok Hg|st tok eos n bs Hg Hne Ha
                 |st tok eos n bs st1 rc Hg Hne Ha Hrc
                 |st tok eos n bs st1 out t Hg Hne Ha Hrun IH];
    try (unfold loop_guard in Hg; simpl; lia).
  change (pieces (_ ++ t)) with ((n, bs) :: pieces t).
  apply append_piece_i in Ha. unfold loop_guard in Hg.
  simpl in *. lia.
Qed.
End LoopTokens.

Section RunTokens.
Context {P : Type}.
Implicit Types r : outcome (list byte) * list event * P.

Lemma piece_tokens_length (t : list event) :
  length (piece_tokens t) = length (pieces t).
Proof. induction t as [|[] t IH]; simpl; congruence. Qed.

Lemma decode_batches_length (t : list event) :
  length (decode_batches t) = length (decodes t).
Proof. induction t as [|[] t IH]; simpl; congruence. Qed.

Lemma quiet_batches (l : list event) :
  Forall (fun e => is_engine_call e = false) l ->
  decode_batches l = [] /\ piece_tokens l = [].
Proof.
  induction 1 as [|e l He _ IH]; [done|].
  destruct e; try discriminate; apply IH.
Qed.

(** The text of pieces of at most 256 bytes each. *)
Lemma accumulate_length text ps :
  Forall (fun p => fst p <= 256) ps ->
  Z.of_nat (length (accumulate text ps))
  <= Z.of_nat (length text) + 256 * Z.of_nat (length ps).
Proof.
  intros Hps. revert text.
  induction Hps as [|[n bs] ps Hn _ IH]; intros text; simpl; [lia |].
  destruct (piece_fits _ _).
  - etrans; [apply IH |]. rewrite length_app, length_take. simpl in Hn. lia.
  - etrans; [apply IH |]. lia.
Qed.

Lemma run_tokens max_gen_tokens r :
  generate_run max_gen_tokens r ->
  piece_tokens (log_of r) = accepts (log_of r)
  /\ ((forall f, outcome_of r <> Fault f) ->
      tail (decode_batches (log_of r)) = (fun tok => [tok]) <$> accepts (log_of r))
  /\ Z.of_nat (length (pieces (log_of r))) <= Z.max 0 max_gen_tokens.
Proof.
  intros [Hd Hs He Ha Hp Hout|pre t post mc hnd out Hlog Hd Hs He Ha Hp Hq Hloop Hout].
  - rewrite Ha, Hp.
    pose proof (piece_tokens_length (log_of r)) as Hpt.
    pose proof (decode_batches_length (log_of r)) as Hdb.
    rewrite Hp in Hpt.
    destruct (piece_tokens (log_of r)); [| done].
    destruct (decode_batches (log_of r)) as [|b [|b' bs]]; simpl in *; try lia.
    all: repeat split; try done; lia.
  - rewrite Hlog.
    destruct (looped_log pre t post Hd Hs He Ha Hp Hq) as (_ & _ & _ & -> & ->).
    destruct (quiet_batches post Hq) as [Hqd Hqp].
    pose proof (piece_tokens_length pre) as Hpt. rewrite Hp in Hpt.
    pose proof (decode_batches_length pre) as Hdb. rewrite Hd in Hdb.
    destruct (loop_run_tokens _ _ _ _ _ _ Hloop) as [Htok Hbat].
    pose proof (loop_run_pieces_bound _ _ _ _ _ _ Hloop) as Hb.
    unfold gen_init in Hb; simpl in Hb.
    unfold piece_tokens, decode_batches in *.
    rewrite !omap_app, Hqd, Hqp, !app_nil_r.
    destruct (omap piece_token pre); [| done].
    destruct (omap decode_batch pre) as [|b [|b' bs]]; try done.
    split; [done | split; [| lia]].
    intros Hf. simpl. apply Hbat. intros f ->. by eapply Hf.
Qed.
End RunTokens.

Section Housekeeping.
Context {W : Type} `{Host W}.

Lemma loadModel_strings (p : process W) (path : jstring) :
  let r := LlamaJni.Java_com_livecoding_demo_LlamaJNI_loadModel path p in
  let r' := LlamaJniNew.Java_com_livecoding_demo_LlamaJNI_loadModel path p in
  strings_released (log_of r) = strings_obtained (log_of r)
  /\ strings_released (log_of r') = strings_obtained (log_of r').
Proof.
  intros r r'. subst r r'. split.
  - run_call (LlamaJni.Java_com_livecoding_demo_LlamaJNI_loadModel path p).
    all: reflexivity.
  - run_call (LlamaJniNew.Java_com_livecoding_demo_LlamaJNI_loadModel path p).
    all: reflexivity.
Qed.

(** X1. The strings of the JVM are given back.  In [generateText] and
    [loadModel] of both engine-backed bindings, on every path (a Java
    exception or an undefined access included), the strings released with
    [ReleaseStringUTFChars] are exactly those that [GetStringUTFChars]
    handed out, in the same order.  [generateText] makes one Java string,
    its result, when it returns, and none otherwise. *)
Theorem bindings_release_strings
    (p : process W) (h : jlong) (prompt path : jstring) (maxTokens : jint) :
  let g := LlamaJni.Java_com_livecoding_demo_LlamaJNI_generateText h prompt p in
  let g' := LlamaJniNew.Java_com_livecoding_demo_LlamaJNI_generateText
              h prompt maxTokens p in
  let l := LlamaJni.Java_com_livecoding_demo_LlamaJNI_loadModel path p in
  let l' := LlamaJniNew.Java_com_livecoding_demo_LlamaJNI_loadModel path p in
  (strings_released (log_of g) = strings_obtained (log_of g)
   /\ strings_released (log_of g') = strings_obtained (log_of g'))
  /\ (strings_released (log_of l) = strings_obtained (log_of l)
      /\ strings_released (log_of l') = strings_obtained (log_of l'))
  /\ (strings_made (log_of g)
      = match outcome_of g with Ret text => [text] | _ => [] end
      /\ strings_made (log_of g')
         = match outcome_of g' with Ret text => [text] | _ => [] end).
Proof.
  intros g g' l l'.
  destruct (generateText_housekeeping p h prompt) as (Hs & _ & _ & Hm).
  destruct (generateText_new_housekeeping p h prompt maxTokens) as (Hs' & _ & _ & Hm').
  split; [done | split; [apply loadModel_strings | done]].
Qed.

(** X2. [generateText] frees what it allocates.  Whenever the call returns
    or raises a Java exception, the blocks given to [free] are the blocks
    that [malloc] handed out, in the reverse order: the token array and the
    response array in [llama_jni.c], the response array alone in
    [llama_jni_new.c].  An allocation that failed is not freed. *)
Theorem generateText_frees_its_blocks
    (p : process W) (h : jlong) (prompt : jstring) (maxTokens : jint) :
  let r := LlamaJni.Java_com_livecoding_demo_LlamaJNI_generateText h prompt p in
  let r' := LlamaJniNew.Java_com_livecoding_demo_LlamaJNI_generateText
              h prompt maxTokens p in
  ((forall f, outcome_of r <> Fault f) ->
   blocks_freed (log_of r) = reverse (blocks_allocated (log_of r)))
  /\ ((forall f, outcome_of r' <> Fault f) ->
      blocks_freed (log_of r') = reverse (blocks_allocated (log_of r'))).
Proof.
  intros r r'. split.
  - apply generateText_housekeeping.
  - apply generateText_new_housekeeping.
Qed.

(** X3. [generateText] leaves the sessions as they are.  Whatever the
    outcome of the call (both bindings), the session structures that are
    live after it are those that were live before it, with the same
    contents: every session of the process is still a session. *)
Theorem generateText_keeps_sessions
    (p : process W) (h : jlong) (prompt : jstring) (maxTokens : jint) :
  let r := LlamaJni.Java_com_livecoding_demo_LlamaJNI_generateText h prompt p in
  let r' := LlamaJniNew.Java_com_livecoding_demo_LlamaJNI_generateText
              h prompt maxTokens p in
  (heap (state_of r) = heap p /\ heap (state_of r') = heap p)
  /\ forall h0 mc,
       session_at p h0 mc ->
       session_at (state_of r) h0 mc /\ session_at (state_of r') h0 mc.
Proof.
  intros r r'.
  destruct (generateText_housekeeping p h prompt) as (_ & Hp & _).
  destruct (generateText_new_housekeeping p h prompt maxTokens) as (_ & Hp' & _).
  fold r in Hp. fold r' in Hp'.
  split; [done |]. intros h0 mc. unfold session_at. rewrite Hp, Hp'. done.
Qed.

(** X4. When the decode of the prompt fails, that is when the first
    [llama_decode] of the call answers a non-zero code, both bindings raise
    [RuntimeException] ("Failed to evaluate prompt"): it is the only decode
    of the call, nothing is sampled and no Java string is made. *)
Theorem generateText_priming_decode_fails
    (p : process W) (h : jlong) (prompt : jstring) (maxTokens : jint) :
  let r := LlamaJni.Java_com_livecoding_demo_LlamaJNI_generateText h prompt p in
  let r' := LlamaJniNew.Java_com_livecoding_demo_LlamaJNI_generateText
              h prompt maxTokens p in
  (forall rc rest,
     decodes (log_of r) = rc :: rest -> rc <> 0 ->
     outcome_of r = Throw RuntimeException "Failed to evaluate prompt"
     /\ rest = [] /\ samples (log_of r) = [] /\ strings_made (log_of r) = [])
  /\ (forall rc rest,
        decodes (log_of r') = rc :: rest -> rc <> 0 ->
        outcome_of r' = Throw RuntimeException "Failed to evaluate prompt"
        /\ rest = [] /\ samples (log_of r') = [] /\ strings_made (log_of r') = []).
Proof.
  intros r r'. subst r r'. split.
  - run_generateText.
    all: unfold log_of, outcome_of; cbn [fst snd]; intros rc rest Hd Hrc.
    all: log_simpl; reflect_tests; simplify_eq.
    all: repeat split; reflexivity.
  - run_generateText_new.
    all: unfold log_of, outcome_of; cbn [fst snd]; intros rc rest Hd Hrc.
    all: log_simpl; reflect_tests; simplify_eq.
    all: repeat split; reflexivity.
Qed.

(** X5. The sampler and the context are fed the same tokens.  In every
    call (both bindings) the tokens given to [llama_token_to_piece] are the
    accepted tokens, in order; and when the call returns or raises, the
    batches decoded after the batch of the prompt are the accepted tokens,
    one token per batch, in order. *)
Theorem generateText_tokens_in_step
    (p : process W) (h : jlong) (prompt : jstring) (maxTokens : jint) :
  let r := LlamaJni.Java_com_livecoding_demo_LlamaJNI_generateText h prompt p in
  let r' := LlamaJniNew.Java_com_livecoding_demo_LlamaJNI_generateText
              h prompt maxTokens p in
  (piece_tokens (log_of r) = accepts (log_of r)
   /\ ((forall f, outcome_of r <> Fault f) ->
       tail (decode_batches (log_of r)) = (fun tok => [tok]) <$> accepts (log_of r)))
  /\ (piece_tokens (log_of r') = accepts (log_of r')
      /\ ((forall f, outcome_of r' <> Fault f) ->
          tail (decode_batches (log_of r'))
          = (fun tok => [tok]) <$> accepts (log_of r'))).
Proof.
  intros r r'.
  destruct (run_tokens _ _ (generateText_run p h prompt)) as (Ht & Hb & _).
  destruct (run_tokens _ _ (generateText_new_run p h prompt maxTokens))
    as (Ht' & Hb' & _).
  done.
Qed.

(** X6. The token budget bounds the text ([llama_jni_new.c]).  With an
    engine that keeps its promise on pieces, the text returned has at most
    256 bytes for each piece converted, at most
    [sanitize_max_tokens maxTokens] pieces are converted, and for
    [maxTokens] from 1 to 512 the text has at most [256 * maxTokens]
    bytes. *)
Theorem generateText_text_within_budget
    (p : process W) (h : jlong) (prompt : jstring) (maxTokens : jint)
    (text : list byte) :
  let r := LlamaJniNew.Java_com_livecoding_demo_LlamaJNI_generateText
             h prompt maxTokens p in
  engine_kept_promise r ->
  outcome_of r = Ret text ->
  Z.of_nat (length text) <= 256 * Z.of_nat (length (pieces (log_of r)))
  /\ Z.of_nat (length (pieces (log_of r))) <= LlamaJniNew.sanitize_max_tokens maxTokens
  /\ (1 <= maxTokens <= 512 -> Z.of_nat (length text) <= 256 * maxTokens).
Proof.
  intros r Hpromise Hout.
  pose proof (generateText_new_run p h prompt maxTokens) as Hrun. fold r in Hrun.
  assert (Hsmall : Forall (fun p => fst p <= 256) (pieces (log_of r)))
    by (eapply Forall_impl; [exact Hpromise | intros ? [? ?]; lia]).
  destruct (run_returns_text _ _ Hrun Hpromise) as [_ Hret].
  rewrite (Hret text Hout).
  destruct (run_tokens _ _ Hrun) as (_ & _ & Hb).
  pose proof (sanitize_max_tokens_range maxTokens) as Hrange.
  pose proof (accumulate_length [] _ Hsmall) as Hlen.
  pose proof (c_prefix_length (accumulate [] (pieces (log_of r)))) as Hc.
  simpl in Hlen.
  assert (Hin : 1 <= maxTokens <= 512 ->
                LlamaJniNew.sanitize_max_tokens maxTokens = maxTokens).
  { unfold LlamaJniNew.sanitize_max_tokens, DEFAULT_MAX_TOKENS.
    destruct (_ && _) eqn:E; reflect_tests; lia. }
  split; [lia | split; [lia |]].
  intros Hm. rewrite <- (Hin Hm). lia.
Qed.
End Housekeeping.

(** ** Loading and unloading *)

Section Loading.
Context {W : Type} `{Host W}.

Lemma loadModel_loaded (p : process W) (path : jstring) (h : jlong) :
  let r := LlamaJni.Java_com_livecoding_demo_LlamaJNI_loadModel path p in
  outcome_of r = Ret h ->
  exists m c s,
    (h <> NULL /\ m <> NULL /\ c <> NULL /\ s <> NULL)
    /\ heap (state_of r) = <[h := {| model := m; ctx := c; sampler := s |}]> (heap p)
    /\ (forall held,
          ledger held (log_of r) = Sampler s :: Context c :: Model m :: Backend :: held)
    /\ blocks_allocated (log_of r) = [h] /\ blocks_freed (log_of r) = [].
Proof.
  intros r. subst r.
  run_call (LlamaJni.Java_com_livecoding_demo_LlamaJNI_loadModel path p).
  all: unfold outcome_of, log_of, state_of; cbn [fst snd]; intros Hr; simplify_eq.
  match goal with
  | |- context [heap {| p_env := _; heap := <[_ := ?mc]> _ |}] =>
      exists (model mc), (ctx mc), (sampler mc)
  end.
  cbn [model ctx sampler heap].
  split; [reflect_tests; done |]. split; [reflexivity |].
  split.
  - intros held. unfold ledger. cbn [fold_left ledger_step]. unfold acquire.
    repeat match goal with
      | E : (?x =? NULL) = _ |- context [?x =? NULL] => rewrite E
      end.
    reflexivity.
  - unfold blocks_allocated, blocks_freed. simpl.
    repeat match goal with
      | E : (?x =? NULL) = _ |- context [?x =? NULL] => rewrite E
      end.
    done.
Qed.

Lemma loadModel_new_loaded (p : process W) (path : jstring) (h : jlong) :
  let r := LlamaJniNew.Java_com_livecoding_demo_LlamaJNI_loadModel path p in
  outcome_of r = Ret h ->
  exists m c s,
    (h <> NULL /\ m <> NULL /\ c <> NULL /\ s <> NULL)
    /\ heap (state_of r) = <[h := {| model := m; ctx := c; sampler := s |}]> (heap p)
    /\ (forall held,
          ledger held (log_of r) = Sampler s :: Context c :: Model m :: Backend :: held)
    /\ blocks_allocated (log_of r) = [h] /\ blocks_freed (log_of r) = [].
Proof.
  intros r. subst r.
  run_call (LlamaJniNew.Java_com_livecoding_demo_LlamaJNI_loadModel path p).
  all: unfold outcome_of, log_of, state_of; cbn [fst snd]; intros Hr; simplify_eq.
  match goal with
  | |- context [heap {| p_env := _; heap := <[_ := ?mc]> _ |}] =>
      exists (model mc), (ctx mc), (sampler mc)
  end.
  cbn [model ctx sampler heap].
  split; [reflect_tests; done |]. split; [reflexivity |].
  split.
  - intros held. unfold ledger. cbn [fold_left ledger_step]. unfold acquire.
    repeat match goal with
      | E : (?x =? NULL) = _ |- context [?x =? NULL] => rewrite E
      end.
    reflexivity.
  - unfold blocks_allocated, blocks_freed. simpl.
    repeat match goal with
      | E : (?x =? NULL) = _ |- context [?x =? NULL] => rewrite E
      end.
    done.
Qed.

Lemma ledger_app held t1 t2 : ledger held (t1 ++ t2) = ledger (ledger held t1) t2.
Proof. apply fold_left_app. Qed.

Lemma ledger_release_calls h m c s held :
  m <> NULL -> c <> NULL -> s <> NULL ->
  ledger (Sampler s :: Context c :: Model m :: Backend :: held)
    (release_calls h {| model := m; ctx := c; sampler := s |}) = held.
Proof.
  intros Hm%Z.eqb_neq Hc%Z.eqb_neq Hs%Z.eqb_neq.
  unfold release_calls. cbn [model ctx sampler]. rewrite Hm, Hc, Hs.
  unfold ledger. cbn [app fold_left ledger_step].
  by rewrite !release_head.
Qed.

(** X7. What a [loadModel] that succeeds holds (both bindings).  The
    handle returned is not null; the structure at the handle is made of a
    model, a context and a sampler chain, none of them null, and nothing
    else changed on the heap; the engine resources held after the call are
    that sampler chain, that context, that model and the backend, on top of
    what was held before; the one block allocated is the structure, and it
    is not freed. *)
Theorem loadModel_holds_what_it_made (p : process W) (path : jstring) (h : jlong) :
  let r := LlamaJni.Java_com_livecoding_demo_LlamaJNI_loadModel path p in
  let r' := LlamaJniNew.Java_com_livecoding_demo_LlamaJNI_loadModel path p in
  (outcome_of r = Ret h ->
   exists m c s,
     (h <> NULL /\ m <> NULL /\ c <> NULL /\ s <> NULL)
     /\ heap (state_of r) = <[h := {| model := m; ctx := c; sampler := s |}]> (heap p)
     /\ (forall held,
           ledger held (log_of r)
           = Sampler s :: Context c :: Model m :: Backend :: held)
     /\ blocks_allocated (log_of r) = [h] /\ blocks_freed (log_of r) = [])
  /\ (outcome_of r' = Ret h ->
      exists m c s,
        (h <> NULL /\ m <> NULL /\ c <> NULL /\ s <> NULL)
        /\ heap (state_of r')
           = <[h := {| model := m; ctx := c; sampler := s |}]> (heap p)
        /\ (forall held,
              ledger held (log_of r')
              = Sampler s :: Context c :: Model m :: Backend :: held)
        /\ blocks_allocated (log_of r') = [h] /\ blocks_freed (log_of r') = []).
Proof.
  intros r r'. split; [apply loadModel_loaded | apply loadModel_new_loaded].
Qed.

Lemma unload_after_load (p p1 : process W) (h : jlong) m c s (t : list event)
    (u : outcome unit * list event * process W) :
  h <> NULL -> m <> NULL -> c <> NULL -> s <> NULL ->
  heap p1 = <[h := {| model := m; ctx := c; sampler := s |}]> (heap p) ->
  (forall held, ledger held t = Sampler s :: Context c :: Model m :: Backend :: held) ->
  blocks_allocated t = [h] -> blocks_freed t = [] ->
  u = LlamaJni.Java_com_livecoding_demo_LlamaJNI_unloadModel h p1 ->
  outcome_of u = Ret tt
  /\ (forall held, ledger held (t ++ log_of u) = held)
  /\ blocks_freed (t ++ log_of u) = blocks_allocated (t ++ log_of u)
  /\ heap (state_of u) = delete h (heap p)
  /\ (heap p !! h = None -> heap (state_of u) = heap p).
Proof.
  intros Hh Hm Hc Hs Hheap Hledger Ha Hf ->.
  destruct (unloadModel_live p1 h {| model := m; ctx := c; sampler := s |} Hh)
    as (Ho & Hl & Hp).
  { rewrite Hheap. apply lookup_insert_eq. }
  split; [exact Ho |]. rewrite Hl, Hp, Hheap, delete_insert_eq.
  split; [| split; [| split; [done | apply delete_id]]].
  - intros held. rewrite ledger_app, Hledger. by apply ledger_release_calls.
  - unfold blocks_freed, blocks_allocated in *. rewrite !omap_app, Ha, Hf.
    unfold release_calls. cbn [model ctx sampler].
    apply Z.eqb_neq in Hm, Hc, Hs. rewrite Hm, Hc, Hs. reflexivity.
Qed.

(** X8. [loadModel] followed by [unloadModel] on the handle it returned
    (both bindings): [unloadModel] returns, every engine resource acquired
    by the load is released and the backend is shut down, the block of the
    structure is freed, and the heap is the heap before the load without the
    handle, which is the heap before the load when the allocator gave an
    address that was not live. *)
Theorem loadModel_then_unloadModel (p : process W) (path : jstring) (h : jlong) :
  let r := LlamaJni.Java_com_livecoding_demo_LlamaJNI_loadModel path p in
  let u := LlamaJni.Java_com_livecoding_demo_LlamaJNI_unloadModel h (state_of r) in
  let r' := LlamaJniNew.Java_com_livecoding_demo_LlamaJNI_loadModel path p in
  let u' := LlamaJniNew.Java_com_livecoding_demo_LlamaJNI_unloadModel
              h (state_of r') in
  (outcome_of r = Ret h ->
   outcome_of u = Ret tt
   /\ (forall held, ledger held (log_of r ++ log_of u) = held)
   /\ blocks_freed (log_of r ++ log_of u) = blocks_allocated (log_of r ++ log_of u)
   /\ heap (state_of u) = delete h (heap p)
   /\ (heap p !! h = None -> heap (state_of u) = heap p))
  /\ (outcome_of r' = Ret h ->
      outcome_of u' = Ret tt
      /\ (forall held, ledger held (log_of r' ++ log_of u') = held)
      /\ blocks_freed (log_of r' ++ log_of u')
         = blocks_allocated (log_of r' ++ log_of u')
      /\ heap (state_of u') = delete h (heap p)
      /\ (heap p !! h = None -> heap (state_of u') = heap p)).
Proof.
  intros r u r' u'. split; intros Hr.
  - destruct (loadModel_loaded p path h Hr)
      as (m & c & s & (Hh & Hm & Hc & Hs) & Hheap & Hledger & Ha & Hf).
    by apply (unload_after_load p (state_of r) h m c s (log_of r)).
  - destruct (loadModel_new_loaded p path h Hr)
      as (m & c & s & (Hh & Hm & Hc & Hs) & Hheap & Hledger & Ha & Hf).
    by apply (unload_after_load p (state_of r') h m c s (log_of r')).
Qed.

(** X9. The configuration of a load (both bindings).  Every model is
    loaded with [n_gpu_layers = 0] and every context is made with
    [n_ctx = 2048] and [n_threads = 4] (and [seed = 42] in
    [llama_jni_new.c]).  A load that succeeds has constructed four sampler
    layers, top-k 40, top-p 0.9 with [min_keep = 1], temperature 0.8 and the
    final sampler seeded with 42, and has added them in this order to the
    chain of the session, each as the engine returned it: a layer is not
    checked before it is added. *)
Theorem loadModel_configuration (p : process W) (path : jstring) :
  let r := LlamaJni.Java_com_livecoding_demo_LlamaJNI_loadModel path p in
  let r' := LlamaJniNew.Java_com_livecoding_demo_LlamaJNI_loadModel path p in
  (Forall (fun params => n_gpu_layers params = 0) (models_loaded (log_of r))
   /\ Forall (fun params => n_ctx params = 2048 /\ n_threads params = 4)
        (contexts_made (log_of r))
   /\ forall h,
        outcome_of r = Ret h ->
        exists mc a b c d,
          heap (state_of r) !! h = Some mc
          /\ layers_made (log_of r)
             = [(top_k 40, a); (top_p 9 1, b); (temp 8, c); (dist 42, d)]
          /\ layers_added (log_of r)
             = [(sampler mc, a); (sampler mc, b); (sampler mc, c); (sampler mc, d)])
  /\ (Forall (fun params => n_gpu_layers params = 0) (models_loaded (log_of r'))
      /\ Forall (fun params => n_ctx params = 2048 /\ n_threads params = 4
                               /\ seed params = 42)
           (contexts_made (log_of r'))
      /\ forall h,
           outcome_of r' = Ret h ->
           exists mc a b c d,
             heap (state_of r') !! h = Some mc
             /\ layers_made (log_of r')
                = [(top_k 40, a); (top_p 9 1, b); (temp 8, c); (dist 42, d)]
             /\ layers_added (log_of r')
                = [(sampler mc, a); (sampler mc, b); (sampler mc, c);
                   (sampler mc, d)]).
Proof.
  intros r r'. subst r r'. split.
  - run_call (LlamaJni.Java_com_livecoding_demo_LlamaJNI_loadModel path p).
    all: unfold outcome_of, log_of, state_of; cbn [fst snd].
    all: unfold models_loaded, contexts_made, layers_made, layers_added.
    all: split; [simpl; repeat constructor | split; [simpl; repeat constructor |]].
    all: intros h Hr; simplify_eq.
    do 5 eexists. split; [apply lookup_insert_eq |]. split; reflexivity.
  - run_call (LlamaJniNew.Java_com_livecoding_demo_LlamaJNI_loadModel path p).
    all: unfold outcome_of, log_of, state_of; cbn [fst snd].
    all: unfold models_loaded, contexts_made, layers_made, layers_added.
    all: split; [simpl; repeat constructor | split; [simpl; repeat constructor |]].
    all: intros h Hr; simplify_eq.
    do 5 eexists. split; [apply lookup_insert_eq |]. split; reflexivity.
Qed.

(** X10. The argument checks of [generateText] (both engine-backed
    bindings), in the order of the code.  A zero handle raises
    [IllegalArgumentException] ("Model not loaded") whatever the prompt; a
    null prompt raises [IllegalArgumentException] ("Prompt cannot be null")
    without reading through the handle; a session whose model, context or
    sampler is null raises [IllegalStateException] ("Invalid model state").
    In the three cases [ThrowNew] is the only call.  A handle that is
    neither zero nor live is read through: no call is made and the
    behaviour is not defined. *)
Theorem generateText_checks_its_arguments
    (p : process W) (h : jlong) (prompt : jstring) (maxTokens : jint) :
  let r := LlamaJni.Java_com_livecoding_demo_LlamaJNI_generateText h prompt p in
  let r' := LlamaJniNew.Java_com_livecoding_demo_LlamaJNI_generateText
              h prompt maxTokens p in
  let refused cls msg (x : outcome (list byte) * list event * process W) :=
    outcome_of x = Throw cls msg /\ log_of x = [call_ThrowNew cls msg] in
  (h = 0 ->
   refused IllegalArgumentException "Model not loaded"%string r
   /\ refused IllegalArgumentException "Model not loaded"%string r')
  /\ (h <> 0 -> prompt = None ->
      refused IllegalArgumentException "Prompt cannot be null"%string r
      /\ refused IllegalArgumentException "Prompt cannot be null"%string r')
  /\ (forall mc,
        h <> 0 -> prompt <> None -> heap p !! h = Some mc ->
        model mc = NULL \/ ctx mc = NULL \/ sampler mc = NULL ->
        refused IllegalStateException "Invalid model state"%string r
        /\ refused IllegalStateException "Invalid model state"%string r')
  /\ (h <> 0 -> prompt <> None -> heap p !! h = None ->
      (outcome_of r = Fault InvalidPointer /\ log_of r = [])
      /\ (outcome_of r' = Fault InvalidPointer /\ log_of r' = [])).
Proof.
  intros r r' refused. subst r r' refused. cbv beta.
  unfold LlamaJni.Java_com_livecoding_demo_LlamaJNI_generateText,
    LlamaJniNew.Java_com_livecoding_demo_LlamaJNI_generateText.
  split; [| split; [| split]].
  - intros ->. simpl. done.
  - intros Hh%Z.eqb_neq ->. rewrite Hh. done.
  - intros mc Hh%Z.eqb_neq Hprompt Hlive Hnull. rewrite Hh.
    destruct prompt as [text |]; [| done].
    autounfold with native. simpl. rewrite Hlive.
    assert ((model mc =? NULL) || (ctx mc =? NULL) || (sampler mc =? NULL) = true)
      as ->; [| done].
    rewrite !orb_true_iff, !Z.eqb_eq. tauto.
  - intros Hh%Z.eqb_neq Hprompt Hdead. rewrite Hh.
    destruct prompt as [text |]; [| done].
    autounfold with native. simpl. rewrite Hdead. done.
Qed.

End Loading.

(** ** The mock binding *)

Section Substrings.

Lemma starts_with_prefix needle s :
  starts_with needle s = true <-> exists b, s = needle ++ b.
Proof.
  revert s. induction needle as [|n needle IH]; intros s; simpl.
  - split; [intros _; by exists s | done].
  - destruct s as [|c s]; [split; [done | by intros [b Hb]] |].
    rewrite andb_true_iff, IH. split.
    + intros [Hc [b ->]]. exists b. f_equal.
      apply Byte.byte_dec_bl in Hc. done.
    + intros [b Hb]. simplify_eq. split; [by apply Byte.byte_dec_lb | by exists b].
Qed.

(** [strstr] finds a string exactly when the needle occurs in it. *)
Lemma strstr_found haystack needle :
  found (strstr haystack needle) = true <-> contains needle haystack.
Proof.
  unfold contains. induction haystack as [|c s IH]; simpl.
  - destruct (starts_with needle []) eqn:Hs.
    + apply starts_with_prefix in Hs as [b Hb]. split; [| done].
      intros _. exists [], b. exact Hb.
    + split; [done |]. intros (a & b & Hab).
      destruct a; [| done]. simpl in Hab.
      assert (starts_with needle [] = true) by (apply starts_with_prefix; eauto).
      congruence.
  - destruct (starts_with needle (c :: s)) eqn:Hs.
    + apply starts_with_prefix in Hs as [b Hb]. split; [| done].
      intros _. exists [], b. exact Hb.
    + rewrite IH. split.
      * intros (a & b & ->). by exists (c :: a), b.
      * intros (a & b & Hab). destruct a as [|c' a].
        -- assert (starts_with needle (c :: s) = true)
             by (apply starts_with_prefix; eauto).
           congruence.
        -- simpl in Hab. injection Hab as -> ->. by exists a, b.
Qed.

(** [strrchr] finds the last occurrence of the character. *)
Lemma strrchr_last dir c name :
  c ∉ name -> strrchr (dir ++ c :: name) c = Some (c :: name).
Proof.
  intros Hname.
  assert (Hnone : strrchr name c = None).
  { induction name as [|b name IH]; [done |]. simpl.
    apply not_elem_of_cons in Hname as [Hb Hname].
    rewrite IH by done.
    destruct (Byte.eqb b c) eqn:Hbc; [| done].
    apply Byte.byte_dec_bl in Hbc. congruence. }
  induction dir as [|d dir IH]; simpl.
  - rewrite Hnone. by rewrite (@Byte.byte_dec_lb c c eq_refl).
  - by rewrite IH.
Qed.

Lemma strrchr_none s c : c ∉ s -> strrchr s c = None.
Proof.
  induction s as [|b s IH]; [done |]. intros [Hb Hs]%not_elem_of_cons. simpl.
  rewrite IH by done.
  destruct (Byte.eqb b c) eqn:Hbc; [| done].
  apply Byte.byte_dec_bl in Hbc. congruence.
Qed.

End Substrings.

Section Answers.

(** Every canned answer, with the follow-up sentence, is shorter than the
    response array, and holds no terminator. *)
Lemma canned_answers_short a :
  a ∈ canned_answers ->
  Z.of_nat (length (a ++ LlamaJniSimple.follow_up)) < MAX_RESPONSE_LENGTH.
Proof.
  intros Ha.
  assert (Hall : forallb
                   (fun a => Z.of_nat (length (a ++ LlamaJniSimple.follow_up))
                             <? MAX_RESPONSE_LENGTH) canned_answers = true)
    by (vm_compute; reflexivity).
  rewrite forallb_forall in Hall. apply Z.ltb_lt, Hall. by apply list_elem_of_In.
Qed.

Lemma snprintf_short size s :
  Z.of_nat (length s) < size -> snprintf size s = s.
Proof. intros Hs. unfold snprintf. apply take_ge. lia. Qed.

Lemma array_at_elem {A} (a : list A) k x : array_at a k = Some x -> x ∈ a.
Proof.
  unfold array_at. destruct (k <? 0); [done |]. apply list_elem_of_lookup_2.
Qed.

Lemma select_response_canned s v a :
  LlamaJniSimple.select_response s v = Some a -> a ∈ canned_answers.
Proof.
  unfold LlamaJniSimple.select_response, canned_answers. cbv zeta.
  repeat match goal with
    | |- context [if ?b then _ else _] => destruct b
    end.
  all: intros Ha%array_at_elem; rewrite !elem_of_app; tauto.
Qed.

Lemma select_response_defined s v :
  0 <= v < 5 -> is_Some (LlamaJniSimple.select_response s v).
Proof.
  intros Hv.
  unfold LlamaJniSimple.select_response. cbv zeta.
  repeat match goal with
    | |- context [if ?b then _ else _] => destruct b
    end.
  all: unfold array_at; destruct (v <? 0) eqn:Hneg; [lia |].
  all: apply lookup_lt_is_Some.
  all: match goal with
       | |- (_ < length ?t)%nat =>
           replace (length t) with 5%nat by (vm_compute; reflexivity)
       end; lia.
Qed.

Lemma contains_part x needle y s :
  contains (x ++ needle ++ y) s -> contains needle s.
Proof.
  intros (a & b & ->). exists (a ++ x), (y ++ b). by rewrite <- !app_assoc.
Qed.

Lemma mentions_found needles s :
  mentions needles s ->
  Exists (fun n => found (strstr s (list_byte_of_string n)) = true) needles.
Proof.
  unfold mentions. intros Hm. eapply Exists_impl; [exact Hm |].
  intros n Hn. by apply strstr_found.
Qed.

Lemma not_mentions_found needles s :
  ~ mentions needles s ->
  Forall (fun n => found (strstr s (list_byte_of_string n)) = false) needles.
Proof.
  intros Hno. apply Forall_forall. intros n Hn.
  destruct (found _) eqn:Hf; [| done].
  destruct Hno. apply Exists_exists. exists n. split; [done |].
  by apply strstr_found.
Qed.

(** The answer to a prompt that mentions "2+2". *)
Lemma select_response_arithmetic s v :
  mentions ["2+2"; "2 + 2"]%string s ->
  LlamaJniSimple.select_response s v = array_at LlamaJniSimple.math_responses v.
Proof.
  intros Hm%mentions_found. unfold LlamaJniSimple.select_response. cbv zeta.
  repeat (apply Exists_cons in Hm as [-> | Hm]);
    [by rewrite ?orb_true_r, ?orb_true_l.. | by apply Exists_nil in Hm].
Qed.

(** The answer to a prompt with a greeting and nothing of arithmetic. *)
Lemma select_response_greeting s v :
  ~ mentions ["+"; "-"; "*"; "/"; "math"; "calculate"]%string s ->
  mentions ["Hello"; "hello"; "Hi"; "hi"; "how are you"]%string s ->
  LlamaJniSimple.select_response s v = array_at LlamaJniSimple.greetings v.
Proof.
  intros Hno Hm%mentions_found.
  assert (Hplus : ~ contains (list_byte_of_string "+") s).
  { intros Hc. apply Hno. by apply Exists_cons_hd. }
  assert (H1 : found (strstr s (list_byte_of_string "2+2")) = false).
  { destruct (found _) eqn:Hf; [| done]. apply strstr_found in Hf.
    destruct Hplus.
    by apply (contains_part (list_byte_of_string "2") _ (list_byte_of_string "2")). }
  assert (H2 : found (strstr s (list_byte_of_string "2 + 2")) = false).
  { destruct (found (strstr s (list_byte_of_string "2 + 2"))) eqn:Hf; [| done].
    apply strstr_found in Hf.
    destruct Hplus.
    by apply (contains_part (list_byte_of_string "2 ") _ (list_byte_of_string " 2")). }
  apply not_mentions_found in Hno.
  repeat (apply Forall_cons_1 in Hno as [? Hno]).
  unfold LlamaJniSimple.select_response. cbv zeta.
  repeat match goal with
    | E : found _ = false |- _ => rewrite E; clear E
    end.
  cbn [orb].
  repeat (apply Exists_cons in Hm as [-> | Hm]);
    [by rewrite ?orb_true_r, ?orb_true_l.. | by apply Exists_nil in Hm].
Qed.

(** The answer to a prompt with none of the words the chain looks for. *)
Lemma select_response_default s v :
  ~ mentions ["+"; "-"; "*"; "/"; "math"; "calculate";
              "Hello"; "hello"; "Hi"; "hi"; "how are you";
              "I am"; "My name is"; "I'm";
              "what"; "What"; "how"; "How"; "why"; "Why"; "?"]%string s ->
  LlamaJniSimple.select_response s v = array_at LlamaJniSimple.defaults v.
Proof.
  intros Hno.
  assert (Hplus : ~ contains (list_byte_of_string "+") s).
  { intros Hc. apply Hno. by apply Exists_cons_hd. }
  assert (H1 : found (strstr s (list_byte_of_string "2+2")) = false).
  { destruct (found _) eqn:Hf; [| done]. apply strstr_found in Hf.
    destruct Hplus.
    by apply (contains_part (list_byte_of_string "2") _ (list_byte_of_string "2")). }
  assert (H2 : found (strstr s (list_byte_of_string "2 + 2")) = false).
  { destruct (found (strstr s (list_byte_of_string "2 + 2"))) eqn:Hf; [| done].
    apply strstr_found in Hf.
    destruct Hplus.
    by apply (contains_part (list_byte_of_string "2 ") _ (list_byte_of_string " 2")). }
  apply not_mentions_found in Hno.
  repeat (apply Forall_cons_1 in Hno as [? Hno]).
  unfold LlamaJniSimple.select_response. cbv zeta.
  repeat match goal with
    | E : found _ = false |- _ => rewrite E; clear E
    end.
  reflexivity.
Qed.

End Answers.

Section Mock.
Context {W : Type} `{Host W}.

Lemma generateText_simple_run `{Randomness W}
    (ps : LlamaJniSimple.process W) (h : jlong) c (prompt : list byte) :
  h <> 0 ->
  LlamaJniSimple.heap ps !! h = Some c ->
  LlamaJniSimple.model_id c = 12345 -> LlamaJniSimple.is_loaded c <> 0 ->
  fst (h_GetStringUTFChars prompt (LlamaJniSimple.p_env ps)) = true ->
  0 < strlen prompt <= MAX_PROMPT_LENGTH ->
  (forall w, 0 <= fst (h_rand w)) ->
  let r := LlamaJniSimple.Java_com_livecoding_demo_LlamaJNI_generateText
             h (Some prompt) ps in
  exists v a text,
    0 <= v < 5
    /\ LlamaJniSimple.select_response (c_prefix prompt) v = Some a
    /\ (text = a \/ text = a ++ LlamaJniSimple.follow_up)
    /\ outcome_of r = Ret text
    /\ log_of r = [call_GetStringUTFChars prompt true;
                   call_ReleaseStringUTFChars prompt; call_NewStringUTF text]
    /\ LlamaJniSimple.heap (state_of r) = LlamaJniSimple.heap ps
    /\ LlamaJniSimple.global_model (state_of r) = LlamaJniSimple.global_model ps.
Proof.
  intros Hh Hlive Hid Hloaded Hchars Hlen Hrand r. subst r.
  apply Z.eqb_neq in Hh.
  destruct (LlamaJniSimple.Java_com_livecoding_demo_LlamaJNI_generateText _ _ _)
    as [[out t] p'] eqn:Hrun.
  unfold LlamaJniSimple.Java_com_livecoding_demo_LlamaJNI_generateText,
    LlamaJniSimple.deref, LlamaJniSimple.time, LlamaJniSimple.srand,
    LlamaJniSimple.rand, LlamaJniSimple.NewStringUTF in Hrun.
  rewrite Hh in Hrun. unfold NULL in Hrun. rewrite Hh in Hrun.
  run_in Hrun.
  all: rewrite ?Hlive in *; simplify_eq.
  all: use_answers; reflect_tests; unfold MAX_PROMPT_LENGTH in *.
  all: try (exfalso; intuition (try lia; try congruence); fail).
  all: match goal with
       | E : h_rand ?w = (?z, _),
         _ : context [LlamaJniSimple.select_response _ (Z.rem ?z 5)] |- _ =>
           let Hz := fresh "Hz" in
           pose proof (Hrand w) as Hz; rewrite E in Hz; simpl in Hz;
           pose proof (Z.rem_bound_pos z 5 Hz ltac:(lia)) as Hv
       end.
  all: try match goal with
         | E : LlamaJniSimple.select_response _ _ = None |- _ =>
             destruct (select_response_defined (c_prefix prompt) _ Hv) as [? ?];
             congruence
         end.
  all: match goal with
       | E : LlamaJniSimple.select_response _ _ = Some ?a |- _ =>
           pose proof (canned_answers_short a (select_response_canned _ _ _ E))
             as Hshort;
           rewrite snprintf_short
             by first [exact Hshort | rewrite length_app in Hshort; lia];
           eexists _, a, _; split; [exact Hv |]; split; [exact E |];
           unfold outcome_of, log_of, state_of; cbn [fst snd];
           split; [| repeat split]; auto
       end.
Qed.

(** X11. The checks of the mock [generateText].  A zero handle raises
    [IllegalArgumentException] ("Model not loaded"); a null prompt raises
    [IllegalArgumentException] ("Prompt cannot be null"); a structure whose
    id is not 12345 or that is not marked as loaded raises
    [IllegalStateException] ("Invalid model state"); a prompt of length 0 or
    above [MAX_PROMPT_LENGTH] raises [IllegalArgumentException] ("Invalid
    prompt length") after its characters are released.  On every path the
    heap and [global_model] are unchanged, and the characters obtained are
    released whenever the call returns or raises. *)
Theorem generateText_simple_checks_its_arguments `{Randomness W}
    (ps : LlamaJniSimple.process W) (h : jlong) (prompt : jstring) :
  let r := LlamaJniSimple.Java_com_livecoding_demo_LlamaJNI_generateText h prompt ps in
  let refused cls msg :=
    outcome_of r = Throw cls msg /\ log_of r = [call_ThrowNew cls msg] in
  (h = 0 -> refused IllegalArgumentException "Model not loaded"%string)
  /\ (h <> 0 -> prompt = None ->
      refused IllegalArgumentException "Prompt cannot be null"%string)
  /\ (forall c,
        h <> 0 -> prompt <> None -> LlamaJniSimple.heap ps !! h = Some c ->
        LlamaJniSimple.model_id c <> 12345 \/ LlamaJniSimple.is_loaded c = 0 ->
        refused IllegalStateException "Invalid model state"%string)
  /\ (forall c text,
        h <> 0 -> prompt = Some text -> LlamaJniSimple.heap ps !! h = Some c ->
        LlamaJniSimple.model_id c = 12345 -> LlamaJniSimple.is_loaded c <> 0 ->
        fst (h_GetStringUTFChars text (LlamaJniSimple.p_env ps)) = true ->
        strlen text = 0 \/ strlen text > MAX_PROMPT_LENGTH ->
        outcome_of r = Throw IllegalArgumentException "Invalid prompt length"
        /\ log_of r
           = [call_GetStringUTFChars text true; call_ReleaseStringUTFChars text;
              call_ThrowNew IllegalArgumentException "Invalid prompt length"])
  /\ (LlamaJniSimple.heap (state_of r) = LlamaJniSimple.heap ps
      /\ LlamaJniSimple.global_model (state_of r) = LlamaJniSimple.global_model ps
      /\ ((forall f, outcome_of r <> Fault f) ->
          strings_released (log_of r) = strings_obtained (log_of r))).
Proof.
  intros r refused. subst r refused. cbv beta.
  destruct (LlamaJniSimple.Java_com_livecoding_demo_LlamaJNI_generateText _ _ _)
    as [[out t] p'] eqn:Hrun.
  unfold LlamaJniSimple.Java_com_livecoding_demo_LlamaJNI_generateText,
    LlamaJniSimple.deref, LlamaJniSimple.time, LlamaJniSimple.srand,
    LlamaJniSimple.rand, LlamaJniSimple.NewStringUTF in Hrun.
  run_in Hrun.
  all: unfold outcome_of, log_of, state_of; cbn [fst snd].
  all: split; [intros Hh | split; [intros Hh Hp | split; [intros c Hh Hp Hlive Hc
         | split; [intros c text Hh Hp Hlive Hid Hloaded Hchars Hlen |]]]].
  all: try (repeat split; reflexivity).
  all: try (split; [reflexivity | split; [reflexivity | intros _; reflexivity]]).
  all: unfold NULL in *; reflect_tests; simplify_eq; use_answers;
       unfold MAX_PROMPT_LENGTH in *.
  all: try (split; reflexivity).
  all: try (exfalso; intuition (try lia; try congruence); fail).
  repeat split. intros Hf. by edestruct Hf.
Qed.

(** X12. The answers of the mock [generateText].  On a structure that is
    loaded, with a prompt of valid length and a generator whose draws are
    not negative, the call returns one of the thirty canned answers, alone
    or followed by the follow-up sentence, and never cut: it is shorter than
    the response array.  Its calls are [GetStringUTFChars],
    [ReleaseStringUTFChars] and [NewStringUTF] of the result; the heap and
    [global_model] are unchanged. *)
Theorem generateText_simple_answers `{Randomness W}
    (ps : LlamaJniSimple.process W) (h : jlong) c (prompt : list byte) :
  h <> 0 ->
  LlamaJniSimple.heap ps !! h = Some c ->
  LlamaJniSimple.model_id c = 12345 -> LlamaJniSimple.is_loaded c <> 0 ->
  fst (h_GetStringUTFChars prompt (LlamaJniSimple.p_env ps)) = true ->
  0 < strlen prompt <= MAX_PROMPT_LENGTH ->
  (forall w, 0 <= fst (h_rand w)) ->
  let r := LlamaJniSimple.Java_com_livecoding_demo_LlamaJNI_generateText
             h (Some prompt) ps in
  exists a text,
    a ∈ canned_answers
    /\ (text = a \/ text = a ++ LlamaJniSimple.follow_up)
    /\ outcome_of r = Ret text
    /\ Z.of_nat (length text) < MAX_RESPONSE_LENGTH
    /\ log_of r = [call_GetStringUTFChars prompt true;
                   call_ReleaseStringUTFChars prompt; call_NewStringUTF text]
    /\ LlamaJniSimple.heap (state_of r) = LlamaJniSimple.heap ps
    /\ LlamaJniSimple.global_model (state_of r) = LlamaJniSimple.global_model ps.
Proof.
  intros Hh Hlive Hid Hloaded Hchars Hlen Hrand r.
  destruct (generateText_simple_run ps h c prompt Hh Hlive Hid Hloaded Hchars
              Hlen Hrand)
    as (v & a & text & Hv & Hsel & Htext & Hout & Hlog & Hheap & Hglobal).
  pose proof (select_response_canned _ _ _ Hsel) as Ha.
  pose proof (canned_answers_short a Ha) as Hshort.
  exists a, text. repeat split; try done.
  destruct Htext as [-> | ->]; [rewrite length_app in Hshort; lia | done].
Qed.

(** X13. How the mock [generateText] chooses its answer.  A prompt in
    which "2+2" or "2 + 2" occurs is answered from the answers on that sum.
    A prompt with none of "+", "-", "*", "/", "math", "calculate" in which
    one of "Hello", "hello", "Hi", "hi", "how are you" occurs, anywhere and
    inside a word too, is answered from the greetings, whether it is a
    question or not.  A prompt with none of the words of the chain is
    answered from the defaults. *)
Theorem generateText_simple_chooses_by_substring `{Randomness W}
    (ps : LlamaJniSimple.process W) (h : jlong) c (prompt : list byte) :
  h <> 0 ->
  LlamaJniSimple.heap ps !! h = Some c ->
  LlamaJniSimple.model_id c = 12345 -> LlamaJniSimple.is_loaded c <> 0 ->
  fst (h_GetStringUTFChars prompt (LlamaJniSimple.p_env ps)) = true ->
  0 < strlen prompt <= MAX_PROMPT_LENGTH ->
  (forall w, 0 <= fst (h_rand w)) ->
  let r := LlamaJniSimple.Java_com_livecoding_demo_LlamaJNI_generateText
             h (Some prompt) ps in
  let answered_from table :=
    exists a, a ∈ table
      /\ (outcome_of r = Ret a
          \/ outcome_of r = Ret (a ++ LlamaJniSimple.follow_up)) in
  (mentions ["2+2"; "2 + 2"]%string (c_prefix prompt) ->
   answered_from LlamaJniSimple.math_responses)
  /\ (~ mentions ["+"; "-"; "*"; "/"; "math"; "calculate"]%string (c_prefix prompt) ->
      mentions ["Hello"; "hello"; "Hi"; "hi"; "how are you"]%string (c_prefix prompt) ->
      answered_from LlamaJniSimple.greetings)
  /\ (~ mentions ["+"; "-"; "*"; "/"; "math"; "calculate";
                  "Hello"; "hello"; "Hi"; "hi"; "how are you";
                  "I am"; "My name is"; "I'm";
                  "what"; "What"; "how"; "How"; "why"; "Why"; "?"]%string
         (c_prefix prompt) ->
      answered_from LlamaJniSimple.defaults).
Proof.
  intros Hh Hlive Hid Hloaded Hchars Hlen Hrand r answered_from.
  destruct (generateText_simple_run ps h c prompt Hh Hlive Hid Hloaded Hchars
              Hlen Hrand)
    as (v & a & text & Hv & Hsel & Htext & Hout & _).
  fold r in Hout.
  assert (Hanswer : forall table,
             LlamaJniSimple.select_response (c_prefix prompt) v = array_at table v ->
             answered_from table).
  { intros table Htable. exists a. split.
    - apply (array_at_elem table v). congruence.
    - destruct Htext as [-> | ->]; auto. }
  split; [| split].
  - intros Hm. by apply Hanswer, select_response_arithmetic.
  - intros Hno Hm. by apply Hanswer, select_response_greeting.
  - intros Hno. by apply Hanswer, select_response_default.
Qed.

(** [isModelLoaded], case by case. *)
Lemma isModelLoaded_cases (ps : LlamaJniSimple.process W) (h : jlong) :
  LlamaJniSimple.Java_com_livecoding_demo_LlamaJNI_isModelLoaded h ps
  = if h =? 0 then (Ret false, [], ps) else
    match LlamaJniSimple.heap ps !! h with
    | Some c => (Ret ((LlamaJniSimple.model_id c =? 12345)
                      && negb (LlamaJniSimple.is_loaded c =? 0)), [], ps)
    | None => (Fault InvalidPointer, [], ps)
    end.
Proof.
  unfold LlamaJniSimple.Java_com_livecoding_demo_LlamaJNI_isModelLoaded,
    LlamaJniSimple.deref, NULL.
  destruct (h =? 0); [done |]. autounfold with native.
  by destruct (LlamaJniSimple.heap ps !! h).
Qed.

(** X14. [isModelLoaded] makes no call and changes nothing.  It answers
    true exactly for a non-zero handle of a live structure whose id is 12345
    and that is marked as loaded, and then [generateText] is not refused for
    its handle; when it answers false, [generateText] is refused with
    "Model not loaded" or "Invalid model state".  On a handle that is not
    zero and not live it reads through the handle: the behaviour is not
    defined. *)
Theorem isModelLoaded_guards_generateText `{Randomness W}
    (ps : LlamaJniSimple.process W) (h : jlong) (prompt : list byte) :
  let q := LlamaJniSimple.Java_com_livecoding_demo_LlamaJNI_isModelLoaded h ps in
  let r := LlamaJniSimple.Java_com_livecoding_demo_LlamaJNI_generateText
             h (Some prompt) ps in
  (log_of q = [] /\ state_of q = ps)
  /\ (outcome_of q = Ret true <->
      exists c, h <> 0 /\ LlamaJniSimple.heap ps !! h = Some c
                /\ LlamaJniSimple.model_id c = 12345
                /\ LlamaJniSimple.is_loaded c <> 0)
  /\ (outcome_of q = Ret false ->
      outcome_of r = Throw IllegalArgumentException "Model not loaded"
      \/ outcome_of r = Throw IllegalStateException "Invalid model state")
  /\ (outcome_of q = Ret true ->
      forall msg,
        outcome_of r <> Throw IllegalArgumentException "Model not loaded"
        /\ outcome_of r <> Throw IllegalStateException msg
        /\ outcome_of r <> Fault InvalidPointer)
  /\ (outcome_of q = Fault InvalidPointer <->
      h <> 0 /\ LlamaJniSimple.heap ps !! h = None).
Proof.
  intros q r. subst q r. rewrite isModelLoaded_cases.
  destruct (LlamaJniSimple.Java_com_livecoding_demo_LlamaJNI_generateText _ _ _)
    as [[out t] p'] eqn:Hrun.
  unfold LlamaJniSimple.Java_com_livecoding_demo_LlamaJNI_generateText,
    LlamaJniSimple.deref, LlamaJniSimple.time, LlamaJniSimple.srand,
    LlamaJniSimple.rand, LlamaJniSimple.NewStringUTF in Hrun.
  run_in Hrun.
  all: unfold NULL in *; unfold outcome_of, log_of, state_of.
  all: repeat match goal with
         | E : (?x =? 0) = _ |- context [?x =? 0] => rewrite E
         | E : ?m !! ?x = _ |- context [?m !! ?x] => rewrite E
         end.
  all: cbn [fst snd]; reflect_tests.
  all: repeat match goal with
         | E : ?x = 12345 |- context [?x =? 12345] =>
             rewrite (proj2 (Z.eqb_eq x 12345) E)
         | E : ?x <> 12345 |- context [?x =? 12345] =>
             rewrite (proj2 (Z.eqb_neq x 12345) E)
         | E : ?x = 0 |- context [?x =? 0] => rewrite (proj2 (Z.eqb_eq x 0) E)
         | E : ?x <> 0 |- context [?x =? 0] => rewrite (proj2 (Z.eqb_neq x 0) E)
         end.
  all: cbn [andb negb]; rewrite ?andb_false_r.
  all: repeat split; try done; try (intros; simplify_eq; fail).
  all: try (intros (c & ? & ? & ? & ?); simplify_eq; fail).
  all: try (intros _; eauto 10; fail).
  all: try (intros [? ?]; simplify_eq; fail).
Qed.

(** [getModelInfo] on a structure with the model id: the text it formats. *)
Lemma getModelInfo_run (ps : LlamaJniSimple.process W) (h : jlong) c :
  h <> 0 -> LlamaJniSimple.heap ps !! h = Some c ->
  LlamaJniSimple.model_id c = 12345 ->
  let path := c_prefix (LlamaJniSimple.model_path c) in
  let filename :=
    match (if found (strrchr path backslash)
           then strrchr path backslash else strrchr path slash) with
    | None => path
    | Some f => drop 1 f
    end in
  let info := snprintf 1024 (list_byte_of_string "Model loaded from: " ++ filename) in
  LlamaJniSimple.Java_com_livecoding_demo_LlamaJNI_getModelInfo h ps
  = (Ret info, [call_NewStringUTF info],
     {| LlamaJniSimple.p_env :=
          observe (call_NewStringUTF info) (LlamaJniSimple.p_env ps);
        LlamaJniSimple.heap := LlamaJniSimple.heap ps;
        LlamaJniSimple.global_model := LlamaJniSimple.global_model ps |}).
Proof.
  intros Hh%Z.eqb_neq Hlive Hid%Z.eqb_eq path filename info.
  unfold LlamaJniSimple.Java_com_livecoding_demo_LlamaJNI_getModelInfo,
    LlamaJniSimple.deref, LlamaJniSimple.NewStringUTF, NULL.
  rewrite Hh. autounfold with native. cbn beta iota.
  rewrite Hlive. cbn beta iota. rewrite Hid. cbn [negb]. cbn beta iota.
  rewrite Hlive. reflexivity.
Qed.

Lemma snprintf_length size s :
  0 < size -> Z.of_nat (length (snprintf size s)) <= size - 1.
Proof. intros Hs. unfold snprintf. rewrite length_take. lia. Qed.

(** X16. The file name that [getModelInfo] reports for a structure with
    the id 12345, marked as loaded or not: the text after the last backslash
    of the path when there is one (slashes after it are kept), otherwise the
    text after the last slash, otherwise the whole path.  The result is
    "Model loaded from: " followed by that name, cut to the 1023 bytes of the
    buffer; [NewStringUTF] is the only call and the state is unchanged. *)
Theorem getModelInfo_names_the_file
    (ps : LlamaJniSimple.process W) (h : jlong) c (dir name : list byte) :
  h <> 0 -> LlamaJniSimple.heap ps !! h = Some c ->
  LlamaJniSimple.model_id c = 12345 ->
  let path := c_prefix (LlamaJniSimple.model_path c) in
  let r := LlamaJniSimple.Java_com_livecoding_demo_LlamaJNI_getModelInfo h ps in
  let reports file :=
    outcome_of r
    = Ret (snprintf 1024 (list_byte_of_string "Model loaded from: " ++ file)) in
  (path = dir ++ backslash :: name -> backslash ∉ name -> reports name)
  /\ (backslash ∉ path -> path = dir ++ slash :: name -> slash ∉ name ->
      reports name)
  /\ (backslash ∉ path -> slash ∉ path -> reports path)
  /\ (forall info,
        outcome_of r = Ret info ->
        Z.of_nat (length info) <= 1023 /\ log_of r = [call_NewStringUTF info]
        /\ LlamaJniSimple.heap (state_of r) = LlamaJniSimple.heap ps
        /\ LlamaJniSimple.global_model (state_of r)
           = LlamaJniSimple.global_model ps).
Proof.
  intros Hh Hlive Hid path r reports. subst r reports. cbv beta.
  rewrite (getModelInfo_run ps h c Hh Hlive Hid). fold path.
  unfold outcome_of, log_of, state_of. cbn [fst snd].
  split; [| split; [| split]].
  - intros -> Hname. by rewrite (strrchr_last dir backslash name Hname).
  - intros Hno -> Hname.
    by rewrite (strrchr_none _ backslash Hno), (strrchr_last dir slash name Hname).
  - intros Hb Hs. by rewrite (strrchr_none _ backslash Hb), (strrchr_none _ slash Hs).
  - intros info Hinfo. simplify_eq. repeat split.
    match goal with
    | |- Z.of_nat (length (snprintf _ ?x)) <= _ =>
        pose proof (snprintf_length 1024 x ltac:(lia))
    end.
    lia.
Qed.

(** X15. [getModelInfo] never raises.  For a zero handle it returns the
    string "No model loaded" and for a structure with another id the string
    "Invalid model state", as ordinary results.  Its only undefined case is
    a non-zero handle that is not live.  It makes one Java string, its
    result, and leaves the heap and [global_model] unchanged. *)
Theorem getModelInfo_never_throws (ps : LlamaJniSimple.process W) (h : jlong) :
  let r := LlamaJniSimple.Java_com_livecoding_demo_LlamaJNI_getModelInfo h ps in
  (h = 0 -> outcome_of r = Ret (list_byte_of_string "No model loaded"))
  /\ (forall c,
        h <> 0 -> LlamaJniSimple.heap ps !! h = Some c ->
        LlamaJniSimple.model_id c <> 12345 ->
        outcome_of r = Ret (list_byte_of_string "Invalid model state"))
  /\ (forall cls msg, outcome_of r <> Throw cls msg)
  /\ (forall f, outcome_of r = Fault f ->
                f = InvalidPointer /\ h <> 0 /\ LlamaJniSimple.heap ps !! h = None)
  /\ strings_made (log_of r)
     = match outcome_of r with Ret info => [info] | _ => [] end
  /\ LlamaJniSimple.heap (state_of r) = LlamaJniSimple.heap ps
  /\ LlamaJniSimple.global_model (state_of r) = LlamaJniSimple.global_model ps.
Proof.
  intros r. subst r.
  destruct (LlamaJniSimple.Java_com_livecoding_demo_LlamaJNI_getModelInfo _ _)
    as [[out t] p'] eqn:Hrun.
  unfold LlamaJniSimple.Java_com_livecoding_demo_LlamaJNI_getModelInfo,
    LlamaJniSimple.deref, LlamaJniSimple.NewStringUTF, NULL in Hrun.
  destruct (h =? 0) eqn:Hh; reflect_tests.
  - run_in Hrun. unfold outcome_of, log_of, state_of. cbn [fst snd].
    repeat split; try done; intros; simplify_eq.
  - autounfold with native in Hrun. cbn beta iota in Hrun.
    destruct (LlamaJniSimple.heap ps !! h) as [c |] eqn:Hlive; cbn beta iota in Hrun.
    + destruct (LlamaJniSimple.model_id c =? 12345) eqn:Hid;
        cbn [negb] in Hrun; cbn beta iota in Hrun.
      * rewrite Hlive in Hrun. finish_run Hrun.
        unfold outcome_of, log_of, state_of. cbn [fst snd]. reflect_tests.
        repeat split; try done; intros; simplify_eq.
      * finish_run Hrun.
        unfold outcome_of, log_of, state_of. cbn [fst snd]. reflect_tests.
        repeat split; try done; intros; simplify_eq.
    + finish_run Hrun.
      unfold outcome_of, log_of, state_of. cbn [fst snd].
      repeat split; try done; intros; simplify_eq; done.
Qed.

Lemma c_prefix_idem s : c_prefix (c_prefix s) = c_prefix s.
Proof.
  induction s as [|b s IH]; [done |]. simpl.
  destruct (Byte.eqb b x00) eqn:Hb; [done |]. simpl. by rewrite Hb, IH.
Qed.

Lemma c_prefix_take n s : c_prefix (take n (c_prefix s)) = take n (c_prefix s).
Proof.
  revert n. induction s as [|b s IH]; intros n; [by destruct n |]. simpl.
  destruct (Byte.eqb b x00) eqn:Hb; [by destruct n |].
  destruct n as [|n]; [done |]. simpl. by rewrite Hb, IH.
Qed.

(** What the mock [loadModel] leaves behind. *)
Lemma loadModel_simple_loaded (ps : LlamaJniSimple.process W) (path : list byte) :
  let r := LlamaJniSimple.Java_com_livecoding_demo_LlamaJNI_loadModel (Some path) ps in
  (forall h,
     outcome_of r = Ret h ->
     h <> NULL
     /\ LlamaJniSimple.heap (state_of r)
        = <[h := {| LlamaJniSimple.model_id := 12345;
                    LlamaJniSimple.model_path := take 1023 (c_prefix path);
                    LlamaJniSimple.is_loaded := 1 |}]> (LlamaJniSimple.heap ps)
     /\ LlamaJniSimple.global_model (state_of r) = h
     /\ blocks_allocated (log_of r) = [h])
  /\ strings_released (log_of r) = strings_obtained (log_of r)
  /\ length (files_closed (log_of r)) = length (files_opened (log_of r))
  /\ blocks_freed (log_of r) = [].
Proof.
  intros r. subst r.
  destruct (LlamaJniSimple.Java_com_livecoding_demo_LlamaJNI_loadModel _ _)
    as [[out t] p'] eqn:Hrun.
  unfold LlamaJniSimple.Java_com_livecoding_demo_LlamaJNI_loadModel,
    LlamaJniSimple.file_exists, LlamaJniSimple.printf, LlamaJniSimple.store_struct,
    LlamaJniSimple.set_global_model in Hrun.
  run_in Hrun.
  all: unfold outcome_of, log_of, state_of; cbn [fst snd].
  all: split; [intros h Hr; simplify_eq | repeat split].
  all: unfold blocks_allocated; simpl.
  all: repeat match goal with
         | E : (?x =? NULL) = _ |- context [?x =? NULL] => rewrite E
         end.
  all: reflect_tests; done.
Qed.

(** X17. The mock [loadModel] on a path.  When it returns a handle, the
    handle is not null, the structure at the handle has the id 12345, the
    path cut to 1023 bytes and the mark of a loaded model, [global_model]
    is the handle and the one block allocated is the structure.  On every
    path the characters of the path are released, every file that was
    opened is closed and nothing is freed. *)
Theorem loadModel_simple_loads (ps : LlamaJniSimple.process W) (path : list byte) :
  let r := LlamaJniSimple.Java_com_livecoding_demo_LlamaJNI_loadModel (Some path) ps in
  (forall h,
     outcome_of r = Ret h ->
     h <> NULL
     /\ LlamaJniSimple.heap (state_of r)
        = <[h := {| LlamaJniSimple.model_id := 12345;
                    LlamaJniSimple.model_path := take 1023 (c_prefix path);
                    LlamaJniSimple.is_loaded := 1 |}]> (LlamaJniSimple.heap ps)
     /\ LlamaJniSimple.global_model (state_of r) = h
     /\ blocks_allocated (log_of r) = [h])
  /\ strings_released (log_of r) = strings_obtained (log_of r)
  /\ length (files_closed (log_of r)) = length (files_opened (log_of r))
  /\ blocks_freed (log_of r) = [].
Proof. apply loadModel_simple_loaded. Qed.

Lemma unloadModel_simple_global (ps : LlamaJniSimple.process W) (h : jlong) smc :
  h <> 0 -> LlamaJniSimple.heap ps !! h = Some smc ->
  LlamaJniSimple.global_model
    (state_of (LlamaJniSimple.Java_com_livecoding_demo_LlamaJNI_unloadModel h ps))
  = if LlamaJniSimple.global_model ps =? h then NULL
    else LlamaJniSimple.global_model ps.
Proof.
  intros Hh%Z.eqb_neq Hlive.
  unfold LlamaJniSimple.Java_com_livecoding_demo_LlamaJNI_unloadModel,
    LlamaJniSimple.get_global_model, LlamaJniSimple.set_global_model,
    LlamaJniSimple.free_struct, NULL.
  rewrite Hh. autounfold with native. simpl.
  destruct (_ =? h); simpl; rewrite Hlive; done.
Qed.

Lemma generateText_simple_dangling `{Randomness W}
    (ps : LlamaJniSimple.process W) (h : jlong) (prompt : list byte) :
  h <> 0 -> LlamaJniSimple.heap ps !! h = None ->
  outcome_of (LlamaJniSimple.Java_com_livecoding_demo_LlamaJNI_generateText
                h (Some prompt) ps) = Fault InvalidPointer
  /\ outcome_of (LlamaJniSimple.Java_com_livecoding_demo_LlamaJNI_getModelInfo h ps)
     = Fault InvalidPointer
  /\ outcome_of (LlamaJniSimple.Java_com_livecoding_demo_LlamaJNI_isModelLoaded h ps)
     = Fault InvalidPointer.
Proof.
  intros Hh%Z.eqb_neq Hdead.
  rewrite isModelLoaded_cases, Hh, Hdead.
  unfold LlamaJniSimple.Java_com_livecoding_demo_LlamaJNI_generateText,
    LlamaJniSimple.Java_com_livecoding_demo_LlamaJNI_getModelInfo,
    LlamaJniSimple.deref, NULL.
  rewrite Hh. autounfold with native. cbn beta iota. rewrite Hdead. done.
Qed.

(** X18. The life of a mock session.  After a [loadModel] that returned
    [h], [isModelLoaded h] answers true and [getModelInfo h] reports the
    name after the last slash of a path without backslash (of at most 1004
    bytes).  [unloadModel h] then returns after one [free], resets
    [global_model] and leaves the heap as before the load, without [h].
    After it the handle dangles: [isModelLoaded], [getModelInfo] and
    [generateText] on [h] read through a pointer that is not live. *)
Theorem simple_session_lifecycle `{Randomness W}
    (ps : LlamaJniSimple.process W) (path prompt : list byte) (h : jlong) :
  let r := LlamaJniSimple.Java_com_livecoding_demo_LlamaJNI_loadModel (Some path) ps in
  outcome_of r = Ret h ->
  let u := LlamaJniSimple.Java_com_livecoding_demo_LlamaJNI_unloadModel
             h (state_of r) in
  (outcome_of (LlamaJniSimple.Java_com_livecoding_demo_LlamaJNI_isModelLoaded
                 h (state_of r)) = Ret true
   /\ forall dir name,
        c_prefix path = dir ++ slash :: name ->
        backslash ∉ c_prefix path -> slash ∉ name ->
        (length (c_prefix path) <= 1004)%nat ->
        outcome_of (LlamaJniSimple.Java_com_livecoding_demo_LlamaJNI_getModelInfo
                      h (state_of r))
        = Ret (list_byte_of_string "Model loaded from: " ++ name))
  /\ (outcome_of u = Ret tt /\ log_of u = [call_free h]
      /\ LlamaJniSimple.global_model (state_of u) = NULL
      /\ LlamaJniSimple.heap (state_of u) = delete h (LlamaJniSimple.heap ps))
  /\ (outcome_of (LlamaJniSimple.Java_com_livecoding_demo_LlamaJNI_isModelLoaded
                    h (state_of u)) = Fault InvalidPointer
      /\ outcome_of (LlamaJniSimple.Java_com_livecoding_demo_LlamaJNI_getModelInfo
                       h (state_of u)) = Fault InvalidPointer
      /\ outcome_of (LlamaJniSimple.Java_com_livecoding_demo_LlamaJNI_generateText
                       h (Some prompt) (state_of u)) = Fault InvalidPointer).
Proof.
  intros r Hr u.
  destruct (proj1 (loadModel_simple_loaded ps path) h Hr) as (Hh & Hheap & Hglobal & _).
  fold r in Hheap, Hglobal.
  assert (Hlive : LlamaJniSimple.heap (state_of r) !! h
                  = Some {| LlamaJniSimple.model_id := 12345;
                            LlamaJniSimple.model_path := take 1023 (c_prefix path);
                            LlamaJniSimple.is_loaded := 1 |})
    by (rewrite Hheap; apply lookup_insert_eq).
  destruct (unloadModel_simple_live (state_of r) h _ Hh Hlive) as (Ho & Hl & Hp).
  pose proof (unloadModel_simple_global (state_of r) h _ Hh Hlive) as Hg.
  fold u in Ho, Hl, Hp, Hg.
  rewrite Hglobal, Z.eqb_refl in Hg. rewrite Hheap, delete_insert_eq in Hp.
  assert (Hdead : LlamaJniSimple.heap (state_of u) !! h = None)
    by (rewrite Hp; apply lookup_delete_eq).
  destruct (generateText_simple_dangling (state_of u) h prompt Hh Hdead)
    as (Hgen & Hinfo & Hq).
  split; [split | split; [done | done]].
  - rewrite isModelLoaded_cases, Hlive.
    apply Z.eqb_neq in Hh. unfold NULL in Hh. by rewrite Hh.
  - intros dir name Hpath Hb Hs Hlen.
    rewrite (getModelInfo_run (state_of r) h _ Hh Hlive eq_refl).
    cbn [LlamaJniSimple.model_path].
    rewrite c_prefix_take, take_ge by lia.
    rewrite (strrchr_none _ backslash Hb). cbn [found]. rewrite Hpath.
    rewrite (strrchr_last dir slash name Hs). cbn [drop outcome_of fst].
    rewrite drop_0.
    rewrite snprintf_short; [done |].
    rewrite length_app. rewrite Hpath, length_app in Hlen. simpl in Hlen.
    change (length (list_byte_of_string "Model loaded from: ")) with 19%nat. lia.
Qed.
End Mock.

(** ** More runs on the scripted hosts *)

Section MoreExamples.
Import Scripted Rolled.

Ltac evaluate := vm_compute; reflexivity.

Ltac promise_kept :=
  match goal with
  | |- Forall _ ?l =>
      let l' := eval vm_compute in l in
      replace l with l' by (vm_compute; reflexivity)
  end;
  repeat constructor; simpl; lia.

(** X2 on a run that appends two pieces: the token array at [2000] and the
    response array at [3000] are freed, the latter first. *)
Lemma generateText_frees_its_blocks_witness :
  let r := LlamaJni.Java_com_livecoding_demo_LlamaJNI_generateText
             1000 (Some hello) two_tokens_then_end in
  (forall f, outcome_of r <> Fault f)
  /\ blocks_allocated (log_of r) = [2000; 3000]
  /\ blocks_freed (log_of r) = reverse (blocks_allocated (log_of r)).
Proof.
  intros r.
  assert (Hf : forall f, outcome_of r <> Fault f) by (intros f; vm_compute; discriminate).
  split; [exact Hf | split; [evaluate |]].
  exact (proj1 (generateText_frees_its_blocks two_tokens_then_end 1000 (Some hello) 5) Hf).
Defined.

(** X3 on the same run: the session at [1000] is still there. *)
Lemma generateText_keeps_sessions_witness :
  let r := LlamaJni.Java_com_livecoding_demo_LlamaJNI_generateText
             1000 (Some hello) two_tokens_then_end in
  session_at two_tokens_then_end 1000 session
  /\ session_at (state_of r) 1000 session.
Proof.
  intros r.
  assert (Hs : session_at two_tokens_then_end 1000 session) by apply loaded_session.
  split; [exact Hs |].
  exact (proj1 (proj2 (generateText_keeps_sessions two_tokens_then_end 1000
                         (Some hello) 5) 1000 session Hs)).
Defined.

(** X4 on a run whose priming decode answers 5. *)
Lemma generateText_priming_decode_fails_witness :
  let r := LlamaJni.Java_com_livecoding_demo_LlamaJNI_generateText
             1000 (Some hello) priming_decode_fails in
  decodes (log_of r) = [5]
  /\ outcome_of r = Throw RuntimeException "Failed to evaluate prompt"
  /\ samples (log_of r) = [] /\ strings_made (log_of r) = [].
Proof.
  intros r.
  assert (Hd : decodes (log_of r) = [5]) by evaluate.
  destruct (proj1 (generateText_priming_decode_fails priming_decode_fails 1000
                     (Some hello) 5) 5 [] Hd ltac:(discriminate))
    as (Ho & _ & Hs & Hm).
  exact (conj Hd (conj Ho (conj Hs Hm))).
Defined.

(** X5 on a run that accepts tokens 1 and 3: they are the tokens converted,
    and the batches decoded after the prompt are [[1]] and [[3]]. *)
Lemma generateText_tokens_in_step_witness :
  let r := LlamaJni.Java_com_livecoding_demo_LlamaJNI_generateText
             1000 (Some hello) two_tokens_then_end in
  (forall f, outcome_of r <> Fault f)
  /\ accepts (log_of r) = [1; 3]
  /\ piece_tokens (log_of r) = accepts (log_of r)
  /\ decode_batches (log_of r) = [[11; 12; 13]; [1]; [3]]
  /\ tail (decode_batches (log_of r)) = (fun tok => [tok]) <$> accepts (log_of r).
Proof.
  intros r.
  assert (Hf : forall f, outcome_of r <> Fault f) by (intros f; vm_compute; discriminate).
  destruct (proj1 (generateText_tokens_in_step two_tokens_then_end 1000
                     (Some hello) 5)) as [Hp Hb].
  split; [exact Hf | split; [evaluate | split; [exact Hp | split; [evaluate |]]]].
  exact (Hb Hf).
Defined.

(** X6 on a run with [maxTokens = 2]: two pieces are converted and the text
    has two bytes, within 512. *)
Lemma generateText_text_within_budget_witness :
  let r := LlamaJniNew.Java_com_livecoding_demo_LlamaJNI_generateText
             1000 (Some hello) 2 four_tokens_then_end in
  engine_kept_promise r
  /\ outcome_of r = Ret (list_byte_of_string "AC")
  /\ Z.of_nat (length (pieces (log_of r))) <= 2
  /\ Z.of_nat (length (list_byte_of_string "AC")) <= 256 * 2.
Proof.
  intros r.
  assert (Hp : engine_kept_promise r) by (unfold engine_kept_promise; promise_kept).
  assert (Ho : outcome_of r = Ret (list_byte_of_string "AC")) by evaluate.
  destruct (generateText_text_within_budget four_tokens_then_end 1000 (Some hello) 2
              (list_byte_of_string "AC") Hp Ho) as (_ & Hn & Hb).
  split; [exact Hp | split; [exact Ho | split; [exact Hn | apply Hb; lia]]].
Defined.

(** X7 on a load that succeeds: the session at [1000] holds the model at
    [100], the context at [200] and the sampler chain at [300]. *)
Lemma loadModel_holds_what_it_made_witness :
  let r := LlamaJni.Java_com_livecoding_demo_LlamaJNI_loadModel
             (Some model_file) (boot healthy) in
  outcome_of r = Ret 1000
  /\ heap (state_of r) !! 1000 = Some session
  /\ ledger [] (log_of r) = [Sampler 300; Context 200; Model 100; Backend]
  /\ exists m c s,
       heap (state_of r)
       = <[1000 := {| model := m; ctx := c; sampler := s |}]> (heap (boot healthy))
       /\ forall held,
            ledger held (log_of r)
            = Sampler s :: Context c :: Model m :: Backend :: held.
Proof.
  intros r.
  assert (Ho : outcome_of r = Ret 1000) by evaluate.
  destruct (proj1 (loadModel_holds_what_it_made (boot healthy) (Some model_file) 1000) Ho)
    as (m & c & s & _ & Hheap & Hledger & _).
  split; [exact Ho | split; [evaluate | split; [evaluate |]]].
  exists m, c, s. exact (conj Hheap Hledger).
Defined.

(** X8 on the same load followed by [unloadModel]: nothing is held and the
    heap is empty again. *)
Lemma loadModel_then_unloadModel_witness :
  let r := LlamaJni.Java_com_livecoding_demo_LlamaJNI_loadModel
             (Some model_file) (boot healthy) in
  let u := LlamaJni.Java_com_livecoding_demo_LlamaJNI_unloadModel
             1000 (state_of r) in
  outcome_of r = Ret 1000 /\ heap (boot healthy) !! 1000 = None
  /\ outcome_of u = Ret tt
  /\ ledger [] (log_of r ++ log_of u) = []
  /\ heap (state_of u) = heap (boot healthy).
Proof.
  intros r u.
  assert (Ho : outcome_of r = Ret 1000) by evaluate.
  assert (Hfresh : heap (boot healthy) !! 1000 = None) by reflexivity.
  destruct (proj1 (loadModel_then_unloadModel (boot healthy) (Some model_file) 1000) Ho)
    as (Hu & Hledger & _ & _ & Hheap).
  exact (conj Ho (conj Hfresh (conj Hu (conj (Hledger []) (Hheap Hfresh))))).
Defined.

(** X9 on the same load: the four layers, at [901] to [904], are added to
    the chain at [300]. *)
Lemma loadModel_configuration_witness :
  let r := LlamaJni.Java_com_livecoding_demo_LlamaJNI_loadModel
             (Some model_file) (boot healthy) in
  outcome_of r = Ret 1000
  /\ layers_made (log_of r)
     = [(top_k 40, 901); (top_p 9 1, 902); (temp 8, 903); (dist 42, 904)]
  /\ layers_added (log_of r) = [(300, 901); (300, 902); (300, 903); (300, 904)]
  /\ Forall (fun params => n_gpu_layers params = 0) (models_loaded (log_of r)).
Proof.
  intros r.
  assert (Ho : outcome_of r = Ret 1000) by evaluate.
  destruct (proj1 (loadModel_configuration (boot healthy) (Some model_file)))
    as (Hgpu & _ & Hlayers).
  destruct (Hlayers 1000 Ho) as (mc & a & b & c & d & _ & _ & _).
  split; [exact Ho | split; [evaluate | split; [evaluate | exact Hgpu]]].
Defined.

(** X10 on a session whose sampler is missing. *)
Lemma generateText_checks_its_arguments_witness :
  let p := {| p_env := serving;
              heap := {[ 1000 := {| model := 100; ctx := 200; sampler := NULL |} ]} |} in
  let r := LlamaJni.Java_com_livecoding_demo_LlamaJNI_generateText
             1000 (Some hello) p in
  outcome_of r = Throw IllegalStateException "Invalid model state"
  /\ log_of r = [call_ThrowNew IllegalStateException "Invalid model state"].
Proof.
  intros p r.
  apply (proj1 (proj1 (proj2 (proj2 (generateText_checks_its_arguments p 1000
                                       (Some hello) 5)))
                  {| model := 100; ctx := 200; sampler := NULL |}
                  ltac:(discriminate) ltac:(discriminate) ltac:(reflexivity)
                  ltac:(right; right; reflexivity))).
Defined.

Lemma absent_byte (c : byte) (l : list byte) :
  forallb (fun b => negb (Byte.eqb b c)) l = true -> c ∉ l.
Proof.
  induction l as [|b l IH]; simpl; [intros _; apply not_elem_of_nil |].
  intros [Hb Hl]%andb_true_iff. apply not_elem_of_cons. split; [| by apply IH].
  intros ->. by rewrite (@Byte.byte_dec_lb b b eq_refl) in Hb.
Defined.

Lemma rolled_draws_nonnegative : forall w : world, 0 <= fst (h_rand w).
Proof. intros w. simpl. lia. Defined.

(** X11 on a structure that is not marked as loaded. *)
Lemma generateText_simple_checks_its_arguments_witness :
  let c := {| LlamaJniSimple.model_id := 12345; LlamaJniSimple.model_path := unix_path;
              LlamaJniSimple.is_loaded := 0 |} in
  let ps := {| LlamaJniSimple.p_env := {| engine := healthy; now := 0; draws := [] |};
               LlamaJniSimple.heap := {[ 1000 := c ]};
               LlamaJniSimple.global_model := 1000 |} in
  let r := LlamaJniSimple.Java_com_livecoding_demo_LlamaJNI_generateText
             1000 (Some what_is_this) ps in
  outcome_of r = Throw IllegalStateException "Invalid model state"
  /\ log_of r = [call_ThrowNew IllegalStateException "Invalid model state"].
Proof.
  intros c ps r.
  apply (proj1 (proj2 (proj2 (generateText_simple_checks_its_arguments ps 1000
                                (Some what_is_this)))) c
           ltac:(discriminate) ltac:(discriminate) ltac:(reflexivity)
           ltac:(right; reflexivity)).
Defined.

(** X12 on the prompt "What is this?" with the draws 7 and 3: the answer is
    the third greeting, followed by the follow-up sentence. *)
Lemma generateText_simple_answers_witness :
  let ps := loaded_simple unix_path [7; 3]%nat in
  let r := LlamaJniSimple.Java_com_livecoding_demo_LlamaJNI_generateText
             1000 (Some what_is_this) ps in
  (forall w : world, 0 <= fst (h_rand w))
  /\ outcome_of r
     = Ret (list_byte_of_string
              "Hello! It's great to meet you. I'm here and ready to help with whatever you need."
            ++ LlamaJniSimple.follow_up)
  /\ exists a text,
       a ∈ canned_answers
       /\ (text = a \/ text = a ++ LlamaJniSimple.follow_up)
       /\ outcome_of r = Ret text
       /\ log_of r = [call_GetStringUTFChars what_is_this true;
                      call_ReleaseStringUTFChars what_is_this; call_NewStringUTF text].
Proof.
  intros ps r.
  split; [exact rolled_draws_nonnegative | split; [evaluate |]].
  destruct (generateText_simple_answers ps 1000 _ what_is_this
              ltac:(discriminate) ltac:(reflexivity) ltac:(reflexivity)
              ltac:(discriminate) ltac:(reflexivity)
              ltac:(vm_compute; split; [reflexivity | discriminate])
              rolled_draws_nonnegative)
    as (a & text & Ha & Htext & Hout & _ & Hlog & _).
  exists a, text. exact (conj Ha (conj Htext (conj Hout Hlog))).
Defined.

(** X13 on the prompt "What is this?": it holds "hi" and nothing of
    arithmetic, and is answered with a greeting. *)
Lemma generateText_simple_chooses_by_substring_witness :
  let ps := loaded_simple unix_path [7; 3]%nat in
  let r := LlamaJniSimple.Java_com_livecoding_demo_LlamaJNI_generateText
             1000 (Some what_is_this) ps in
  ~ mentions ["+"; "-"; "*"; "/"; "math"; "calculate"]%string (c_prefix what_is_this)
  /\ mentions ["Hello"; "hello"; "Hi"; "hi"; "how are you"]%string
       (c_prefix what_is_this)
  /\ exists a, a ∈ LlamaJniSimple.greetings
       /\ (outcome_of r = Ret a
           \/ outcome_of r = Ret (a ++ LlamaJniSimple.follow_up)).
Proof.
  intros ps r.
  assert (Hno : ~ mentions ["+"; "-"; "*"; "/"; "math"; "calculate"]%string
                    (c_prefix what_is_this)).
  { intros Hm. apply mentions_found in Hm.
    repeat (apply Exists_cons in Hm as [Hm | Hm]; [vm_compute in Hm; discriminate |]).
    by apply Exists_nil in Hm. }
  assert (Hhi : mentions ["Hello"; "hello"; "Hi"; "hi"; "how are you"]%string
                  (c_prefix what_is_this)).
  { do 3 apply Exists_cons_tl. apply Exists_cons_hd.
    exists (list_byte_of_string "What is t"), (list_byte_of_string "s?"). reflexivity. }
  split; [exact Hno | split; [exact Hhi |]].
  exact (proj1 (proj2 (generateText_simple_chooses_by_substring ps 1000 _ what_is_this
                         ltac:(discriminate) ltac:(reflexivity) ltac:(reflexivity)
                         ltac:(discriminate) ltac:(reflexivity)
                         ltac:(vm_compute; split; [reflexivity | discriminate])
                         rolled_draws_nonnegative)) Hno Hhi).
Defined.

(** X16 on a path with both separators: the name reported starts after the
    backslash and keeps the slash. *)
Lemma getModelInfo_names_the_file_witness :
  let ps := loaded_simple windows_path [] in
  let r := LlamaJniSimple.Java_com_livecoding_demo_LlamaJNI_getModelInfo 1000 ps in
  outcome_of r
  = Ret (list_byte_of_string "Model loaded from: models/llama.gguf").
Proof.
  intros ps r.
  exact (proj1 (getModelInfo_names_the_file ps 1000 _
                  (list_byte_of_string "C:") (list_byte_of_string "models/llama.gguf")
                  ltac:(discriminate) ltac:(reflexivity) ltac:(reflexivity))
           ltac:(reflexivity)
           ltac:(apply absent_byte; reflexivity)).
Defined.

(** X17 on a load of the mock: the structure is stored at [1000] with the
    path, and [global_model] points at it. *)
Lemma loadModel_simple_loads_witness :
  let r := LlamaJniSimple.Java_com_livecoding_demo_LlamaJNI_loadModel
             (Some unix_path) (boot_simple []) in
  outcome_of r = Ret 1000
  /\ LlamaJniSimple.heap (state_of r) !! 1000
     = Some {| LlamaJniSimple.model_id := 12345;
               LlamaJniSimple.model_path := unix_path;
               LlamaJniSimple.is_loaded := 1 |}
  /\ LlamaJniSimple.global_model (state_of r) = 1000
  /\ blocks_allocated (log_of r) = [1000].
Proof.
  intros r.
  assert (Ho : outcome_of r = Ret 1000) by evaluate.
  destruct (proj1 (loadModel_simple_loads (boot_simple []) unix_path) 1000 Ho)
    as (_ & _ & Hg & Ha).
  split; [exact Ho | split; [evaluate | split; [exact Hg | exact Ha]]].
Defined.

(** X18 on the same load: the structure answers the queries, and after
    [unloadModel] the handle is dangling. *)
Lemma simple_session_lifecycle_witness :
  let r := LlamaJniSimple.Java_com_livecoding_demo_LlamaJNI_loadModel
             (Some unix_path) (boot_simple []) in
  let u := LlamaJniSimple.Java_com_livecoding_demo_LlamaJNI_unloadModel
             1000 (state_of r) in
  outcome_of r = Ret 1000
  /\ outcome_of (LlamaJniSimple.Java_com_livecoding_demo_LlamaJNI_isModelLoaded
                   1000 (state_of r)) = Ret true
  /\ outcome_of (LlamaJniSimple.Java_com_livecoding_demo_LlamaJNI_getModelInfo
                   1000 (state_of r))
     = Ret (list_byte_of_string "Model loaded from: llama.gguf")
  /\ outcome_of u = Ret tt
  /\ outcome_of (LlamaJniSimple.Java_com_livecoding_demo_LlamaJNI_isModelLoaded
                   1000 (state_of u)) = Fault InvalidPointer.
Proof.
  intros r u.
  assert (Ho : outcome_of r = Ret 1000) by evaluate.
  destruct (simple_session_lifecycle (boot_simple []) unix_path what_is_this 1000 Ho)
    as ((Hq & Hinfo) & (Hu & _) & (Hq' & _)).
  split; [exact Ho | split; [exact Hq | split; [| split; [exact Hu | exact Hq']]]].
  apply (Hinfo (list_byte_of_string "/opt/models") (list_byte_of_string "llama.gguf")).
  - reflexivity.
  - apply absent_byte; reflexivity.
  - apply absent_byte; reflexivity.
  - vm_compute. lia.
Defined.

End MoreExamples.
